(** * Generalized normalization (apex/normalization/instance_norm.py)

    The Python module assembles an operation graph through an NVFuser
    [FusionDefinition] and hands it to the engine for execution.  The
    development follows that split:

    - [Expr] is the graph the builder functions emit, one constructor per
      operation of the engine that the module uses;
    - [norm_fusion_forward], [norm_fusion_backward] and the two methods of
      [NormNVFuserFunction] are the builder functions, written in a small
      state-and-error monad over the [FusionDefinition];
    - [eval_shape] and [eval_at] give the graph its meaning over tensors of
      real numbers.  Element types are carried in the graph, but a cast is
      the identity on values: rounding is not part of this model. *)

From Stdlib Require Import List Bool Arith ZArith Lia.
From Stdlib Require Import Reals Lra.
From Stdlib Require String.
Import ListNotations.
Import String.StringSyntax.

Set Implicit Arguments.
Set Warnings "-register-all".

(** ** Python results *)

Inductive PyError : Type :=
| AssertionError (msg : String.string)
| IndexError
| ValueError
| RuntimeError.

Inductive Result (A : Type) : Type :=
| Ok (a : A)
| Raise (e : PyError).

Arguments Ok {A} a.
Arguments Raise {A} e.

(** ** Element types and axis roles *)

Inductive NamedAxis : Type := BATCH | CHANNEL.

Definition NamedAxis_eqb (a b : NamedAxis) : bool :=
  match a, b with
  | BATCH, BATCH | CHANNEL, CHANNEL => true
  | _, _ => false
  end.

(** [a in stat_axes] on a Python list. *)
Definition axis_in (a : NamedAxis) (stat_axes : list NamedAxis) : bool :=
  existsb (NamedAxis_eqb a) stat_axes.

Inductive TorchDtype : Type :=
| torch_float16 | torch_bfloat16 | torch_float32 | torch_float64
| torch_int32 | torch_int64 | torch_bool
| torch_complex64 | torch_complex128
| torch_uint8 | torch_int8 | torch_int16.

Inductive DataType : Type :=
| Half | BFloat16 | Float | Double | Int32 | Int | Bool
| ComplexFloat | ComplexDouble.

Definition torch2datatype (dt : TorchDtype) : option DataType :=
  match dt with
  | torch_float16 => Some Half
  | torch_bfloat16 => Some BFloat16
  | torch_float32 => Some Float
  | torch_float64 => Some Double
  | torch_int32 => Some Int32
  | torch_int64 => Some Int
  | torch_bool => Some Bool
  | torch_complex64 => Some ComplexFloat
  | torch_complex128 => Some ComplexDouble
  | torch_uint8 | torch_int8 | torch_int16 => None
  end.

(** [x_datatype in [DataType.Half, DataType.BFloat16]] *)
Definition is_reduced (x_datatype : option DataType) : bool :=
  match x_datatype with
  | Some Half | Some BFloat16 => true
  | _ => false
  end.

(** [dt in [torch.half, torch.bfloat16]] *)
Definition is_torch_reduced (dt : TorchDtype) : bool :=
  match dt with
  | torch_float16 | torch_bfloat16 => true
  | _ => false
  end.

(** ** The operation graph *)

Inductive Expr : Type :=
| TensorIn (k ndim : nat) (dt : option DataType)
| ScalarIn (k : nat) (dt : DataType)
| ConstInt (z : Z)
| ConstFloat (z : Z)
| Size (t : Expr) (ax : nat)
| Add (a b : Expr)
| Sub (a b : Expr)
| Mul (a b : Expr)
| Div (a b : Expr)
| Reciprocal (a : Expr)
| Rsqrt (a : Expr)
| Cast (a : Expr) (dt : DataType)
| Sum (a : Expr) (axes : list nat)
| VarOf (a : Expr) (axes : list nat) (correction : Z)
| MeanOf (a : Expr) (axes : list nat)
| BroadcastInDim (a : Expr) (shape : list Expr) (dims : list nat).

(** [ax in axes] on a Python list of ints. *)
Definition mem (ax : nat) (axes : list nat) : bool :=
  existsb (Nat.eqb ax) axes.

(** Extents that survive a reduction over [axes]; [ax] is the position of
    the head of the shape. *)
Fixpoint keep_dims (axes : list nat) (ax : nat) (sh : list nat) : list nat :=
  match sh with
  | [] => []
  | e :: sh' =>
      if mem ax axes then keep_dims axes (S ax) sh'
      else e :: keep_dims axes (S ax) sh'
  end.

(** Number of elements folded into one result of a reduction over [axes]. *)
Fixpoint reduced_count (axes : list nat) (ax : nat) (sh : list nat) : nat :=
  match sh with
  | [] => 1
  | e :: sh' =>
      if mem ax axes then e * reduced_count axes (S ax) sh'
      else reduced_count axes (S ax) sh'
  end.

(** Rank of the tensor an expression denotes, known while the graph is
    built (the sizes themselves are symbolic). *)
Fixpoint ndim (e : Expr) : nat :=
  match e with
  | TensorIn _ n _ => n
  | ScalarIn _ _ | ConstInt _ | ConstFloat _ | Size _ _ => 0
  | Add a b | Sub a b | Mul a b | Div a b => Nat.max (ndim a) (ndim b)
  | Reciprocal a | Rsqrt a | Cast a _ => ndim a
  | Sum a axes | VarOf a axes _ | MeanOf a axes =>
      length (filter (fun ax => negb (mem ax axes)) (seq 0 (ndim a)))
  | BroadcastInDim _ sh _ => length sh
  end.

(** [fd.ops.tensor_sizes(x)] *)
Definition tensor_sizes (x : Expr) : list Expr :=
  map (Size x) (seq 0 (ndim x)).

(** ** Tensors of reals *)

Record TVal : Type := mkTVal { shape : list nat; at_ : list nat -> R }.

Definition scalar (r : R) : TVal := mkTVal [] (fun _ => r).

Definition vec (l : list R) : TVal :=
  mkTVal [length l] (fun i => nth (nth 0 i 0%nat) l 0%R).

Definition mat (rows cols : nat) (l : list (list R)) : TVal :=
  mkTVal [rows; cols]
    (fun i => nth (nth 1 i 0%nat) (nth (nth 0 i 0%nat) l []) 0%R).

Definition cube (d0 d1 d2 : nat) (l : list (list (list R))) : TVal :=
  mkTVal [d0; d1; d2]
    (fun i =>
       nth (nth 2 i 0%nat) (nth (nth 1 i 0%nat) (nth (nth 0 i 0%nat) l []) []) 0%R).

(** Sum of [f 0 + ... + f (n-1)]. *)
Fixpoint Rsum_to (n : nat) (f : nat -> R) : R :=
  match n with
  | O => 0%R
  | S n' => (Rsum_to n' f + f n')%R
  end.

(** Reduction of [f] over the positions of [sh] listed in [axes]; the
    positions that are kept take their index from [j], in order. *)
Fixpoint sum_axes (axes : list nat) (ax : nat) (sh : list nat)
    (j : list nat) (f : list nat -> R) : R :=
  match sh with
  | [] => f []
  | e :: sh' =>
      if mem ax axes
      then Rsum_to e (fun k => sum_axes axes (S ax) sh' j (fun r => f (k :: r)))
      else sum_axes axes (S ax) sh' (tl j) (fun r => f (hd 0%nat j :: r))
  end.

(** The trailing [k] components of an index: an operand of lower rank
    is read at the trailing positions of the result (operands are aligned
    at the last dimension, as in the engine's implicit broadcast). *)
Definition lastn (k : nat) (i : list nat) : list nat :=
  skipn (length i - k) i.

(** An in-range index of a shape. *)
Fixpoint in_range (sh : list nat) (i : list nat) : Prop :=
  match sh, i with
  | [], [] => True
  | e :: sh', k :: i' => (k < e)%nat /\ in_range sh' i'
  | _, _ => False
  end.

Section Eval.

Variable inputs : list TVal.

Fixpoint eval_shape (e : Expr) : list nat :=
  match e with
  | TensorIn k _ _ => shape (nth k inputs (scalar 0))
  | ScalarIn _ _ | ConstInt _ | ConstFloat _ | Size _ _ => []
  | Add a b | Sub a b | Mul a b | Div a b =>
      if ndim a <? ndim b then eval_shape b else eval_shape a
  | Reciprocal a | Rsqrt a | Cast a _ => eval_shape a
  | Sum a axes | VarOf a axes _ | MeanOf a axes =>
      keep_dims axes 0 (eval_shape a)
  | BroadcastInDim _ sh _ =>
      map (fun s =>
             match s with
             | Size t ax => nth ax (eval_shape t) 0%nat
             | ConstInt z => Z.to_nat z
             | _ => 0%nat
             end) sh
  end.

Fixpoint eval_at (e : Expr) (i : list nat) : R :=
  match e with
  | TensorIn k _ _ => at_ (nth k inputs (scalar 0)) i
  | ScalarIn k _ => at_ (nth k inputs (scalar 0)) []
  | ConstInt z | ConstFloat z => IZR z
  | Size t ax => INR (nth ax (eval_shape t) 0%nat)
  | Add a b =>
      (eval_at a (lastn (ndim a) i) + eval_at b (lastn (ndim b) i))%R
  | Sub a b =>
      (eval_at a (lastn (ndim a) i) - eval_at b (lastn (ndim b) i))%R
  | Mul a b =>
      (eval_at a (lastn (ndim a) i) * eval_at b (lastn (ndim b) i))%R
  | Div a b =>
      (eval_at a (lastn (ndim a) i) / eval_at b (lastn (ndim b) i))%R
  | Reciprocal a => (/ eval_at a i)%R
  | Rsqrt a => (/ sqrt (eval_at a i))%R
  | Cast a _ => eval_at a i
  | Sum a axes => sum_axes axes 0 (eval_shape a) i (eval_at a)
  | MeanOf a axes =>
      let sh := eval_shape a in
      (sum_axes axes 0 sh i (eval_at a) / INR (reduced_count axes 0 sh))%R
  | VarOf a axes correction =>
      let sh := eval_shape a in
      let n := INR (reduced_count axes 0 sh) in
      let mu := (sum_axes axes 0 sh i (eval_at a) / n)%R in
      (sum_axes axes 0 sh i (fun r => (eval_at a r - mu) * (eval_at a r - mu))
       / (n - IZR correction))%R
  | BroadcastInDim a _ dims => eval_at a (map (fun d => nth d i 0%nat) dims)
  end.

(** The tensor an output of the graph holds after execution. *)
Definition materialize (e : Expr) : TVal :=
  mkTVal (eval_shape e) (eval_at e).

End Eval.

(** ** The fusion definition under construction *)

(** [num_inputs] counts the tensors and scalars defined so far: the engine
    binds the [k]-th of them to [inputs[k]] at execution.  [outputs] lists
    the calls of [fd.add_output] in order, each with its [alias_input]. *)
Record FusionDefinition : Type := mkFD {
  num_inputs : nat;
  outputs : list (Expr * option Expr)
}.

Definition empty_fd : FusionDefinition := mkFD 0 [].

Definition FD (A : Type) : Type :=
  FusionDefinition -> Result (A * FusionDefinition).

Definition ret {A : Type} (a : A) : FD A := fun fd => Ok (a, fd).

Definition bind {A B : Type} (m : FD A) (k : A -> FD B) : FD B :=
  fun fd =>
    match m fd with
    | Ok (a, fd') => k a fd'
    | Raise e => Raise e
    end.

Definition raise {A : Type} (e : PyError) : FD A := fun _ => Raise e.

Declare Scope fd_scope.
Delimit Scope fd_scope with fd.
Notation "x <- m ;; k" := (bind m (fun x => k))
  (at level 61, m at next level, right associativity) : fd_scope.
Notation "' pat <- m ;; k" :=
  (bind m (fun r => match r with pat => k end))
  (at level 61, pat pattern, m at next level, right associativity) : fd_scope.
Notation "m ;; k" := (bind m (fun _ => k))
  (at level 61, right associativity) : fd_scope.

Local Open Scope fd_scope.

(** [assert cond, msg] *)
Definition py_assert (cond : bool) (msg : String.string) : FD unit :=
  if cond then ret tt else raise (AssertionError msg).

(** [l[k]] for a non-negative [k]. *)
Definition index {A : Type} (l : list A) (k : nat) : FD A :=
  match nth_error l k with
  | Some a => ret a
  | None => raise IndexError
  end.

(** [fd.add_output(e)] and [fd.add_output(e, alias_input=t)] *)
Definition add_output (e : Expr) (alias_input : option Expr) : FD unit :=
  fun fd => Ok (tt, mkFD (num_inputs fd) (outputs fd ++ [(e, alias_input)])).

(** [fd.define_tensor(symbolic_sizes=[-1] * ndim, ..., dtype=dt)] *)
Definition define_tensor (nd : nat) (dt : option DataType) : FD Expr :=
  fun fd => Ok (TensorIn (num_inputs fd) nd dt,
                mkFD (S (num_inputs fd)) (outputs fd)).

(** [fd.define_scalar(dt)] *)
Definition define_scalar (dt : DataType) : FD Expr :=
  fun fd => Ok (ScalarIn (num_inputs fd) dt,
                mkFD (S (num_inputs fd)) (outputs fd)).

Definition is_none {A : Type} (o : option A) : bool :=
  match o with
  | None => true
  | Some _ => false
  end.

(** [fd.ops.cast(e, x_datatype) if x_datatype in [Half, BFloat16] else e] *)
Definition cast_if_reduced (x_datatype : option DataType) (e : Expr) : Expr :=
  match x_datatype with
  | Some Half => Cast e Half
  | Some BFloat16 => Cast e BFloat16
  | _ => e
  end.

(** The messages of the module's assertions. *)
Open Scope string_scope.

Definition running_stats_msg : String.string :=
  "Iff running mean or var is given, the other should be".

Definition unhandled_forward_msg : String.string :=
  "unhandled channels_last format variation in forward".

Definition unhandled_backward_msg : String.string :=
  "unhandled channels_last format variation in backward".

Close Scope string_scope.

(** The axis bookkeeping shared by the two builders (lines 110-136 and
    281-307 of the source are the same statements). *)
Record Axes : Type := mkAxes {
  dyn_shape : list Expr;
  num_dims : nat;
  batch_dim : nat;
  batch_size : Expr;
  channel_dim : nat;
  num_channels : Expr;
  stat_dims : list nat;
  stat_dims_nobatch : list nat;
  num_stats : Expr;
  x_reduction_axes : list nat;
  num_features : Expr
}.

Definition resolve_axes (x : Expr) (channels_last : bool)
    (stat_axes : list NamedAxis) : FD Axes :=
  let dyn_shape := tensor_sizes x in
  let num_dims := length dyn_shape in
  let batch_dim := 0 in
  batch_size <- index dyn_shape batch_dim ;;
  (* num_dims >= 1 here, so [num_dims - 1] is the Python value *)
  let channel_dim := if channels_last then num_dims - 1 else 1 in
  num_channels <- index dyn_shape channel_dim ;;
  let stat_dims := [] in
  let stat_dims_nobatch := [] in
  let num_stats := ConstInt 1 in
  let '(stat_dims, num_stats) :=
    if axis_in BATCH stat_axes
    then (stat_dims ++ [batch_dim], Mul num_stats batch_size)
    else (stat_dims, num_stats) in
  let '(stat_dims, stat_dims_nobatch, num_stats) :=
    if axis_in CHANNEL stat_axes
    then (stat_dims ++ [channel_dim], stat_dims_nobatch ++ [channel_dim],
          Mul num_stats num_channels)
    else (stat_dims, stat_dims_nobatch, num_stats) in
  let x_reduction_axes :=
    filter (fun ax => negb (mem ax stat_dims)) (seq 0 num_dims) in
  let num_features :=
    fold_left (fun acc ax => Mul acc (nth ax dyn_shape (ConstInt 0)))
      x_reduction_axes (ConstInt 1) in
  ret (mkAxes dyn_shape num_dims batch_dim batch_size channel_dim num_channels
         stat_dims stat_dims_nobatch num_stats x_reduction_axes num_features).

(** ** [norm_fusion_forward] *)

Definition norm_fusion_forward (x : Expr) (weight bias : option Expr)
    (running_mean running_var : option Expr) (eps : Expr)
    (use_input_stats : bool) (momentum : Expr) (channels_last : bool)
    (x_datatype : option DataType) (unbiased : bool)
    (stat_axes : list NamedAxis) : FD (Expr * Expr * Expr) :=
  py_assert (negb (xorb (is_none running_var) (is_none running_mean)))
    running_stats_msg ;;
  ax <- resolve_axes x channels_last stat_axes ;;
  ' (x_normed, mean, invstd) <-
    (if use_input_stats || is_none running_mean
     then
       let x_var := VarOf x (x_reduction_axes ax) (Z.b2z unbiased) in
       let x_mean := MeanOf x (x_reduction_axes ax) in
       match running_mean with
       | Some running_mean =>
           let one := ConstFloat 1 in
           let rev_momentum := Sub one momentum in
           (* do running mean with momentum *)
           let current_mean_hat := Mul x_mean momentum in
           let mean_hat := Mul running_mean rev_momentum in
           let new_mean_hat := Add mean_hat current_mean_hat in
           let new_mean_sum :=
             if axis_in BATCH stat_axes then Sum new_mean_hat [0]
             else new_mean_hat in
           let rev_batch_size := Reciprocal (batch_size ax) in
           let new_mean_channels_only := Mul new_mean_sum rev_batch_size in
           let new_mean_channels_only :=
             cast_if_reduced x_datatype new_mean_channels_only in
           add_output new_mean_channels_only (Some running_mean) ;;
           (* running var calculation *)
           match running_var with
           | Some running_var =>
               let x_var_unbiased :=
                 if negb unbiased
                 then
                   let b2ub :=
                     Div (num_features ax)
                       (Sub (num_features ax) (ConstInt 1)) in
                   Mul x_var b2ub
                 else x_var in
               let current_var_hat := Mul x_var_unbiased momentum in
               let var_hat := Mul running_var rev_momentum in
               let new_var_hat := Add var_hat current_var_hat in
               let new_var_sum :=
                 if axis_in BATCH stat_axes then Sum new_var_hat [0]
                 else new_var_hat in
               let new_var_channels_only := Mul new_var_sum rev_batch_size in
               let new_var_channels_only :=
                 cast_if_reduced x_datatype new_var_channels_only in
               add_output new_var_channels_only (Some running_var)
           | None => raise RuntimeError (* excluded by the first assertion *)
           end
       | None => ret tt
       end ;;
       let mean := x_mean in
       let mean_bcast := BroadcastInDim mean (dyn_shape ax) (stat_dims ax) in
       let x_sub_mean := Sub x mean_bcast in
       let var_eps := Add x_var eps in
       let invstd := Rsqrt var_eps in
       let invstd_bcast := BroadcastInDim invstd (dyn_shape ax) (stat_dims ax) in
       let x_normed := Mul x_sub_mean invstd_bcast in
       ret (x_normed, mean, invstd)
     else (* This is inference mode with running stats *)
       match running_mean, running_var with
       | Some running_mean, Some running_var =>
           let r_mean_bcast :=
             BroadcastInDim running_mean (dyn_shape ax) (stat_dims_nobatch ax) in
           let x_sub_mean := Sub x r_mean_bcast in
           let var_eps := Add running_var eps in
           let invstd := Rsqrt var_eps in
           let invstd_bcast :=
             BroadcastInDim invstd (dyn_shape ax) (stat_dims_nobatch ax) in
           let mean := running_mean in
           let x_normed := Mul x_sub_mean invstd_bcast in
           ret (x_normed, mean, invstd)
       | None, _ => raise (AssertionError String.EmptyString)
       | Some _, None => raise RuntimeError (* excluded by the first assertion *)
       end) ;;
  let x_normed :=
    match weight with
    | Some weight =>
        let weight_bcast :=
          BroadcastInDim weight (dyn_shape ax) (stat_dims_nobatch ax) in
        Mul x_normed weight_bcast
    | None => x_normed
    end in
  let x_normed :=
    match bias with
    | Some bias =>
        let bias_bcast :=
          BroadcastInDim bias (dyn_shape ax) (stat_dims_nobatch ax) in
        Add x_normed bias_bcast
    | None => x_normed
    end in
  ret (x_normed, mean, invstd).

(** ** [norm_fusion_backward] *)

Definition norm_fusion_backward (x grad_output mean invstd : Expr)
    (weight bias : option Expr) (running_mean running_var : option Expr)
    (use_input_stats : bool) (channels_last : bool)
    (x_datatype : option DataType) (stat_axes : list NamedAxis)
    : FD (Expr * option Expr * option Expr) :=
  py_assert (negb (xorb (is_none running_var) (is_none running_mean)))
    running_stats_msg ;;
  ax <- resolve_axes x channels_last stat_axes ;;
  let mean :=
    BroadcastInDim mean (dyn_shape ax) [batch_dim ax; channel_dim ax] in
  let norm := Reciprocal (num_features ax) in
  let grad_output_sum := Sum grad_output (x_reduction_axes ax) in
  let dot_p := Sum (Mul grad_output (Sub x mean)) (x_reduction_axes ax) in
  let grad_mean :=
    BroadcastInDim (Mul grad_output_sum norm) (dyn_shape ax)
      [batch_dim ax; channel_dim ax] in
  let proj_scale :=
    BroadcastInDim (Mul (Mul dot_p norm) (Mul invstd invstd)) (dyn_shape ax)
      [batch_dim ax; channel_dim ax] in
  let invstd_bcast :=
    BroadcastInDim invstd (dyn_shape ax) [batch_dim ax; channel_dim ax] in
  let grad_scale :=
    match weight with
    | None => invstd_bcast
    | Some weight =>
        Mul invstd_bcast (BroadcastInDim weight (dyn_shape ax) [0])
    end in
  let grad_input :=
    if use_input_stats
    then
      let proj := Mul (Sub x mean) proj_scale in
      Mul (Sub (Sub grad_output proj) grad_mean) grad_scale
    else Mul grad_output grad_scale in
  let grad_weight_reduced :=
    match weight with
    | Some _ =>
        let grad_weight := Mul dot_p invstd in
        Some (Sum grad_weight [0])
    | None => None
    end in
  let grad_bias_reduced :=
    match bias with
    | Some _ =>
        let grad_bias := grad_output_sum in
        Some (Sum grad_bias [0])
    | None => None
    end in
  ret (grad_input, grad_weight_reduced, grad_bias_reduced).

(** ** Torch tensors and execution *)

(** A torch tensor as the module sees it: element type, contents, and
    whether [is_contiguous] holds for [channels_last] or
    [channels_last_3d].  Strides are not modelled. *)
Record TorchTensor : Type := mkTensor {
  dtype : TorchDtype;
  data : TVal;
  is_channels_last : bool
}.

Definition rank (t : TorchTensor) : nat := length (shape (data t)).

(** An element of the [inputs] list handed to [fd.execute]. *)
Inductive PyInput : Type :=
| InTensor (t : TorchTensor)
| InFloat (r : R).

Definition input_value (i : PyInput) : TVal :=
  match i with
  | InTensor t => data t
  | InFloat r => scalar r
  end.

(** Position of [p] in [order]. *)
Fixpoint index_of (p : nat) (order : list nat) : nat :=
  match order with
  | [] => 0
  | o :: order' => if Nat.eqb o p then 0 else S (index_of p order')
  end.

Definition is_permutation (order : list nat) (n : nat) : bool :=
  Nat.eqb (length order) n && forallb (fun p => mem p order) (seq 0 n).

(** The contents of [t.permute(order)]; torch refuses an [order] that is
    not a permutation of the dimensions. *)
Definition permute (v : TVal) (order : list nat) : Result TVal :=
  if is_permutation order (length (shape v))
  then
    Ok (mkTVal (map (fun o => nth o (shape v) 0) order)
          (fun i =>
             at_ v (map (fun p => nth (index_of p order) i 0)
                      (seq 0 (length (shape v))))))
  else Raise RuntimeError.

(** [partially_contig_tensor(fd, x)]: the contiguity flags are computed
    from the strides, which ends in [stride[-1]]; that index fails on the
    empty stride tuple of a zero-dimensional tensor. *)
Definition partially_contig_tensor (t : TorchTensor) : FD Expr :=
  match rank t with
  | O => raise IndexError
  | _ => define_tensor (rank t) (torch2datatype (dtype t))
  end.

(** Target of an aliasing output: the fusion input whose storage it
    overwrites, seen through casts. *)
Fixpoint alias_target (e : Expr) : option nat :=
  match e with
  | TensorIn k _ _ => Some k
  | Cast a _ => alias_target a
  | _ => None
  end.

Fixpoint set_nth {A : Type} (k : nat) (a : A) (l : list A) : list A :=
  match k, l with
  | _, [] => []
  | O, _ :: l' => a :: l'
  | S k', b :: l' => b :: set_nth k' a l'
  end.

(** The values [fd.execute(inputs)] returns: the outputs that alias no
    input, in the order they were added. *)
Definition returned_outputs (fd : FusionDefinition) (env : list TVal)
    : list TVal :=
  map (fun o => materialize env (fst o))
    (filter (fun o => is_none (snd o)) (outputs fd)).

(** The inputs after [fd.execute(inputs)]: every aliasing output has been
    written into the input it names.  All outputs are computed from the
    inputs as they were before the call. *)
Definition written_inputs (fd : FusionDefinition) (env : list TVal)
    : list TVal :=
  fold_left
    (fun store o =>
       match snd o with
       | Some target =>
           match alias_target target with
           | Some k => set_nth k (materialize env (fst o)) store
           | None => store
           end
       | None => store
       end)
    (outputs fd) env.

(** Bind of [Result], for the Python code around the fusion definition. *)
Definition rbind {A B : Type} (m : Result A) (k : A -> Result B) : Result B :=
  match m with
  | Ok a => k a
  | Raise e => Raise e
  end.

Declare Scope res_scope.
Delimit Scope res_scope with res.
Notation "x <- m ;; k" := (rbind m (fun x => k))
  (at level 61, m at next level, right associativity) : res_scope.
Notation "' pat <- m ;; k" :=
  (rbind m (fun r => match r with pat => k end))
  (at level 61, pat pattern, m at next level, right associativity) : res_scope.
Notation "m ;; k" := (rbind m (fun _ => k))
  (at level 61, right associativity) : res_scope.

(** [l[k]] outside a fusion definition. *)
Definition rindex {A : Type} (l : list A) (k : nat) : Result A :=
  match nth_error l k with
  | Some a => Ok a
  | None => Raise IndexError
  end.

(** [[0] + [i for i in range(2, n)] + [1]] *)
Definition to_explicit_order (n : nat) : list nat :=
  [0] ++ seq 2 (n - 2) ++ [1].

(** [[0, n - 1] + [i for i in range(1, n - 1)]] *)
Definition from_explicit_order (n : nat) : list nat :=
  [0; n - 1] ++ seq 1 (n - 1 - 1).

(** An optional tensor of the module defined as a fusion input and
    appended to [inputs]. *)
Definition define_optional (t : option TorchTensor) (inputs : list PyInput)
    : FD (option Expr * list PyInput) :=
  match t with
  | Some t =>
      tv <- partially_contig_tensor t ;;
      ret (Some tv, inputs ++ [InTensor t])
  | None => ret (None, inputs)
  end.

(** [fd.ops.cast(tv, DataType.Float)] when the tensor is present and of a
    reduced-precision type. *)
Definition upcast_optional (t : option TorchTensor) (tv : option Expr)
    : option Expr :=
  match t, tv with
  | Some t, Some tv =>
      if is_torch_reduced (dtype t) then Some (Cast tv Float) else Some tv
  | _, _ => tv
  end.

(** ** [NormNVFuserFunction] *)

(** What [forward] leaves on the autograd context: the three attributes
    and the seven saved tensors. *)
Record Ctx : Type := mkCtx {
  ctx_stat_axes : list NamedAxis;
  ctx_use_input_stats : bool;
  ctx_channels_last : bool;
  saved_x : TorchTensor;
  saved_weight : option TorchTensor;
  saved_bias : option TorchTensor;
  saved_running_mean : option TorchTensor;
  saved_running_var : option TorchTensor;
  saved_mean : TorchTensor;
  saved_invstd : TorchTensor
}.

(** The body of [with FusionDefinition() as fd:] in [forward] (lines
    398-462).  Besides [inputs] it returns the fusion tensors of the
    running statistics, by which the caller's tensors are found again
    after execution. *)
Definition forward_definition (x : TorchTensor)
    (weight bias running_mean running_var : option TorchTensor)
    (use_input_stats : bool) (momentum eps : R) (unbiased : bool)
    (stat_axes : list NamedAxis) (channels_last : bool)
    (x_datatype : option DataType)
    : FD (list PyInput * option Expr * option Expr) :=
  tv_x <- partially_contig_tensor x ;;
  let inputs := [InTensor x] in
  ' (tv_weight, inputs) <- define_optional weight inputs ;;
  ' (tv_bias, inputs) <- define_optional bias inputs ;;
  ' (tv_running_mean, tv_running_var, inputs) <-
    match running_mean with
    | None => ret (None, None, inputs)
    | Some running_mean =>
        match running_var with
        | None => raise (AssertionError String.EmptyString)
        | Some running_var =>
            tv_running_mean <- partially_contig_tensor running_mean ;;
            tv_running_var <- partially_contig_tensor running_var ;;
            let inputs :=
              inputs ++ [InTensor running_mean; InTensor running_var] in
            let tv_running_mean :=
              if is_torch_reduced (dtype running_mean)
              then Cast tv_running_mean Float else tv_running_mean in
            let tv_running_var :=
              if is_torch_reduced (dtype running_var)
              then Cast tv_running_var Float else tv_running_var in
            ret (Some tv_running_mean, Some tv_running_var, inputs)
        end
    end ;;
  s_momentum <- define_scalar Double ;;
  s_eps <- define_scalar Double ;;
  let inputs := inputs ++ [InFloat momentum; InFloat eps] in
  (* cast inputs if necessary *)
  let tv_x := if is_reduced x_datatype then Cast tv_x Float else tv_x in
  let tv_weight := upcast_optional weight tv_weight in
  let tv_bias := upcast_optional bias tv_bias in
  ' (out, mean, invstd) <-
    norm_fusion_forward tv_x tv_weight tv_bias tv_running_mean tv_running_var
      s_eps use_input_stats s_momentum channels_last x_datatype unbiased
      stat_axes ;;
  let out := cast_if_reduced x_datatype out in
  let mean := cast_if_reduced x_datatype mean in
  let invstd := cast_if_reduced x_datatype invstd in
  add_output out None ;;
  add_output mean None ;;
  add_output invstd None ;;
  ret (inputs, tv_running_mean, tv_running_var).

(** A tensor of the caller after [fd.execute]: its storage holds what the
    aliasing output wrote, if one named it. *)
Definition after_execute (t : option TorchTensor) (tv : option Expr)
    (store : list TVal) : option TorchTensor :=
  match t, tv with
  | Some t, Some tv =>
      match alias_target tv with
      | Some k =>
          Some (mkTensor (dtype t) (nth k store (data t)) (is_channels_last t))
      | None => Some t
      end
  | _, _ => t
  end.

(** [NormNVFuserFunction.forward].  The result is the returned tensor, the
    context, and the caller's running statistics as the call leaves them
    (the saved references see the same storage).  The tensors the engine
    returns carry the element type of [x]: they are cast back to it when
    it is a reduced-precision type and computed in it otherwise.  The
    [is_contiguous] assertions of lines 475-479 concern strides and are
    not modelled; the dispatch on the rank around them is. *)
Definition NormNVFuserFunction_forward (x : TorchTensor)
    (weight bias running_mean running_var : option TorchTensor)
    (use_input_stats : bool) (momentum eps : R) (unbiased : bool)
    (stat_axes : list NamedAxis)
    : Result (TorchTensor * Ctx * option TorchTensor * option TorchTensor) :=
  (let channels_last := is_channels_last x in
   x <- (if channels_last
         then
           v <- permute (data x) (to_explicit_order (rank x)) ;;
           Ok (mkTensor (dtype x) v false)
         else Ok x) ;;
   let x_datatype := torch2datatype (dtype x) in
   ' (inputs, tv_running_mean, tv_running_var, fd) <-
     forward_definition x weight bias running_mean running_var
       use_input_stats momentum eps unbiased stat_axes channels_last
       x_datatype empty_fd ;;
   let env := map input_value inputs in
   match returned_outputs fd env with
   | [out; mean; invstd] =>
       let store := written_inputs fd env in
       let running_mean := after_execute running_mean tv_running_mean store in
       let running_var := after_execute running_var tv_running_var store in
       let ctx :=
         mkCtx stat_axes use_input_stats channels_last x weight bias
           running_mean running_var
           (mkTensor (dtype x) mean false) (mkTensor (dtype x) invstd false) in
       out <- (if channels_last
               then
                 out <- permute out (from_explicit_order (rank x)) ;;
                 match length (shape out) with
                 | 4 | 5 => Ok out
                 | _ => Raise (AssertionError unhandled_forward_msg)
                 end
               else Ok out) ;;
       Ok (mkTensor (dtype x) out channels_last, ctx, running_mean, running_var)
   | _ => Raise ValueError
   end)%res.

(** The body of [with FusionDefinition() as fd:] in [backward] (lines
    510-574). *)
Definition backward_definition (ctx : Ctx) (grad_output : TorchTensor)
    : FD (list PyInput) :=
  let x := saved_x ctx in
  let weight := saved_weight ctx in
  let bias := saved_bias ctx in
  let running_mean := saved_running_mean ctx in
  let running_var := saved_running_var ctx in
  let mean := saved_mean ctx in
  let invstd := saved_invstd ctx in
  tv_x <- partially_contig_tensor x ;;
  let inputs := [InTensor x] in
  ' (tv_weight, inputs) <- define_optional weight inputs ;;
  ' (tv_bias, inputs) <- define_optional bias inputs ;;
  ' (tv_running_mean, inputs) <- define_optional running_mean inputs ;;
  ' (tv_running_var, inputs) <- define_optional running_var inputs ;;
  tv_mean <- partially_contig_tensor mean ;;
  let inputs := inputs ++ [InTensor mean] in
  tv_invstd <- partially_contig_tensor invstd ;;
  let inputs := inputs ++ [InTensor invstd] in
  tv_grad_output <- partially_contig_tensor grad_output ;;
  let inputs := inputs ++ [InTensor grad_output] in
  let x_datatype := torch2datatype (dtype x) in
  ' (grad_input, grad_weight, grad_bias) <-
    norm_fusion_backward tv_x tv_grad_output tv_mean tv_invstd tv_weight
      tv_bias tv_running_mean tv_running_var (ctx_use_input_stats ctx)
      (ctx_channels_last ctx) x_datatype (ctx_stat_axes ctx) ;;
  let grad_input := cast_if_reduced x_datatype grad_input in
  add_output grad_input None ;;
  match weight, grad_weight with
  | Some _, Some grad_weight =>
      let grad_weight := cast_if_reduced x_datatype grad_weight in
      add_output grad_weight None
  | Some _, None => raise RuntimeError (* no gradient without a weight only *)
  | None, _ => ret tt
  end ;;
  match bias, grad_bias with
  | Some _, Some grad_bias =>
      if is_reduced x_datatype
      then
        (* line 572: the cast tensor is bound and never added *)
        let _ := cast_if_reduced x_datatype grad_bias in
        ret tt
      else add_output grad_bias None
  | Some _, None => raise RuntimeError (* no gradient without a bias only *)
  | None, _ => ret tt
  end ;;
  ret inputs.

(** [NormNVFuserFunction.backward]: the first three results (the other
    seven are [None]). *)
Definition NormNVFuserFunction_backward (ctx : Ctx) (grad_output : TorchTensor)
    : Result (TorchTensor * option TorchTensor * option TorchTensor) :=
  (grad_output <- (if ctx_channels_last ctx
                   then
                     v <- permute (data grad_output)
                            (to_explicit_order (rank grad_output)) ;;
                     Ok (mkTensor (dtype grad_output) v false)
                   else Ok grad_output) ;;
   let x := saved_x ctx in
   let weight := saved_weight ctx in
   let bias := saved_bias ctx in
   ' (inputs, fd) <- backward_definition ctx grad_output empty_fd ;;
   let res := returned_outputs fd (map input_value inputs) in
   grad_input <- rindex res 0 ;;
   let c := 1 in
   ' (grad_weight, c) <-
     match weight with
     | Some _ => g <- rindex res c ;; Ok (Some g, c + 1)
     | None => Ok (None, c)
     end ;;
   ' (grad_bias, c) <-
     match bias with
     | Some _ => g <- rindex res c ;; Ok (Some g, c + 1)
     | None => Ok (None, c)
     end ;;
   grad_input <- (if ctx_channels_last ctx
                  then
                    g <- permute grad_input
                           (from_explicit_order (length (shape grad_input))) ;;
                    match length (shape g) with
                    | 4 | 5 => Ok g
                    | _ => Raise (AssertionError unhandled_backward_msg)
                    end
                  else Ok grad_input) ;;
   let as_tensor := fun v => mkTensor (dtype x) v false in
   Ok (mkTensor (dtype x) grad_input (ctx_channels_last ctx),
       option_map as_tensor grad_weight,
       option_map as_tensor grad_bias))%res.

(** ** Vocabulary of the statements *)

(** The fields of the axis bookkeeping, as [resolve_axes] leaves them for
    an input [x] of rank [ndim x]. *)
Record axes_spec (x : Expr) (channels_last : bool) (stat_axes : list NamedAxis)
    (ax : Axes) : Prop := mk_axes_spec {
  spec_rank : 1 <= ndim x;
  spec_channel_lt : channel_dim ax < ndim x;
  spec_dyn_shape : dyn_shape ax = tensor_sizes x;
  spec_num_dims : num_dims ax = ndim x;
  spec_batch_dim : batch_dim ax = 0;
  spec_batch_size : batch_size ax = Size x 0;
  spec_channel_dim :
    channel_dim ax = if channels_last then ndim x - 1 else 1;
  spec_num_channels : num_channels ax = Size x (channel_dim ax);
  spec_stat_dims :
    stat_dims ax =
    (if axis_in BATCH stat_axes then [0] else []) ++
    (if axis_in CHANNEL stat_axes then [channel_dim ax] else []);
  spec_stat_dims_nobatch :
    stat_dims_nobatch ax =
    if axis_in CHANNEL stat_axes then [channel_dim ax] else [];
  spec_x_reduction_axes :
    x_reduction_axes ax =
    filter (fun a => negb (mem a (stat_dims ax))) (seq 0 (ndim x));
  spec_num_features :
    num_features ax =
    fold_left (fun acc a => Mul acc (Size x a)) (x_reduction_axes ax)
      (ConstInt 1)
}.

(** A list of positions in increasing order, none below [k]. *)
Fixpoint increasing_from (k : nat) (l : list nat) : Prop :=
  match l with
  | [] => True
  | d :: l' => k <= d /\ increasing_from (S d) l'
  end.

(** * The rest of the sources

    The module classes of [instance_norm.py], the contiguity flags of
    [partially_contig_tensor], and the sampler, dataset and launcher
    helpers of the test files.  Integers are Python integers ([Z], with
    floor division), lists are Python lists. *)

From Stdlib Require Import Permutation.
From Stdlib Require DecimalString.

(** ** Exceptions and results *)

Module Exc.

Inductive t : Type :=
| ZeroDivisionError
| AssertionError (msg : String.string)
| IndexError
| KeyError
| TypeError
| ValueError (msg : String.string)
| NotImplementedError
| RuntimeError (msg : String.string)
| FromFunction (e : PyError).

End Exc.

Inductive Outcome (A : Type) : Type :=
| Return (a : A)
| Throw (e : Exc.t).

Arguments Return {A} a.
Arguments Throw {A} e.

Definition obind {A B : Type} (m : Outcome A) (k : A -> Outcome B)
    : Outcome B :=
  match m with
  | Return a => k a
  | Throw e => Throw e
  end.

Declare Scope out_scope.
Delimit Scope out_scope with out.
Notation "x <- m ;; k" := (obind m (fun x => k))
  (at level 61, m at next level, right associativity) : out_scope.
Notation "' pat <- m ;; k" :=
  (obind m (fun r => match r with pat => k end))
  (at level 61, pat pattern, m at next level, right associativity) : out_scope.
Notation "m ;; k" := (obind m (fun _ => k))
  (at level 61, right associativity) : out_scope.

(** [assert cond, msg] *)
Definition oassert (cond : bool) (msg : String.string) : Outcome unit :=
  if cond then Return tt else Throw (Exc.AssertionError msg).

(** [str(z)] *)
Definition str (z : Z) : String.string :=
  DecimalString.NilZero.string_of_int (Z.to_int z).

(** [a // b] and [a % b] *)
Definition floordiv (a b : Z) : Outcome Z :=
  if (b =? 0)%Z then Throw Exc.ZeroDivisionError else Return (a / b)%Z.

Definition pymod (a b : Z) : Outcome Z :=
  if (b =? 0)%Z then Throw Exc.ZeroDivisionError else Return (a mod b)%Z.

(** [l[k:]]: a negative [k] counts from the end. *)
Definition slice_from {A : Type} (l : list A) (k : Z) : list A :=
  if (0 <=? k)%Z then skipn (Z.to_nat k) l
  else skipn (Z.to_nat (Z.of_nat (length l) + k)) l.

(** [l[k]]: a negative [k] counts from the end. *)
Definition getitem (l : list Z) (k : Z) : Outcome Z :=
  let n := Z.of_nat (length l) in
  if ((0 <=? k) && (k <? n))%Z then Return (nth (Z.to_nat k) l 0%Z)
  else if ((- n <=? k) && (k <? 0))%Z
       then Return (nth (Z.to_nat (n + k)) l 0%Z)
       else Throw Exc.IndexError.

(** [list(range(start, stop))] *)
Definition range (start stop : Z) : list Z :=
  map (fun k => (start + Z.of_nat k)%Z) (seq 0 (Z.to_nat (stop - start))).

(** ** [MyIterableDataset] (tests/L0/run_transformer/test_batch_sampler.py) *)

Record MyIterableDataset : Type := mkDataset {
  ds_start : Z;
  ds_end : Z;
  ds_samples : list Z
}.

Open Scope string_scope.

Definition dataset_msg : String.string :=
  "this example code only works with end >= start".

Definition no_sample_msg : String.string := "no sample to consume: ".

Definition rank_msg : String.string :=
  "data_parallel_rank should be smaller than data size: ".

Definition comma : String.string := ", ".

Close Scope string_scope.

Local Open Scope out_scope.
Local Open Scope Z_scope.

(** [MyIterableDataset.__init__] *)
Definition dataset_init (start stop : Z) : Outcome MyIterableDataset :=
  oassert (stop >? start) dataset_msg ;;
  Return (mkDataset start stop (range start stop)).

(** [MyIterableDataset.__iter__] *)
Definition dataset_iter (ds : MyIterableDataset) : list Z :=
  range (ds_start ds) (ds_end ds).

(** [MyIterableDataset.__getitem__] *)
Definition dataset_getitem (ds : MyIterableDataset) (index : Z) : Outcome Z :=
  getitem (ds_samples ds) index.

(** ** [MegatronPretrainingRandomSampler] *)

(** The attributes of the sampler; [epoch] is set by [__iter__]. *)
Record Sampler : Type := mkSampler {
  total_samples : Z;
  consumed_samples : Z;
  micro_batch_size : Z;
  data_parallel_rank : Z;
  data_parallel_size : Z;
  micro_batch_times_data_parallel_size : Z;
  last_batch_size : Z;
  epoch : option Z
}.

(** [MegatronPretrainingRandomSampler.__init__]: the remainder is taken
    before the sanity checks run. *)
Definition sampler_init
    (total_samples consumed_samples micro_batch_size data_parallel_rank
       data_parallel_size : Z) : Outcome Sampler :=
  let micro_batch_times_data_parallel_size :=
    micro_batch_size * data_parallel_size in
  last_batch_size <-
    pymod total_samples micro_batch_times_data_parallel_size ;;
  (* Sanity checks. *)
  oassert (total_samples >? 0)
    (String.append no_sample_msg (str total_samples)) ;;
  oassert (micro_batch_size >? 0) String.EmptyString ;;
  oassert (data_parallel_size >? 0) String.EmptyString ;;
  oassert (data_parallel_rank <? data_parallel_size)
    (String.append rank_msg
       (String.append (str data_parallel_rank)
          (String.append comma (str data_parallel_size)))) ;;
  Return
    (mkSampler total_samples consumed_samples micro_batch_size
       data_parallel_rank data_parallel_size
       micro_batch_times_data_parallel_size last_batch_size None).

(** [MegatronPretrainingRandomSampler.__len__] *)
Definition sampler_len (self : Sampler) : Z := total_samples self.

(** The loop of [__iter__] over [idx_range]: the batches it yields, each
    with the value of [consumed_samples] at that yield, and
    [consumed_samples] when the loop ends.  An incomplete last batch is
    not yielded. *)
Fixpoint batch_loop (micro_batch_size step : Z) (idx_range : list Z)
    (batch : list Z) (consumed : Z) : list (list Z * Z) * Z :=
  match idx_range with
  | [] => ([], consumed)
  | idx :: rest =>
      let batch := (batch ++ [idx])%list in
      if Z.of_nat (length batch) =? micro_batch_size
      then
        let consumed := consumed + step in
        let '(yields, final) :=
          batch_loop micro_batch_size step rest [] consumed in
        ((batch, consumed) :: yields, final)
      else batch_loop micro_batch_size step rest batch consumed
  end.

Section SamplerIter.

(** [torch.randperm(n, generator=g).tolist()] for a generator seeded with
    [seed]: some permutation of [0 .. n-1] fixed by the seed. *)
Variable randperm : Z -> nat -> list Z.

(** [MegatronPretrainingRandomSampler.__iter__], run to exhaustion: the
    yields and the sampler afterwards.  The statements before the loop
    run when the first batch is requested. *)
Definition sampler_iter (self : Sampler)
    : Outcome (list (list Z * Z) * Sampler) :=
  let active_total_samples := total_samples self - last_batch_size self in
  epoch <- floordiv (consumed_samples self) active_total_samples ;;
  current_epoch_samples <-
    pymod (consumed_samples self) active_total_samples ;;
  r <- pymod current_epoch_samples
         (micro_batch_times_data_parallel_size self) ;;
  oassert (r =? 0) String.EmptyString ;;
  (* data sharding and random sampling *)
  q <- floordiv (total_samples self)
         (micro_batch_times_data_parallel_size self) ;;
  let bucket_size := q * micro_batch_size self in
  bucket_offset <- floordiv current_epoch_samples (data_parallel_size self) ;;
  let start_idx := data_parallel_rank self * bucket_size in
  random_idx <-
    (if bucket_size <? 0 then Throw (Exc.RuntimeError String.EmptyString)
     else Return (randperm epoch (Z.to_nat bucket_size))) ;;
  let idx_range :=
    map (fun x => start_idx + x) (slice_from random_idx bucket_offset) in
  let '(yields, consumed) :=
    batch_loop (micro_batch_size self)
      (micro_batch_times_data_parallel_size self) idx_range []
      (consumed_samples self) in
  Return
    (yields,
     mkSampler (total_samples self) consumed (micro_batch_size self)
       (data_parallel_rank self) (data_parallel_size self)
       (micro_batch_times_data_parallel_size self) (last_batch_size self)
       (Some epoch)).

End SamplerIter.

(** What [__init__] establishes about the attributes. *)
Record sampler_ok (self : Sampler) : Prop := mk_sampler_ok {
  ok_total : 0 < total_samples self;
  ok_micro : 0 < micro_batch_size self;
  ok_size : 0 < data_parallel_size self;
  ok_rank : data_parallel_rank self < data_parallel_size self;
  ok_global :
    micro_batch_times_data_parallel_size self =
    micro_batch_size self * data_parallel_size self;
  ok_last :
    last_batch_size self =
    total_samples self mod micro_batch_times_data_parallel_size self
}.

(** A sampler that can be iterated: it holds at least one global batch
    and has consumed whole global batches. *)
Record sampler_ready (self : Sampler) : Prop := mk_sampler_ready {
  ready_ok : sampler_ok self;
  ready_total :
    micro_batch_times_data_parallel_size self <= total_samples self;
  ready_consumed :
    consumed_samples self mod micro_batch_times_data_parallel_size self = 0
}.

(** Global batches per epoch, and those already consumed in the current
    epoch. *)
Definition batches_per_epoch (self : Sampler) : Z :=
  total_samples self / micro_batch_times_data_parallel_size self.

Definition batches_done (self : Sampler) : Z :=
  (consumed_samples self mod
   (batches_per_epoch self * micro_batch_times_data_parallel_size self))
  / micro_batch_times_data_parallel_size self.

(** The batches of an iteration, without the counters. *)
Definition batches_of (r : list (list Z * Z) * Sampler) : list (list Z) :=
  map fst (fst r).

Local Close Scope Z_scope.
Local Close Scope out_scope.

(** ** Contiguity flags of [partially_contig_tensor] *)

Local Open Scope out_scope.
Local Open Scope Z_scope.

(** [zip(a, b, c)] mapped through [f]: as long as the shortest list. *)
Fixpoint zip_with3 {A B C D : Type} (f : A -> B -> C -> D)
    (a : list A) (b : list B) (c : list C) : list D :=
  match a, b, c with
  | x :: a', y :: b', z :: c' => f x y z :: zip_with3 f a' b' c'
  | _, _, _ => []
  end.

(** The list [contig] that [partially_contig_tensor] computes from
    [x.stride()] and [x.shape]. *)
Definition contig (stride shape : list Z) : Outcome (list bool) :=
  let flags :=
    zip_with3 (fun sp s n => sp =? s * n) stride (tl stride) (tl shape) in
  last <- getitem stride (-1) ;;
  Return (flags ++ [last =? 1])%list.

(** ** The module classes *)

Inductive NormClass : Type :=
| NormNVFuserBase
| InstanceNormNVFuser
| BatchNormNVFuser
| LayerNormNVFuser
| InstanceNorm1dNVFuser
| InstanceNorm2dNVFuser
| InstanceNorm3dNVFuser.

(** The class attribute [stat_axes], inherited along the class tree. *)
Definition class_stat_axes (c : NormClass) : option (list NamedAxis) :=
  match c with
  | NormNVFuserBase => None
  | InstanceNormNVFuser
  | InstanceNorm1dNVFuser | InstanceNorm2dNVFuser | InstanceNorm3dNVFuser =>
      Some [BATCH; CHANNEL]
  | BatchNormNVFuser => Some [CHANNEL]
  | LayerNormNVFuser => Some [BATCH]
  end.

Open Scope string_scope.

Definition cuda_msg : String.string := "NVFuser InstanceNorm is CUDA only".

Definition expected_3d : String.string := "expected 3D input (got ".
Definition expected_4d : String.string := "expected 4D input (got ".
Definition expected_5d : String.string := "expected 5D input (got ".
Definition d_input : String.string := "D input)".

Close Scope string_scope.

(** [template.format(input.dim())] for the three templates above. *)
Definition format_dim (template : String.string) (dim : nat)
    : String.string :=
  String.append template (String.append (str (Z.of_nat dim)) d_input).

(** [self._check_input_dim(input)], resolved along the class tree: only
    the three leaf classes override the method of the base class. *)
Definition check_input_dim (c : NormClass) (input : TorchTensor)
    : Outcome unit :=
  match c with
  | InstanceNorm1dNVFuser =>
      if negb (Nat.eqb (rank input) 3)
      then Throw (Exc.ValueError (format_dim expected_3d (rank input)))
      else Return tt
  | InstanceNorm2dNVFuser =>
      if negb (Nat.eqb (rank input) 4)
      then Throw (Exc.ValueError (format_dim expected_4d (rank input)))
      else Return tt
  | InstanceNorm3dNVFuser =>
      if negb (Nat.eqb (rank input) 5)
      then Throw (Exc.ValueError (format_dim expected_5d (rank input)))
      else Return tt
  | NormNVFuserBase | InstanceNormNVFuser | BatchNormNVFuser
  | LayerNormNVFuser => Throw Exc.NotImplementedError
  end.

(** The attributes of a module that [forward] reads; the parameters and
    buffers are [None] or tensors, as [_NormBase] registers them. *)
Record NormModule : Type := mkModule {
  klass : NormClass;
  mod_weight : option TorchTensor;
  mod_bias : option TorchTensor;
  mod_running_mean : option TorchTensor;
  mod_running_var : option TorchTensor;
  training : bool;
  track_running_stats : bool;
  mod_momentum : R;
  mod_eps : R
}.

(** A tensor together with its [is_cuda] attribute. *)
Record DeviceTensor : Type := mkDeviceTensor {
  tensor :> TorchTensor;
  is_cuda : bool
}.

(** [_NormNVFuserBase.forward]: the returned tensor and the module
    afterwards, whose running statistics are the buffers the autograd
    function was handed and may have written.  [stat_axes] is [None]
    only in the base class, where [_check_input_dim] has raised before
    it is used. *)
Definition module_forward (self : NormModule) (input : DeviceTensor)
    : Outcome (TorchTensor * NormModule) :=
  oassert (is_cuda input) cuda_msg ;;
  check_input_dim (klass self) input ;;
  match class_stat_axes (klass self) with
  | None => Throw Exc.TypeError
  | Some stat_axes =>
      match
        NormNVFuserFunction_forward input (mod_weight self) (mod_bias self)
          (mod_running_mean self) (mod_running_var self)
          (training self || negb (track_running_stats self))
          (mod_momentum self) (mod_eps self)
          false (* unbiased=False to match PyTorch functionality *)
          stat_axes
      with
      | Ok (out, _, running_mean, running_var) =>
          Return
            (out,
             mkModule (klass self) (mod_weight self) (mod_bias self)
               running_mean running_var (training self)
               (track_running_stats self) (mod_momentum self) (mod_eps self))
      | Raise e => Throw (Exc.FromFunction e)
      end
  end.

(** A parameter or buffer that is absent or holds one value per
    channel. *)
Definition per_channel (C : nat) (t : option TorchTensor) : Prop :=
  match t with
  | Some t => shape (data t) = [C]
  | None => True
  end.

(** The affine step on a normalized value of channel [c]: times the
    weight and plus the bias of the channel, where they are given. *)
Definition scale_and_shift (weight bias : option TorchTensor) (c : nat)
    (v : R) : R :=
  let scaled :=
    match weight with
    | Some w => (v * at_ (data w) [c])%R
    | None => v
    end in
  match bias with
  | Some b => (scaled + at_ (data b) [c])%R
  | None => scaled
  end.

(** ** [_load_from_state_dict] *)

(** A [state_dict]: keys with their entries, in insertion order. *)
Definition StateDict (V : Type) : Type := list (String.string * V).

(** [key in state_dict] *)
Definition dict_has {V : Type} (key : String.string) (d : StateDict V) : bool :=
  existsb (fun kv => String.eqb key (fst kv)) d.

(** [state_dict[key]], if present *)
Definition dict_get {V : Type} (key : String.string) (d : StateDict V)
    : option V :=
  option_map snd (find (fun kv => String.eqb key (fst kv)) d).

(** [state_dict.pop(key)], for a key that is present *)
Definition dict_pop {V : Type} (key : String.string) (d : StateDict V)
    : StateDict V :=
  filter (fun kv => negb (String.eqb key (fst kv))) d.

(** [sep.join(l)] *)
Fixpoint join (sep : String.string) (l : list String.string) : String.string :=
  match l with
  | [] => String.EmptyString
  | [s] => s
  | s :: l' => String.append s (String.append sep (join sep l'))
  end.

Definition quote : String.string :=
  String.String (Ascii.ascii_of_nat 34) String.EmptyString.

(** ['<quote>{}<quote>'.format(k)] *)
Definition quoted (k : String.string) : String.string :=
  String.append quote (String.append k quote).

Local Infix "+++" := String.append (right associativity, at level 60).

Open Scope string_scope.

(** The message of lines 655-667 for [names] and [klass]. *)
Definition running_stats_error (names klass : String.string)
    : String.string :=
  "Unexpected running stats buffer(s) " +++ names +++ " for " +++ klass
  +++ " "
  +++ "with track_running_stats=False. If state_dict is a "
  +++ "checkpoint saved before 0.4.0, this may be expected "
  +++ "because " +++ klass +++ " does not track running stats by default "
  +++ "since 0.4.0. Please remove these keys from state_dict. If "
  +++ "the running stats are actually needed, instead set "
  +++ "track_running_stats=True in " +++ klass +++ " to enable them. See "
  +++ "the documentation of " +++ klass +++ " for details.".

(** [self.__class__.__name__] *)
Definition class_name (c : NormClass) : String.string :=
  match c with
  | NormNVFuserBase => "_NormNVFuserBase"
  | InstanceNormNVFuser => "_InstanceNormNVFuser"
  | BatchNormNVFuser => "_BatchNormNVFuser"
  | LayerNormNVFuser => "_LayerNormNVFuser"
  | InstanceNorm1dNVFuser => "InstanceNorm1dNVFuser"
  | InstanceNorm2dNVFuser => "InstanceNorm2dNVFuser"
  | InstanceNorm3dNVFuser => "InstanceNorm3dNVFuser"
  end.

Definition running_mean_name : String.string := "running_mean".
Definition running_var_name : String.string := "running_var".

Definition running_stats_names : list String.string :=
  [running_mean_name; running_var_name].

Definition and_sep : String.string := " and ".

Close Scope string_scope.

(** [_NormNVFuserBase._load_from_state_dict] up to the call of the
    method it overrides: [state_dict] and [error_msgs] as they are
    handed on.  [version] is [local_metadata.get(<version>, None)]. *)
Definition load_from_state_dict {V W : Type} (self : NormModule)
    (state_dict : StateDict V) (prefix : String.string) (version : option W)
    (error_msgs : list String.string)
    : StateDict V * list String.string :=
  if is_none version && negb (track_running_stats self)
  then
    let running_stats_keys :=
      filter (fun key => dict_has key state_dict)
        (map (String.append prefix) running_stats_names) in
    if (0 <? length running_stats_keys)%nat
    then
      let error_msgs :=
        (error_msgs ++
         [running_stats_error (join and_sep (map quoted running_stats_keys))
            (class_name (klass self))])%list in
      (fold_left (fun d key => dict_pop key d) running_stats_keys state_dict,
       error_msgs)
    else (state_dict, error_msgs)
  else (state_dict, error_msgs).

Local Close Scope Z_scope.
Local Close Scope out_scope.

(** ** The launcher (tests/L0/run_transformer/test_mpu.py) *)

Local Infix "+++" := String.append (right associativity, at level 60).

Open Scope string_scope.

Definition DENY_TEST : list String.string :=
  ["megatron_gpt_pipeline"].

Definition MULTIGPU_TEST : list String.string :=
  ["pipeline_parallel_test"; "p2p_comm_test"].

Definition distributed_launch : String.string :=
  "-m torch.distributed.launch --nproc_per_node=".

Definition run_prefix : String.string := "run_".

Definition tf32_override : String.string := "NVIDIA_TF32_OVERRIDE=0  ".

Definition test_arguments : String.string :=
  "--micro-batch-size 2 --num-layers 1 --hidden-size 256 --num-attention-heads 8 --max-position-embeddings "
  +++ "32 --encoder-seq-length 32 --use-cpu-initialization".

Definition passed_marker : String.string := ">> passed the test :-)".

Definition space : String.string := " ".
Definition out_of : String.string := " out of ".
Definition tests_failed : String.string := " tests failed".

Close Scope string_scope.

(** [sub in s] on strings *)
Fixpoint contains (sub s : String.string) : bool :=
  String.prefix sub s ||
  match s with
  | String.EmptyString => false
  | String.String _ s' => contains sub s'
  end.

(** The loop of [get_launch_option] over the multi-GPU test names; it
    returns at the first name found in [test_filename]. *)
Fixpoint launch_option_loop (tests : list String.string)
    (device_count : Z) (test_filename : String.string)
    : bool * String.string :=
  match tests with
  | [] => (false, String.EmptyString)
  | multigpu_test :: tests' =>
      if contains multigpu_test test_filename
      then
        let num_available_devices := device_count in
        let should_skip := (num_available_devices <? 2)%Z in
        let num_devices := Z.min num_available_devices 2 in
        (should_skip, distributed_launch +++ str num_devices)
      else launch_option_loop tests' device_count test_filename
  end.

(** [get_launch_option(test_filename)], with the result of
    [torch.cuda.device_count()]. *)
Definition get_launch_option (device_count : Z)
    (test_filename : String.string) : bool * String.string :=
  launch_option_loop MULTIGPU_TEST device_count test_filename.

(** What [run_transformer_tests] finds on the machine it runs on: the
    interpreter, the names in the directory of the file, the path
    [os.path.join(directory, f)] of a name, whether a path is a file, the
    number of devices, and what running a command gives, the text of the
    exception raised or the decoded and stripped output. *)
Record Host : Type := mkHost {
  python_executable_path : String.string;
  listdir : list String.string;
  path_join : String.string -> String.string;
  isfile : String.string -> bool;
  device_count : Z;
  check_output : String.string -> String.string + String.string
}.

Definition test_run_cmd (host : Host) (launch_option test_file : String.string)
    : String.string :=
  tf32_override +++ python_executable_path host +++ space +++ launch_option
  +++ space +++ test_file +++ space +++ test_arguments.

(** The loop of [run_transformer_tests] over [files]: the commands run
    and the errors collected, both in order. *)
Fixpoint run_files (host : Host) (files : list String.string)
    (commands : list String.string)
    (errors : list (String.string * String.string))
    : list String.string * list (String.string * String.string) :=
  match files with
  | [] => (commands, errors)
  | test_file :: files' =>
      let is_denied :=
        existsb (fun deny_file => contains deny_file test_file) DENY_TEST in
      if is_denied then run_files host files' commands errors
      else
        let '(should_skip, launch_option) :=
          get_launch_option (device_count host) test_file in
        if should_skip then run_files host files' commands errors
        else
          let cmd := test_run_cmd host launch_option test_file in
          let commands := (commands ++ [cmd])%list in
          match check_output host cmd with
          | inl e =>
              run_files host files' commands
                (errors ++ [(test_file, e)])%list
          | inr output =>
              if negb (contains passed_marker output)
              then
                run_files host files' commands
                  (errors ++ [(test_file, output)])%list
              else run_files host files' commands errors
          end
  end.

(** [run_transformer_tests()]: the commands it runs, and how it ends.
    The progress lines it prints are not modelled. *)
Definition run_transformer_tests (host : Host)
    : list String.string * Outcome unit :=
  let files :=
    map (path_join host)
      (filter
         (fun f => String.prefix run_prefix f && isfile host (path_join host f))
         (listdir host)) in
  let '(commands, errors) := run_files host files [] [] in
  match errors with
  | [] => (commands, Return tt)
  | _ :: _ =>
      let short_msg :=
        str (Z.of_nat (length errors)) +++ out_of
        +++ str (Z.of_nat (length files)) +++ tests_failed in
      (commands, Throw (Exc.RuntimeError short_msg))
  end.

(** A test file the launcher may run, with the option it is run with:
    no denied name occurs in its path; if a multi-GPU name occurs, there
    are at least two devices and two processes are requested; otherwise
    the option is empty. *)
Definition allowed_run (host : Host) (test_file launch_option : String.string)
    : Prop :=
  (forall deny, In deny DENY_TEST -> contains deny test_file = false) /\
  ((exists t, In t MULTIGPU_TEST /\ contains t test_file = true) ->
   (2 <= device_count host)%Z /\
   launch_option = distributed_launch +++ str 2) /\
  ((forall t, In t MULTIGPU_TEST -> contains t test_file = false) ->
   launch_option = String.EmptyString).

(** A command whose run ends without an exception and prints the
    marker. *)
Definition passes (host : Host) (cmd : String.string) : Prop :=
  exists output,
    check_output host cmd = inr output /\
    contains passed_marker output = true.

(** ** Concrete calls *)

Local Open Scope R_scope.

(** A batch of two samples with one channel, for the batch-style role
    set [[CHANNEL]]: the batch mean is 2 and the biased variance 1. *)
Definition bn_x : TorchTensor :=
  mkTensor torch_float32 (mat 2 1 [[1]; [3]]) false.

Definition bn_zero_stat : TorchTensor :=
  mkTensor torch_float32 (vec [0]) false.

(** A second batch for the same layer, with batch mean 6. *)
Definition bn_x2 : TorchTensor :=
  mkTensor torch_float32 (mat 2 1 [[5]; [7]]) false.

(** Two samples with two channels, an affine pair over the channels and
    an output gradient, for the backward pass under [[CHANNEL]]. *)
Definition bn2_x : TorchTensor :=
  mkTensor torch_float32 (mat 2 2 [[1; 2]; [3; 4]]) false.

Definition bn2_weight : TorchTensor :=
  mkTensor torch_float32 (vec [1; 1]) false.

Definition bn2_bias : TorchTensor :=
  mkTensor torch_float32 (vec [0; 0]) false.

Definition bn2_grad_output : TorchTensor :=
  mkTensor torch_float32 (mat 2 2 [[1; 10]; [100; 1000]]) false.

(** Two samples, two channels, one spatial position, for the
    instance-style role set [[BATCH; CHANNEL]]; the weight tells the
    channels apart. *)
Definition in_x : TorchTensor :=
  mkTensor torch_float32 (cube 2 2 1 [[[1]; [2]]; [[3]; [4]]]) false.

Definition in_x_half : TorchTensor :=
  mkTensor torch_float16 (cube 2 2 1 [[[1]; [2]]; [[3]; [4]]]) false.

Definition in_weight : TorchTensor :=
  mkTensor torch_float32 (vec [1; 2]) false.

Definition in_bias : TorchTensor :=
  mkTensor torch_float32 (vec [5; 6]) false.

Definition in_bias_half : TorchTensor :=
  mkTensor torch_float16 (vec [5; 6]) false.

Definition in_grad_output : TorchTensor :=
  mkTensor torch_float32 (cube 2 2 1 [[[1]; [1]]; [[1]; [1]]]) false.

Definition in_grad_output_half : TorchTensor :=
  mkTensor torch_float16 (cube 2 2 1 [[[1]; [1]]; [[1]; [1]]]) false.

Definition in_zero_stat : TorchTensor :=
  mkTensor torch_float32 (vec [0; 0]) false.

(** One sample, two channels, one row of two columns; element
    [(0, c, 0, w)] is [10 c + w].  The flag says whether the tensor is
    stored channels-last. *)
Definition nchw_x (channels_last : bool) : TorchTensor :=
  mkTensor torch_float32
    (mkTVal [1; 2; 1; 2]%nat
       (fun i => INR (nth 1 i 0%nat) * 10 + INR (nth 3 i 0%nat)))
    channels_last.

(** A context as [forward] leaves it for a half-precision input with a
    bias and no weight. *)
Definition half_ctx : Ctx :=
  mkCtx [BATCH; CHANNEL] true false in_x_half None (Some in_bias_half)
    None None
    (mkTensor torch_float16 (mat 2 2 [[1; 2]; [3; 4]]) false)
    (mkTensor torch_float16 (mat 2 2 [[1; 1]; [1; 1]]) false).

(** Running statistics over two channels, for inference-mode calls. *)
Definition in_running_mean : TorchTensor :=
  mkTensor torch_float32 (vec [1; 2]) false.

Definition in_running_var : TorchTensor :=
  mkTensor torch_float32 (vec [3; 3]) false.

(** Four samples, three channels, one spatial position, constant within
    each channel. *)
Definition const_x : TVal :=
  cube 4 3 1
    [[[1]; [2]; [3]]; [[1]; [2]; [3]]; [[1]; [2]; [3]]; [[1]; [2]; [3]]].

Definition const_inputs : list TVal :=
  [const_x; vec [2; 2; 2]; vec [10; 20; 30]; scalar (1 / 10); scalar 1].

Local Close Scope R_scope.

(** The fusion inputs of a three-dimensional call, in the order
    [forward] defines them. *)
Definition g_x : Expr := TensorIn 0 3 (Some Float).
Definition g_weight : Expr := TensorIn 1 1 (Some Float).
Definition g_bias : Expr := TensorIn 2 1 (Some Float).
Definition g_momentum : Expr := ScalarIn 3 Double.
Definition g_eps : Expr := ScalarIn 4 Double.
Definition g_running_mean : Expr := TensorIn 5 1 (Some Float).
Definition g_running_var : Expr := TensorIn 6 1 (Some Float).
Definition g_grad_output : Expr := TensorIn 7 3 (Some Float).
Definition g_mean : Expr := TensorIn 8 2 (Some Float).
Definition g_invstd : Expr := TensorIn 9 2 (Some Float).

(** ** Samplers and datasets used as instances *)

(** A stand-in for [torch.randperm]: descending order under an even
    seed, ascending order under an odd one. *)
Definition flip_perm (seed : Z) (n : nat) : list Z :=
  if Z.even seed then map Z.of_nat (rev (seq 0 n))
  else map Z.of_nat (seq 0 n).

(** Ten samples, micro batches of two, two ranks: two global batches per
    epoch, and two samples in the dropped last batch. *)
Definition sampler_rank0 : Sampler := mkSampler 10 0 2 0 2 4 2 None.
Definition sampler_rank1 : Sampler := mkSampler 10 0 2 1 2 4 2 None.

(** Rank 1 again, created after one global batch was consumed. *)
Definition sampler_rank1_resumed : Sampler := mkSampler 10 4 2 1 2 4 2 None.



(** Eight samples on one rank, in micro batches of four and of two. *)
Definition sampler_by_four : Sampler := mkSampler 8 0 4 0 1 4 0 None.
Definition sampler_by_two : Sampler := mkSampler 8 0 2 0 1 2 0 None.

(** What iterating these samplers under [flip_perm] gives. *)
Definition run_rank0 : list (list Z * Z) * Sampler :=
  ([([3; 2], 4); ([1; 0], 8)], mkSampler 10 8 2 0 2 4 2 (Some 0))%Z.
Definition run_rank1 : list (list Z * Z) * Sampler :=
  ([([7; 6], 4); ([5; 4], 8)], mkSampler 10 8 2 1 2 4 2 (Some 0))%Z.
Definition run_rank1_resumed : list (list Z * Z) * Sampler :=
  ([([5; 4], 8)], mkSampler 10 8 2 1 2 4 2 (Some 0))%Z.
Definition run_by_four : list (list Z * Z) * Sampler :=
  ([([7; 6; 5; 4], 4); ([3; 2; 1; 0], 8)],
   mkSampler 8 8 4 0 1 4 0 (Some 0))%Z.
Definition run_by_two : list (list Z * Z) * Sampler :=
  ([([7; 6], 2); ([5; 4], 4); ([3; 2], 6); ([1; 0], 8)],
   mkSampler 8 8 2 0 1 2 0 (Some 0))%Z.

Definition dataset_ten : MyIterableDataset :=
  mkDataset 0 10 (range 0 10).

(** ** Modules, inputs and states used as instances *)

Local Open Scope R_scope.

(** The tensors of the concrete calls above, on a CUDA device. *)
Definition cuda (t : TorchTensor) : DeviceTensor := mkDeviceTensor t true.

(** Instance norm over three-dimensional inputs with two channels:
    without parameters, with a weight and a bias, and with running
    statistics in evaluation and in training mode. *)
Definition in1d_plain : NormModule :=
  mkModule InstanceNorm1dNVFuser None None None None true false (1 / 10) 1.


Definition in1d_eval : NormModule :=
  mkModule InstanceNorm1dNVFuser None None (Some in_running_mean)
    (Some in_running_var) false true (1 / 10) 1.


Definition in2d_plain : NormModule :=
  mkModule InstanceNorm2dNVFuser None None None None true false (1 / 10) 1.

Definition in3d_plain : NormModule :=
  mkModule InstanceNorm3dNVFuser None None None None true false (1 / 10) 1.

(** A batch norm module: a class that cannot be run. *)
Definition bn_module : NormModule :=
  mkModule BatchNormNVFuser None None None None true false (1 / 10) 1.

(** One sample, two channels, one plane of one row and two columns. *)
Definition ncdhw_x : TorchTensor :=
  mkTensor torch_float32
    (mkTVal [1; 2; 1; 1; 2]%nat
       (fun i => INR (nth 1 i 0%nat) * 10 + INR (nth 4 i 0%nat)))
    false.

Local Close Scope R_scope.

(** A checkpoint saved with the running mean of a layer named [norm]. *)
Open Scope string_scope.

Definition norm_prefix : String.string := "norm.".

Definition old_checkpoint : StateDict Z :=
  [("norm.running_mean", 1%Z); ("norm.weight", 2%Z)].

Close Scope string_scope.

(** * Properties *)

Local Open Scope fd_scope.

(** ** The axis bookkeeping *)

Lemma length_tensor_sizes (x : Expr) : length (tensor_sizes x) = ndim x.
Proof. unfold tensor_sizes. now rewrite length_map, length_seq. Qed.

Lemma nth_error_tensor_sizes (x : Expr) (k : nat) :
  nth_error (tensor_sizes x) k =
  if k <? ndim x then Some (Size x k) else None.
Proof.
  unfold tensor_sizes.
  destruct (Nat.ltb_spec k (ndim x)) as [Hlt | Hge].
  - rewrite nth_error_map.
    rewrite (nth_error_nth' _ 0) by (now rewrite length_seq).
    cbn. now rewrite seq_nth.
  - apply nth_error_None. now rewrite length_map, length_seq.
Qed.

Lemma nth_tensor_sizes (x : Expr) (k : nat) (d : Expr) :
  k < ndim x -> nth k (tensor_sizes x) d = Size x k.
Proof.
  intros Hlt. apply nth_error_nth.
  rewrite nth_error_tensor_sizes.
  apply Nat.ltb_lt in Hlt. now rewrite Hlt.
Qed.

Lemma index_tensor_sizes (x : Expr) (k : nat) (fd : FusionDefinition) :
  index (tensor_sizes x) k fd =
  if k <? ndim x then Ok (Size x k, fd) else Raise IndexError.
Proof.
  unfold index. rewrite nth_error_tensor_sizes.
  now destruct (k <? ndim x).
Qed.

Lemma fold_left_ext_in {A B : Type} (f g : A -> B -> A) (l : list B) :
  (forall acc b, In b l -> f acc b = g acc b) ->
  forall init, fold_left f l init = fold_left g l init.
Proof.
  induction l as [| b l IH]; intros Hfg init; cbn; [reflexivity |].
  rewrite Hfg by now left.
  apply IH. intros acc b' Hin. apply Hfg. now right.
Qed.

(** The product built by the loop over [x_reduction_axes]. *)
Lemma num_features_sizes (x : Expr) (p : nat -> bool) :
  fold_left (fun acc a => Mul acc (nth a (tensor_sizes x) (ConstInt 0)))
    (filter p (seq 0 (ndim x))) (ConstInt 1) =
  fold_left (fun acc a => Mul acc (Size x a))
    (filter p (seq 0 (ndim x))) (ConstInt 1).
Proof.
  apply fold_left_ext_in. intros acc a Hin.
  apply filter_In in Hin as [Hin _]. apply in_seq in Hin.
  rewrite nth_tensor_sizes by lia. reflexivity.
Qed.

Ltac run_resolve_axes :=
  unfold resolve_axes, bind;
  rewrite length_tensor_sizes, index_tensor_sizes;
  match goal with
  | |- context [0 <? ndim ?x] => destruct (0 <? ndim x) eqn:H0
  end; cbn;
  [ rewrite index_tensor_sizes;
    match goal with
    | |- context [?c <? ndim ?x] => destruct (c <? ndim x) eqn:Hc
    end; cbn | ].

(** What [resolve_axes] computes, field by field. *)
Lemma resolve_axes_inv (x : Expr) (cl : bool) (sa : list NamedAxis)
    (fd fd' : FusionDefinition) (ax : Axes) :
  resolve_axes x cl sa fd = Ok (ax, fd') ->
  fd' = fd /\ axes_spec x cl sa ax.
Proof.
  run_resolve_axes; try discriminate.
  apply Nat.ltb_lt in H0, Hc.
  destruct (axis_in BATCH sa) eqn:Hb, (axis_in CHANNEL sa) eqn:Hch;
    cbn; intros [= <- <-]; (split; [reflexivity |]);
    constructor; cbn; rewrite ?Hb, ?Hch; auto; apply num_features_sizes.
Qed.

Lemma resolve_axes_raises (x : Expr) (cl : bool) (sa : list NamedAxis)
    (fd : FusionDefinition) (e : PyError) :
  resolve_axes x cl sa fd = Raise e -> e = IndexError.
Proof.
  run_resolve_axes; try (now intros [= <-]).
  destruct (axis_in BATCH sa), (axis_in CHANNEL sa); discriminate.
Qed.

(** With a batch and a channel dimension to index, the bookkeeping
    succeeds and leaves the fusion definition as it was. *)
Lemma resolve_axes_total (x : Expr) (cl : bool) (sa : list NamedAxis)
    (fd : FusionDefinition) :
  2 <= ndim x ->
  exists ax, resolve_axes x cl sa fd = Ok (ax, fd) /\ axes_spec x cl sa ax.
Proof.
  intros Hn.
  destruct (resolve_axes x cl sa fd) as [[ax fd'] | e] eqn:Hr.
  - destruct (resolve_axes_inv _ _ _ _ Hr) as [-> Hs]. eauto.
  - exfalso. revert Hr. run_resolve_axes.
    + destruct (axis_in BATCH sa), (axis_in CHANNEL sa); discriminate.
    + apply Nat.ltb_ge in Hc. destruct cl; lia.
    + apply Nat.ltb_ge in H0. lia.
Qed.

(** ** Reductions *)

Local Open Scope R_scope.

Lemma Rsum_to_ext (n : nat) (f g : nat -> R) :
  (forall k, (k < n)%nat -> f k = g k) -> Rsum_to n f = Rsum_to n g.
Proof.
  induction n as [| n IH]; intros Hfg; cbn; [reflexivity |].
  rewrite IH by (intros k Hk; apply Hfg; lia).
  rewrite Hfg by lia. reflexivity.
Qed.

Lemma Rsum_to_const (n : nat) (c : R) :
  Rsum_to n (fun _ => c) = INR n * c.
Proof.
  induction n as [| n IH]; [cbn; lra |].
  rewrite S_INR. cbn [Rsum_to]. rewrite IH. lra.
Qed.

Lemma in_range_length (sh i : list nat) :
  in_range sh i -> length i = length sh.
Proof.
  revert i. induction sh as [| e sh IH]; intros [| k i]; cbn; try tauto.
  intros [_ H]. f_equal. now apply IH.
Qed.

Lemma reduced_count_pos (axes : list nat) (sh i : list nat) (ax : nat) :
  in_range sh i -> (0 < reduced_count axes ax sh)%nat.
Proof.
  revert i ax. induction sh as [| e sh IH]; intros [| k i] ax; cbn;
    try tauto; try lia.
  intros [Hk Hi]. specialize (IH i (S ax) Hi).
  destruct (mem ax axes); nia.
Qed.

(** A reduction of a function that is constant on the slice it folds
    yields the constant times the number of folded elements. *)
Lemma sum_axes_const (axes : list nat) (sh : list nat) :
  forall (ax : nat) (i : list nat) (f : list nat -> R) (c : R),
    in_range sh i ->
    (forall r, in_range sh r ->
               keep_dims axes ax r = keep_dims axes ax i -> f r = c) ->
    sum_axes axes ax sh (keep_dims axes ax i) f =
    INR (reduced_count axes ax sh) * c.
Proof.
  induction sh as [| e sh IH]; intros ax [| k i] f c Hi Hf; cbn in Hi;
    try tauto.
  - cbn. rewrite (Hf [] I eq_refl). lra.
  - destruct Hi as [Hk Hi]. cbn.
    destruct (mem ax axes) eqn:Hm.
    + rewrite Rsum_to_ext
        with (g := fun _ => INR (reduced_count axes (S ax) sh) * c).
      * rewrite Rsum_to_const, mult_INR. lra.
      * intros k' Hk'. apply IH; [assumption |].
        intros r Hr Hkeep. apply Hf; cbn; [tauto |].
        now rewrite Hm.
    + cbn. apply IH; [assumption |].
      intros r Hr Hkeep. apply Hf; cbn; [tauto |].
      rewrite Hm. now f_equal.
Qed.

(** Increasing lists of positions, all at least [k]. *)
Lemma mem_cons (a d : nat) (l : list nat) :
  mem a (d :: l) = (a =? d)%nat || mem a l.
Proof. reflexivity. Qed.

Lemma keep_dims_ext (p q : list nat) (i : list nat) :
  forall ax,
    (forall a, (ax <= a < ax + length i)%nat -> mem a p = mem a q) ->
    keep_dims p ax i = keep_dims q ax i.
Proof.
  induction i as [| k i IH]; intros ax Hpq; cbn; [reflexivity |].
  rewrite (Hpq ax) by (cbn; lia).
  rewrite (IH (S ax)) by (intros a Ha; apply Hpq; cbn; lia).
  reflexivity.
Qed.

Lemma reduced_count_ext (p q : list nat) (sh : list nat) :
  forall ax,
    (forall a, (ax <= a < ax + length sh)%nat -> mem a p = mem a q) ->
    reduced_count p ax sh = reduced_count q ax sh.
Proof.
  induction sh as [| e sh IH]; intros ax Hpq; cbn; [reflexivity |].
  rewrite (Hpq ax) by (cbn; lia).
  rewrite (IH (S ax)) by (intros a Ha; apply Hpq; cbn; lia).
  reflexivity.
Qed.

Lemma mem_In (a : nat) (l : list nat) : mem a l = true <-> In a l.
Proof.
  unfold mem. rewrite existsb_exists. split.
  - intros (b & Hin & Heq). apply Nat.eqb_eq in Heq. now subst.
  - intros Hin. exists a. split; [assumption | apply Nat.eqb_refl].
Qed.

Lemma increasing_from_ge (l : list nat) :
  forall k d, increasing_from k l -> In d l -> (k <= d)%nat.
Proof.
  induction l as [| e l IH]; intros k d Hinc Hin; [destruct Hin |].
  destruct Hinc as [Hke Hinc]. destruct Hin as [-> | Hin]; [assumption |].
  specialize (IH (S e) d Hinc Hin). lia.
Qed.

Lemma increasing_from_weaken (l : list nat) (k k' : nat) :
  (k' <= k)%nat -> increasing_from k l -> increasing_from k' l.
Proof. destruct l as [| d l]; cbn; [tauto |]. intros Hk [Hd Hl]. split; [lia | assumption]. Qed.

(** The index a reduction keeps is the one a broadcast over the
    statistics positions reads, when those positions are listed in
    increasing order. *)
Lemma keep_dims_stat (i : list nat) :
  forall (k : nat) (sd axes : list nat),
    increasing_from k sd ->
    (forall d, In d sd -> (d < k + length i)%nat) ->
    (forall a, (k <= a < k + length i)%nat -> mem a axes = negb (mem a sd)) ->
    keep_dims axes k i = map (fun d => nth (d - k) i 0%nat) sd.
Proof.
  induction i as [| a i IH]; intros k sd axes Hinc Hlt Hmem.
  - destruct sd as [| d sd]; [reflexivity |].
    destruct Hinc as [Hkd _]. specialize (Hlt d (or_introl eq_refl)).
    cbn in Hlt. lia.
  - cbn [keep_dims]. rewrite (Hmem k) by (cbn; lia).
    assert (Htail : forall sd',
               increasing_from (S k) sd' ->
               map (fun d => nth (d - k) (a :: i) 0%nat) sd' =
               map (fun d => nth (d - S k) i 0%nat) sd').
    { intros sd' Hinc'. apply map_ext_in. intros d Hin.
      pose proof (increasing_from_ge _ _ _ Hinc' Hin) as Hge.
      replace (d - k)%nat with (S (d - S k)) by lia. reflexivity. }
    destruct sd as [| d sd].
    + cbn. apply (IH (S k) [] axes); cbn; [tauto | tauto |].
      intros b Hb. apply Hmem. cbn. lia.
    + destruct Hinc as [Hkd Hinc].
      destruct (Nat.eq_dec d k) as [-> | Hne].
      * rewrite mem_cons, Nat.eqb_refl. cbn [orb negb map].
        rewrite Nat.sub_diag. cbn [nth]. f_equal.
        rewrite Htail by assumption.
        apply IH; [assumption | |].
        -- intros d Hin. specialize (Hlt d (or_intror Hin)). cbn in Hlt. lia.
        -- intros b Hb. rewrite (Hmem b) by (cbn; lia).
           rewrite mem_cons.
           destruct (Nat.eqb_spec b k) as [-> | _]; [lia | reflexivity].
      * assert (Hk : mem k (d :: sd) = false).
        { destruct (mem k (d :: sd)) eqn:Hm; [| reflexivity].
          apply mem_In in Hm. destruct Hm as [-> | Hin]; [lia |].
          pose proof (increasing_from_ge _ _ _ Hinc Hin). lia. }
        rewrite Hk. cbn [negb].
        rewrite Htail by (cbn; split; [lia | assumption]).
        apply IH.
        -- cbn; split; [lia | assumption].
        -- intros d' Hin. specialize (Hlt d' Hin). cbn in Hlt. lia.
        -- intros b Hb. apply Hmem. cbn. lia.
Qed.

Lemma mem_filter_seq (p : nat -> bool) (n a : nat) :
  (a < n)%nat -> mem a (filter p (seq 0 n)) = p a.
Proof.
  intros Ha. destruct (p a) eqn:Hp.
  - apply mem_In. apply filter_In. split; [apply in_seq; lia | assumption].
  - destruct (mem a (filter p (seq 0 n))) eqn:Hm; [| reflexivity].
    apply mem_In, filter_In in Hm. destruct Hm as [_ Hm]. congruence.
Qed.

(** The statistics positions of a resolved input are increasing and in
    range once the rank is at least two. *)
Lemma stat_dims_increasing (x : Expr) (cl : bool) (sa : list NamedAxis)
    (ax : Axes) :
  (2 <= ndim x)%nat -> axes_spec x cl sa ax ->
  increasing_from 0 (stat_dims ax) /\
  (forall d, In d (stat_dims ax) -> (d < ndim x)%nat).
Proof.
  intros Hn Hs. rewrite (spec_stat_dims Hs).
  pose proof (spec_channel_lt Hs) as Hlt.
  pose proof (spec_channel_dim Hs) as Hcd.
  assert (1 <= channel_dim ax)%nat by (destruct cl; lia).
  destruct (axis_in BATCH sa), (axis_in CHANNEL sa); cbn;
    (split; [lia || tauto | intros d Hd; intuition lia]).
Qed.

Lemma keep_dims_reduction (x : Expr) (cl : bool) (sa : list NamedAxis)
    (ax : Axes) (i : list nat) :
  (2 <= ndim x)%nat -> axes_spec x cl sa ax -> length i = ndim x ->
  keep_dims (x_reduction_axes ax) 0 i =
  map (fun d => nth d i 0%nat) (stat_dims ax).
Proof.
  intros Hn Hs Hlen.
  destruct (stat_dims_increasing Hn Hs) as [Hinc Hlt].
  rewrite keep_dims_stat with (sd := stat_dims ax); try assumption.
  - apply map_ext. intros d. now rewrite Nat.sub_0_r.
  - intros d Hd. specialize (Hlt d Hd). lia.
  - intros a Ha. rewrite (spec_x_reduction_axes Hs).
    apply mem_filter_seq. lia.
Qed.

(** ** One step of evaluation *)

Lemma lastn_all (k : nat) (i : list nat) : k = length i -> lastn k i = i.
Proof. intros ->. unfold lastn. now rewrite Nat.sub_diag. Qed.

Lemma lastn_0 (i : list nat) : lastn 0 i = [].
Proof. unfold lastn. rewrite Nat.sub_0_r. apply skipn_all. Qed.

Section EvalSteps.

Variable inputs : list TVal.

Lemma eval_Add (a b : Expr) (i : list nat) :
  ndim a = length i -> ndim b = length i ->
  eval_at inputs (Add a b) i = eval_at inputs a i + eval_at inputs b i.
Proof. intros Ha Hb. cbn [eval_at]. now rewrite !lastn_all. Qed.

Lemma eval_Sub (a b : Expr) (i : list nat) :
  ndim a = length i -> ndim b = length i ->
  eval_at inputs (Sub a b) i = eval_at inputs a i - eval_at inputs b i.
Proof. intros Ha Hb. cbn [eval_at]. now rewrite !lastn_all. Qed.

Lemma eval_Mul (a b : Expr) (i : list nat) :
  ndim a = length i -> ndim b = length i ->
  eval_at inputs (Mul a b) i = eval_at inputs a i * eval_at inputs b i.
Proof. intros Ha Hb. cbn [eval_at]. now rewrite !lastn_all. Qed.

(** A tensor combined with a scalar. *)
Lemma eval_Mul_scalar (a b : Expr) (i : list nat) :
  ndim a = length i -> ndim b = 0%nat ->
  eval_at inputs (Mul a b) i = eval_at inputs a i * eval_at inputs b [].
Proof.
  intros Ha Hb. cbn [eval_at]. now rewrite lastn_all, Hb, lastn_0.
Qed.

Lemma eval_Add_scalar (a b : Expr) (i : list nat) :
  ndim a = length i -> ndim b = 0%nat ->
  eval_at inputs (Add a b) i = eval_at inputs a i + eval_at inputs b [].
Proof.
  intros Ha Hb. cbn [eval_at]. now rewrite lastn_all, Hb, lastn_0.
Qed.

Lemma eval_Div_scalars (a b : Expr) (i : list nat) :
  ndim a = 0%nat -> ndim b = 0%nat ->
  eval_at inputs (Div a b) i = eval_at inputs a [] / eval_at inputs b [].
Proof. intros Ha Hb. cbn [eval_at]. now rewrite Ha, Hb, lastn_0. Qed.

Lemma eval_Sub_scalars (a b : Expr) (i : list nat) :
  ndim a = 0%nat -> ndim b = 0%nat ->
  eval_at inputs (Sub a b) i = eval_at inputs a [] - eval_at inputs b [].
Proof. intros Ha Hb. cbn [eval_at]. now rewrite Ha, Hb, lastn_0. Qed.

Lemma eval_Broadcast (a : Expr) (sh : list Expr) (dims i : list nat) :
  eval_at inputs (BroadcastInDim a sh dims) i =
  eval_at inputs a (map (fun d => nth d i 0%nat) dims).
Proof. reflexivity. Qed.

Lemma eval_MeanOf (a : Expr) (axes j : list nat) :
  eval_at inputs (MeanOf a axes) j =
  sum_axes axes 0 (eval_shape inputs a) j (eval_at inputs a) /
  INR (reduced_count axes 0 (eval_shape inputs a)).
Proof. reflexivity. Qed.

Lemma eval_Rsqrt (a : Expr) (i : list nat) :
  eval_at inputs (Rsqrt a) i = / sqrt (eval_at inputs a i).
Proof. reflexivity. Qed.

(** The mean over the reduction axes, broadcast back, of an input that is
    constant along those axes is the input itself. *)
Lemma broadcast_mean_of_constant (x : Expr) (cl : bool)
    (sa : list NamedAxis) (ax : Axes) (i : list nat) :
  (2 <= ndim x)%nat -> axes_spec x cl sa ax ->
  length (eval_shape inputs x) = ndim x ->
  in_range (eval_shape inputs x) i ->
  (forall r,
      in_range (eval_shape inputs x) r ->
      (forall d, In d (stat_dims ax) -> nth d r 0%nat = nth d i 0%nat) ->
      eval_at inputs x r = eval_at inputs x i) ->
  eval_at inputs
    (BroadcastInDim (MeanOf x (x_reduction_axes ax)) (dyn_shape ax)
       (stat_dims ax)) i
  = eval_at inputs x i.
Proof.
  intros Hn Hs Hlen Hi Hconst.
  rewrite eval_Broadcast, eval_MeanOf.
  assert (Hleni : length i = ndim x)
    by (rewrite <- Hlen; now apply in_range_length).
  rewrite <- (keep_dims_reduction i Hn Hs Hleni).
  rewrite sum_axes_const with (c := eval_at inputs x i); try assumption.
  - pose proof (reduced_count_pos (x_reduction_axes ax) _ _ 0 Hi) as Hpos.
    apply lt_INR in Hpos. cbn in Hpos. field. lra.
  - intros r Hr Hkeep. apply Hconst; [assumption |].
    assert (Hlenr : length r = ndim x)
      by (rewrite <- Hlen; now apply in_range_length).
    rewrite (keep_dims_reduction r Hn Hs Hlenr) in Hkeep.
    rewrite (keep_dims_reduction i Hn Hs Hleni) in Hkeep.
    intros d Hd.
    assert (Hnth : forall l : list nat,
               In d l ->
               map (fun d => nth d r 0%nat) l = map (fun d => nth d i 0%nat) l ->
               nth d r 0%nat = nth d i 0%nat).
    { induction l as [| e l IHl]; intros Hin Hmap; [destruct Hin |].
      cbn in Hmap. injection Hmap as He Hl.
      destruct Hin as [-> | Hin]; auto. }
    now apply (Hnth (stat_dims ax)).
Qed.

End EvalSteps.

(** Ranks of the operands of the normalization formula: the input and
    everything broadcast to its shape have the rank of the index. *)
Ltac solve_rank :=
  cbn [ndim];
  repeat match goal with
         | H : axes_spec _ _ _ ?ax |- _ =>
             rewrite ?(spec_dyn_shape H), ?length_tensor_sizes
         end;
  rewrite ?Nat.max_id; solve [assumption | symmetry; assumption | lia].

Ltac eval_formula :=
  repeat first
    [ rewrite eval_Add by solve_rank
    | rewrite eval_Sub by solve_rank
    | rewrite eval_Mul by solve_rank ].

(** ** The number of reduced elements *)

Section NumFeatures.

Variable inputs : list TVal.

Lemma eval_size_product (x : Expr) (l : list nat) :
  forall (acc : Expr) (c : R) (j : list nat),
    ndim acc = 0%nat ->
    (forall j', eval_at inputs acc j' = c) ->
    eval_at inputs (fold_left (fun acc a => Mul acc (Size x a)) l acc) j =
    c * fold_right Rmult 1
          (map (fun a => INR (nth a (eval_shape inputs x) 0%nat)) l).
Proof.
  induction l as [| a l IH]; intros acc c j Hacc Hc;
    cbn [fold_left map fold_right].
  - rewrite Hc. lra.
  - rewrite IH with (c := c * INR (nth a (eval_shape inputs x) 0%nat)).
    + lra.
    + cbn. now rewrite Hacc.
    + intros j'. cbn [eval_at]. now rewrite Hc.
Qed.

Lemma reduced_count_product (axes : list nat) (sh : list nat) :
  forall k,
    INR (reduced_count axes k sh) =
    fold_right Rmult 1
      (map (fun a => INR (nth (a - k) sh 0%nat))
         (filter (fun a => mem a axes) (seq k (length sh)))).
Proof.
  induction sh as [| e sh IH]; intros k; [cbn; lra |].
  cbn [length seq filter reduced_count].
  assert (Htail :
            map (fun a => INR (nth (a - k) (e :: sh) 0%nat))
              (filter (fun a => mem a axes) (seq (S k) (length sh))) =
            map (fun a => INR (nth (a - S k) sh 0%nat))
              (filter (fun a => mem a axes) (seq (S k) (length sh)))).
  { apply map_ext_in. intros a Ha.
    apply filter_In in Ha as [Ha _]. apply in_seq in Ha.
    replace (a - k)%nat with (S (a - S k)) by lia. reflexivity. }
  destruct (mem k axes).
  - cbn [map fold_right]. rewrite Htail, <- IH, mult_INR, Nat.sub_diag.
    reflexivity.
  - rewrite Htail, <- IH. reflexivity.
Qed.

(** The scalar [num_features] of the builders denotes the number of
    elements each statistic is computed from. *)
Lemma eval_num_features (x : Expr) (cl : bool) (sa : list NamedAxis)
    (ax : Axes) (j : list nat) :
  axes_spec x cl sa ax ->
  length (eval_shape inputs x) = ndim x ->
  eval_at inputs (num_features ax) j =
  INR (reduced_count (x_reduction_axes ax) 0 (eval_shape inputs x)).
Proof.
  intros Hs Hlen.
  rewrite (spec_num_features Hs).
  rewrite eval_size_product with (c := 1) by reflexivity.
  rewrite reduced_count_product, Hlen, Rmult_1_l. f_equal.
  assert (Hfilter :
            filter (fun a => mem a (x_reduction_axes ax)) (seq 0 (ndim x)) =
            x_reduction_axes ax).
  { etransitivity; [| symmetry; exact (spec_x_reduction_axes Hs)].
    apply filter_ext_in. intros a Ha. apply in_seq in Ha.
    rewrite (spec_x_reduction_axes Hs). apply mem_filter_seq. lia. }
  rewrite Hfilter. apply map_ext. intros a. now rewrite Nat.sub_0_r.
Qed.

End NumFeatures.

Lemma ndim_size_product (x : Expr) (l : list nat) :
  forall acc,
    ndim acc = 0%nat ->
    ndim (fold_left (fun acc a => Mul acc (Size x a)) l acc) = 0%nat.
Proof.
  induction l as [| a l IH]; intros acc Hacc; cbn [fold_left]; [assumption |].
  apply IH. cbn. now rewrite Hacc.
Qed.

(** [num_features] is a scalar. *)
Lemma ndim_num_features (x : Expr) (cl : bool) (sa : list NamedAxis)
    (ax : Axes) :
  axes_spec x cl sa ax -> ndim (num_features ax) = 0%nat.
Proof.
  intros Hs. rewrite (spec_num_features Hs). now apply ndim_size_product.
Qed.

(** ** Effects on the fusion definition *)

Local Close Scope R_scope.

Lemma bind_inv {A B : Type} (m : FD A) (k : A -> FD B)
    (fd fd'' : FusionDefinition) (b : B) :
  bind m k fd = Ok (b, fd'') ->
  exists a fd', m fd = Ok (a, fd') /\ k a fd' = Ok (b, fd'').
Proof.
  unfold bind. destruct (m fd) as [[a fd'] | e]; [eauto | discriminate].
Qed.

(** The forward builder adds the two aliasing outputs exactly when it is
    given running statistics and computes fresh ones, and nothing else. *)
Lemma norm_fusion_forward_outputs
    (x : Expr) (weight bias running_mean running_var : option Expr)
    (eps : Expr) (use_input_stats : bool) (momentum : Expr)
    (channels_last : bool) (x_datatype : option DataType) (unbiased : bool)
    (stat_axes : list NamedAxis) (fd fd' : FusionDefinition)
    (r : Expr * Expr * Expr) :
  norm_fusion_forward x weight bias running_mean running_var eps
    use_input_stats momentum channels_last x_datatype unbiased stat_axes fd
  = Ok (r, fd') ->
  num_inputs fd' = num_inputs fd /\
  if use_input_stats && negb (is_none running_mean)
  then exists new_mean new_var rmean rvar,
      running_mean = Some rmean /\ running_var = Some rvar /\
      outputs fd' =
      outputs fd ++ [(new_mean, Some rmean); (new_var, Some rvar)]
  else outputs fd' = outputs fd.
Proof.
  unfold norm_fusion_forward. intros H.
  apply bind_inv in H as ([] & fd1 & Hassert & H).
  unfold py_assert in Hassert.
  destruct (negb (xorb (is_none running_var) (is_none running_mean))) eqn:Hx;
    [| discriminate].
  injection Hassert as <-.
  apply bind_inv in H as (ax & fd2 & Hres & H).
  apply resolve_axes_inv in Hres as [-> _].
  revert H. unfold bind, add_output, ret, raise.
  destruct running_mean as [rm |], running_var as [rv |];
    try discriminate Hx;
    destruct use_input_stats, weight, bias; cbn;
    intros [= <- <-]; cbn; (split; [reflexivity |]);
    rewrite <- ?app_assoc; cbn; eauto 10.
Qed.

(** The backward builder adds no output. *)
Lemma norm_fusion_backward_fd
    (x grad_output mean invstd : Expr)
    (weight bias running_mean running_var : option Expr)
    (use_input_stats channels_last : bool) (x_datatype : option DataType)
    (stat_axes : list NamedAxis) (fd fd' : FusionDefinition)
    (r : Expr * option Expr * option Expr) :
  norm_fusion_backward x grad_output mean invstd weight bias running_mean
    running_var use_input_stats channels_last x_datatype stat_axes fd
  = Ok (r, fd') ->
  fd' = fd.
Proof.
  unfold norm_fusion_backward. intros H.
  apply bind_inv in H as ([] & fd1 & Hassert & H).
  unfold py_assert in Hassert.
  destruct (negb (xorb (is_none running_var) (is_none running_mean)));
    [| discriminate].
  injection Hassert as <-.
  apply bind_inv in H as (ax & fd2 & Hres & H).
  apply resolve_axes_inv in Hres as [-> _].
  unfold ret in H. now injection H as _ <-.
Qed.

Lemma written_inputs_no_alias (fd : FusionDefinition) (env : list TVal) :
  Forall (fun o => snd o = None) (outputs fd) ->
  written_inputs fd env = env.
Proof.
  unfold written_inputs. generalize (outputs fd). intros l.
  revert env. induction l as [| o l IH]; intros env Hall; [reflexivity |].
  inversion Hall as [| ? ? Ho Hl]; subst. cbn. rewrite Ho. now apply IH.
Qed.

Lemma tensor_eta (t : TorchTensor) :
  mkTensor (dtype t) (data t) (is_channels_last t) = t.
Proof. now destruct t. Qed.

(** In inference mode the fusion definition of [forward] holds no
    aliasing output, and the caller's running statistics are read back
    as they were. *)
Lemma forward_definition_inference
    (x : TorchTensor) (weight bias : option TorchTensor)
    (rm rv : TorchTensor) (momentum eps : R) (unbiased : bool)
    (stat_axes : list NamedAxis) (channels_last : bool)
    (x_datatype : option DataType)
    (inputs : list PyInput) (tv_rm tv_rv : option Expr)
    (fd : FusionDefinition) :
  forward_definition x weight bias (Some rm) (Some rv) false momentum eps
    unbiased stat_axes channels_last x_datatype empty_fd
  = Ok (inputs, tv_rm, tv_rv, fd) ->
  written_inputs fd (map input_value inputs) = map input_value inputs /\
  after_execute (Some rm) tv_rm (map input_value inputs) = Some rm /\
  after_execute (Some rv) tv_rv (map input_value inputs) = Some rv.
Proof.
  unfold forward_definition, define_optional, partially_contig_tensor.
  repeat
    (cbn - [norm_fusion_forward after_execute written_inputs];
     match goal with
     | |- context [match rank ?t with _ => _ end] => destruct (rank t)
     | |- context [match ?o with Some _ => _ | None => _ end] =>
         is_var o; destruct o
     end; try discriminate).
  all: cbn - [norm_fusion_forward after_execute written_inputs].
  all: intros H; apply bind_inv in H as ([[o mn] istd] & [k1 o1] & Hnf & H).
  all: apply norm_fusion_forward_outputs in Hnf as [_ Hout].
  all: cbn in Hout; subst o1.
  all: cbn in H; injection H as <- <- <- <-.
  all: (split; [apply written_inputs_no_alias; cbn; repeat constructor |]).
  all: destruct (is_torch_reduced (dtype rm)), (is_torch_reduced (dtype rv)).
  all: cbn; rewrite !tensor_eta; split; reflexivity.
Qed.

(** The fusion definition of [backward] holds no aliasing output, and
    at most three outputs: the input gradient, then the weight gradient
    if there is a weight, then the bias gradient if there is a bias and
    the element type of the input is not a reduced-precision one. *)
Lemma backward_definition_outputs (ctx : Ctx) (grad_output : TorchTensor)
    (inputs : list PyInput) (fd : FusionDefinition) :
  backward_definition ctx grad_output empty_fd = Ok (inputs, fd) ->
  Forall (fun o => snd o = None) (outputs fd) /\
  length (outputs fd) =
  1 + (if is_none (saved_weight ctx) then 0 else 1) +
  (if is_none (saved_bias ctx) then 0
   else if is_reduced (torch2datatype (dtype (saved_x ctx))) then 0 else 1).
Proof.
  unfold backward_definition, define_optional, partially_contig_tensor.
  destruct ctx as [sa uis cl x w b rm rv mean invstd].
  cbn [saved_x saved_weight saved_bias saved_running_mean saved_running_var
       saved_mean saved_invstd ctx_stat_axes ctx_use_input_stats
       ctx_channels_last].
  repeat
    (cbn - [norm_fusion_backward];
     match goal with
     | |- context [match rank ?t with _ => _ end] => destruct (rank t)
     | |- context [match ?o with Some _ => _ | None => _ end] =>
         is_var o; destruct o
     end; try discriminate).
  all: cbn - [norm_fusion_backward].
  all: intros H; apply bind_inv in H as ([[gi gw] gb] & fd1 & Hnb & H).
  all: pose proof (norm_fusion_backward_fd _ _ _ _ _ _ _ _ _ _ _ _ _ Hnb)
         as ->.
  all: revert H; unfold bind, add_output, ret, raise.
  all: destruct gw, gb; try discriminate.
  all: destruct (is_reduced (torch2datatype (dtype x))).
  all: cbn; intros [= <- <-]; cbn.
  all: split; [repeat constructor | reflexivity].
Qed.

(** ** Success of the builders *)

(** Once the check on the running statistics has passed, the builders
    fail only where the axis bookkeeping does. *)
Lemma norm_fusion_forward_checked
    (x : Expr) (weight bias running_mean running_var : option Expr)
    (eps : Expr) (use_input_stats : bool) (momentum : Expr)
    (channels_last : bool) (x_datatype : option DataType) (unbiased : bool)
    (stat_axes : list NamedAxis) (fd : FusionDefinition) :
  xorb (is_none running_var) (is_none running_mean) = false ->
  match resolve_axes x channels_last stat_axes fd with
  | Ok _ =>
      exists r fd',
        norm_fusion_forward x weight bias running_mean running_var eps
          use_input_stats momentum channels_last x_datatype unbiased
          stat_axes fd = Ok (r, fd')
  | Raise _ =>
      norm_fusion_forward x weight bias running_mean running_var eps
        use_input_stats momentum channels_last x_datatype unbiased
        stat_axes fd = Raise IndexError
  end.
Proof.
  intros Hx. unfold norm_fusion_forward, bind. rewrite Hx. cbn [negb py_assert ret].
  destruct (resolve_axes x channels_last stat_axes fd) as [[ax fd1] | e] eqn:Hr.
  - unfold add_output, ret, raise.
    destruct running_mean, running_var; try discriminate Hx;
      destruct use_input_stats, weight, bias; cbn; eauto.
  - now rewrite (resolve_axes_raises _ _ _ _ Hr).
Qed.

Lemma norm_fusion_backward_checked
    (x grad_output mean invstd : Expr)
    (weight bias running_mean running_var : option Expr)
    (use_input_stats channels_last : bool) (x_datatype : option DataType)
    (stat_axes : list NamedAxis) (fd : FusionDefinition) :
  xorb (is_none running_var) (is_none running_mean) = false ->
  match resolve_axes x channels_last stat_axes fd with
  | Ok _ =>
      exists r,
        norm_fusion_backward x grad_output mean invstd weight bias
          running_mean running_var use_input_stats channels_last x_datatype
          stat_axes fd = Ok (r, fd)
  | Raise _ =>
      norm_fusion_backward x grad_output mean invstd weight bias
        running_mean running_var use_input_stats channels_last x_datatype
        stat_axes fd = Raise IndexError
  end.
Proof.
  intros Hx. unfold norm_fusion_backward, bind. rewrite Hx. cbn [negb py_assert ret].
  destruct (resolve_axes x channels_last stat_axes fd) as [[ax fd1] | e] eqn:Hr.
  - apply resolve_axes_inv in Hr as [-> _]. unfold ret. eauto.
  - now rewrite (resolve_axes_raises _ _ _ _ Hr).
Qed.

(** ** Rank of the statistics *)

Lemma keep_dims_seq (axes : list nat) (m : nat) :
  forall k,
    keep_dims axes k (seq k m) =
    filter (fun a => negb (mem a axes)) (seq k m).
Proof.
  induction m as [| m IH]; intros k; cbn; [reflexivity |].
  rewrite IH. now destruct (mem k axes).
Qed.

(** A tensor reduced over [x_reduction_axes] has one dimension per
    statistics position. *)
Lemma ndim_statistics (x : Expr) (cl : bool) (sa : list NamedAxis)
    (ax : Axes) :
  (2 <= ndim x)%nat -> axes_spec x cl sa ax ->
  length (filter (fun a => negb (mem a (x_reduction_axes ax)))
            (seq 0 (ndim x))) = length (stat_dims ax).
Proof.
  intros Hn Hs.
  rewrite <- keep_dims_seq.
  rewrite (keep_dims_reduction (seq 0 (ndim x)) Hn Hs) by apply length_seq.
  apply length_map.
Qed.

Local Open Scope R_scope.

(** Runs a concrete call down to the arithmetic on reals. *)
Ltac run_call :=
  cbv - [Rplus Rminus Rmult Rdiv Rinv Ropp sqrt IZR INR].

(** ** Inference mode *)

(** C7. With [use_input_stats] false and running statistics supplied, the
    forward graph subtracts the running mean and multiplies by
    [rsqrt(running_var + eps)], both read at the channel position only
    (never at the batch position), then applies the optional weight and
    bias; the statistics it returns are the running mean and
    [1 / sqrt(running_var + eps)].  The running variance has one
    dimension when [CHANNEL] is in the role set and none otherwise, and
    [eps] is a scalar. *)
Theorem inference_forward_uses_running_stats
    (x : Expr) (weight bias : option Expr) (running_mean running_var : Expr)
    (eps momentum : Expr) (channels_last : bool)
    (x_datatype : option DataType) (unbiased : bool)
    (stat_axes : list NamedAxis) (fd : FusionDefinition) :
  (2 <= ndim x)%nat ->
  ndim running_var = (if axis_in CHANNEL stat_axes then 1 else 0)%nat ->
  ndim eps = 0%nat ->
  exists ax out invstd,
    resolve_axes x channels_last stat_axes fd = Ok (ax, fd) /\
    norm_fusion_forward x weight bias (Some running_mean) (Some running_var)
      eps false momentum channels_last x_datatype unbiased stat_axes fd
    = Ok (out, running_mean, invstd, fd) /\
    ~ In (batch_dim ax) (stat_dims_nobatch ax) /\
    forall (inputs : list TVal) (i : list nat),
      length i = ndim x ->
      let nobatch := map (fun d => nth d i 0%nat) (stat_dims_nobatch ax) in
      let normalized :=
        (eval_at inputs x i - eval_at inputs running_mean nobatch) *
        / sqrt (eval_at inputs running_var nobatch + eval_at inputs eps []) in
      let scaled :=
        match weight with
        | Some w => normalized * eval_at inputs w nobatch
        | None => normalized
        end in
      eval_at inputs out i =
        match bias with
        | Some b => scaled + eval_at inputs b nobatch
        | None => scaled
        end /\
      eval_at inputs invstd nobatch =
        / sqrt (eval_at inputs running_var nobatch + eval_at inputs eps []).
Proof.
  intros Hrank Hrv Heps.
  destruct (resolve_axes_total x channels_last stat_axes fd Hrank)
    as (ax & Hres & Hspec).
  exists ax.
  assert (Hinv : forall inputs i,
             eval_at inputs (Rsqrt (Add running_var eps))
               (map (fun d => nth d i 0%nat) (stat_dims_nobatch ax)) =
             / sqrt (eval_at inputs running_var
                       (map (fun d => nth d i 0%nat) (stat_dims_nobatch ax)) +
                     eval_at inputs eps [])).
  { intros inputs i. rewrite eval_Rsqrt, eval_Add_scalar; auto.
    rewrite length_map, (spec_stat_dims_nobatch Hspec), Hrv.
    now destruct (axis_in CHANNEL stat_axes). }
  unfold norm_fusion_forward, bind. cbn [is_none xorb negb py_assert ret].
  rewrite Hres. cbn [orb].
  destruct weight as [w |], bias as [b |]; cbn - [eval_at];
    do 2 eexists; (split; [reflexivity |]); (split; [reflexivity |]);
    (split;
     [ rewrite (spec_stat_dims_nobatch Hspec), (spec_batch_dim Hspec),
         (spec_channel_dim Hspec);
       destruct (axis_in CHANNEL stat_axes), channels_last; cbn; lia
     | intros inputs i Hi; cbn zeta; eval_formula;
       rewrite !eval_Broadcast, !Hinv; split; reflexivity ]).
Qed.

(** ** Running statistics *)

(** C1. Two training-mode calls of [forward] with role set [[CHANNEL]],
    momentum 1/2 and zero running statistics, on batches of two samples
    with means 2 and 6.  The first call leaves the running mean at 1/2,
    which is [momentum * batchMean] divided by the batch size, and not at
    1; the second leaves it at 13/8, and not at
    [1/2 * 6 + (1 - 1/2) * 1/2 * 2 = 7/2]. *)
Theorem batch_style_running_mean_is_divided_by_batch_size :
  exists out ctx running_mean running_var out' ctx' running_mean' running_var',
    NormNVFuserFunction_forward bn_x None None
      (Some bn_zero_stat) (Some bn_zero_stat) true (1 / 2) 1 false [CHANNEL]
    = Ok (out, ctx, Some running_mean, Some running_var) /\
    NormNVFuserFunction_forward bn_x2 None None
      (Some running_mean) (Some running_var) true (1 / 2) 1 false [CHANNEL]
    = Ok (out', ctx', Some running_mean', Some running_var') /\
    at_ (data (saved_mean ctx)) [0%nat] = 2 /\
    at_ (data (saved_mean ctx')) [0%nat] = 6 /\
    at_ (data running_mean) [0%nat] = 1 / 2 /\
    at_ (data running_mean) [0%nat] <> 1 / 2 * 2 /\
    at_ (data running_mean') [0%nat] = 13 / 8 /\
    at_ (data running_mean') [0%nat] <> 1 / 2 * 6 + (1 - 1 / 2) * (1 / 2) * 2.
Proof.
  do 8 eexists.
  split; [run_call; reflexivity |]. split; [run_call; reflexivity |].
  run_call. cbn [INR]. repeat split; lra.
Qed.

(** C8. The forward builder adds the two aliasing outputs, one onto the
    running mean and one onto the running variance, exactly when running
    statistics are supplied and fresh statistics are computed; otherwise
    it adds no output.  The backward builder adds none.  Accordingly an
    inference-mode call of [forward] hands the caller's running statistics
    back as they were, and executing the fusion definition of [backward]
    leaves every input as it was. *)
Theorem running_stats_written_only_when_fresh :
  (forall x weight bias running_mean running_var eps use_input_stats momentum
          channels_last x_datatype unbiased stat_axes fd fd' r,
      norm_fusion_forward x weight bias running_mean running_var eps
        use_input_stats momentum channels_last x_datatype unbiased stat_axes fd
      = Ok (r, fd') ->
      if negb (is_none running_mean) &&
         (use_input_stats || is_none running_mean)
      then exists new_mean new_var rmean rvar,
          running_mean = Some rmean /\ running_var = Some rvar /\
          outputs fd' =
          outputs fd ++ [(new_mean, Some rmean); (new_var, Some rvar)]
      else outputs fd' = outputs fd) /\
  (forall x grad_output mean invstd weight bias running_mean running_var
          use_input_stats channels_last x_datatype stat_axes fd fd' r,
      norm_fusion_backward x grad_output mean invstd weight bias running_mean
        running_var use_input_stats channels_last x_datatype stat_axes fd
      = Ok (r, fd') ->
      outputs fd' = outputs fd) /\
  (forall x weight bias running_mean running_var momentum eps unbiased
          stat_axes out ctx running_mean' running_var',
      NormNVFuserFunction_forward x weight bias (Some running_mean)
        (Some running_var) false momentum eps unbiased stat_axes
      = Ok (out, ctx, running_mean', running_var') ->
      running_mean' = Some running_mean /\
      running_var' = Some running_var) /\
  (forall ctx grad_output inputs fd,
      backward_definition ctx grad_output empty_fd = Ok (inputs, fd) ->
      written_inputs fd (map input_value inputs) = map input_value inputs).
Proof.
  repeat split.
  - intros x weight bias running_mean running_var eps use_input_stats momentum
      channels_last x_datatype unbiased stat_axes fd fd' r H.
    apply norm_fusion_forward_outputs in H as [_ H].
    destruct running_mean, use_input_stats; exact H.
  - intros x grad_output mean invstd weight bias running_mean running_var
      use_input_stats channels_last x_datatype stat_axes fd fd' r H.
    now rewrite (norm_fusion_backward_fd _ _ _ _ _ _ _ _ _ _ _ _ _ H).
  - revert H. unfold NormNVFuserFunction_forward, rbind.
    destruct (if is_channels_last x then _ else _) as [x' |]; [| discriminate].
    destruct (forward_definition _ _ _ _ _ _ _ _ _ _ _ _ _)
      as [[[[inputs tv_rm] tv_rv] fd] |] eqn:Hdef; [| discriminate].
    apply forward_definition_inference in Hdef as (Hw & Hm & _).
    rewrite Hw, Hm.
    destruct (returned_outputs _ _) as [| o1 [| o2 [| o3 [| o4 l]]]];
      try discriminate.
    destruct (if is_channels_last x then _ else _); [| discriminate].
    now intros [= _ _ <- _].
  - revert H. unfold NormNVFuserFunction_forward, rbind.
    destruct (if is_channels_last x then _ else _) as [x' |]; [| discriminate].
    destruct (forward_definition _ _ _ _ _ _ _ _ _ _ _ _ _)
      as [[[[inputs tv_rm] tv_rv] fd] |] eqn:Hdef; [| discriminate].
    apply forward_definition_inference in Hdef as (Hw & _ & Hv).
    rewrite Hw, Hv.
    destruct (returned_outputs _ _) as [| o1 [| o2 [| o3 [| o4 l]]]];
      try discriminate.
    destruct (if is_channels_last x then _ else _); [| discriminate].
    now intros [= _ _ _ <-].
  - intros ctx grad_output inputs fd H.
    apply written_inputs_no_alias.
    now apply backward_definition_outputs in H as [H _].
Qed.

(** C6. In a training-mode call with running statistics, the variance
    that enters the momentum merge of the running variance is the
    current-batch variance as computed when [unbiased] is set, and the
    biased variance times [num_features / (num_features - 1)] when it is
    not; either way it denotes the Bessel-corrected variance of the batch
    (for statistics over at least two elements). *)
Theorem running_variance_merges_unbiased_variance
    (x : Expr) (weight bias : option Expr) (running_mean running_var : Expr)
    (eps momentum : Expr) (channels_last : bool)
    (x_datatype : option DataType) (unbiased : bool)
    (stat_axes : list NamedAxis) (fd : FusionDefinition) :
  (2 <= ndim x)%nat ->
  exists ax result new_mean merged,
    resolve_axes x channels_last stat_axes fd = Ok (ax, fd) /\
    merged =
      (if unbiased then VarOf x (x_reduction_axes ax) 1
       else Mul (VarOf x (x_reduction_axes ax) 0)
              (Div (num_features ax) (Sub (num_features ax) (ConstInt 1)))) /\
    (let new_var_hat :=
       Add (Mul running_var (Sub (ConstFloat 1) momentum))
         (Mul merged momentum) in
     let new_var_sum :=
       if axis_in BATCH stat_axes then Sum new_var_hat [0%nat]
       else new_var_hat in
     let new_var :=
       cast_if_reduced x_datatype
         (Mul new_var_sum (Reciprocal (batch_size ax))) in
     norm_fusion_forward x weight bias (Some running_mean) (Some running_var)
       eps true momentum channels_last x_datatype unbiased stat_axes fd
     = Ok (result,
           mkFD (num_inputs fd)
             (outputs fd ++
              [(new_mean, Some running_mean); (new_var, Some running_var)]))) /\
    forall (inputs : list TVal) (j : list nat),
      length (eval_shape inputs x) = ndim x ->
      length j = ndim (VarOf x (x_reduction_axes ax) 1) ->
      (2 <= reduced_count (x_reduction_axes ax) 0 (eval_shape inputs x))%nat ->
      eval_at inputs merged j =
      eval_at inputs (VarOf x (x_reduction_axes ax) 1) j.
Proof.
  intros Hrank.
  destruct (resolve_axes_total x channels_last stat_axes fd Hrank)
    as (ax & Hres & Hspec).
  exists ax.
  unfold norm_fusion_forward, bind. cbn [is_none xorb negb py_assert ret].
  rewrite Hres. cbn [orb].
  assert (Happ : forall (l : list (Expr * option Expr)) a b,
             (l ++ [a]) ++ [b] = l ++ [a; b])
    by (intros; now rewrite <- app_assoc).
  destruct weight, bias, unbiased;
    do 3 eexists; (split; [reflexivity |]); (split; [reflexivity |]);
    (split;
     [ unfold add_output; cbn [num_inputs outputs negb Z.b2z];
       rewrite Happ; reflexivity |]);
    intros inputs j Hlen Hj Hcount; try reflexivity.
  all: pose proof (ndim_num_features Hspec) as Hnf.
  all: rewrite eval_Mul_scalar by (cbn [ndim] in *; now rewrite ?Hnf).
  all: rewrite eval_Div_scalars, eval_Sub_scalars
         by (cbn [ndim]; rewrite ?Hnf; reflexivity).
  all: rewrite (eval_num_features inputs [] Hspec Hlen).
  all: cbn [eval_at].
  all: apply le_INR in Hcount; cbn [INR] in Hcount.
  all: set (n := INR _) in *; set (s := sum_axes _ _ _ _ _).
  all: field; lra.
Qed.

(** ** Gradients *)

(** C5. Whatever the role set, the backward builder broadcasts the saved
    mean, the saved inverse standard deviation, the gradient of the mean
    and the projection scale over the position list [[0; channel_dim]];
    that list is the [stat_dims] of the forward bookkeeping exactly when
    both [BATCH] and [CHANNEL] are in the role set. *)
Theorem backward_broadcasts_over_batch_and_channel
    (x grad_output mean invstd : Expr)
    (weight bias running_mean running_var : option Expr)
    (use_input_stats channels_last : bool) (x_datatype : option DataType)
    (stat_axes : list NamedAxis) (fd : FusionDefinition) :
  (2 <= ndim x)%nat ->
  xorb (is_none running_var) (is_none running_mean) = false ->
  exists ax grad_input grad_weight grad_bias,
    resolve_axes x channels_last stat_axes fd = Ok (ax, fd) /\
    norm_fusion_backward x grad_output mean invstd weight bias running_mean
      running_var use_input_stats channels_last x_datatype stat_axes fd
    = Ok (grad_input, grad_weight, grad_bias, fd) /\
    channel_dim ax = (if channels_last then ndim x - 1 else 1)%nat /\
    (let bcast := fun e =>
       BroadcastInDim e (dyn_shape ax) [0%nat; channel_dim ax] in
     let mean_bcast := bcast mean in
     let grad_output_sum := Sum grad_output (x_reduction_axes ax) in
     let dot_p :=
       Sum (Mul grad_output (Sub x mean_bcast)) (x_reduction_axes ax) in
     let norm := Reciprocal (num_features ax) in
     let grad_mean := bcast (Mul grad_output_sum norm) in
     let proj_scale := bcast (Mul (Mul dot_p norm) (Mul invstd invstd)) in
     let invstd_bcast := bcast invstd in
     let grad_scale :=
       match weight with
       | None => invstd_bcast
       | Some w => Mul invstd_bcast (BroadcastInDim w (dyn_shape ax) [0%nat])
       end in
     grad_input =
       if use_input_stats
       then Mul (Sub (Sub grad_output (Mul (Sub x mean_bcast) proj_scale))
                   grad_mean) grad_scale
       else Mul grad_output grad_scale) /\
    (stat_dims ax = [0%nat; channel_dim ax] <->
     axis_in BATCH stat_axes = true /\ axis_in CHANNEL stat_axes = true).
Proof.
  intros Hrank Hx.
  destruct (resolve_axes_total x channels_last stat_axes fd Hrank)
    as (ax & Hres & Hspec).
  exists ax.
  unfold norm_fusion_backward, bind. rewrite Hx. cbn [negb py_assert ret].
  rewrite Hres. unfold ret. rewrite (spec_batch_dim Hspec).
  do 3 eexists. split; [reflexivity |]. split; [reflexivity |].
  split; [exact (spec_channel_dim Hspec) |].
  split; [destruct weight, use_input_stats; reflexivity |].
  rewrite (spec_stat_dims Hspec).
  destruct (axis_in BATCH stat_axes), (axis_in CHANNEL stat_axes); cbn;
    split; try (intros [? ?]); try discriminate; auto.
Qed.

(** C2. Backward under [[CHANNEL]] on two samples with two channels: the
    per-channel sums of the output gradient are 101 and 1010, and the bias
    gradient returned is their total, a zero-dimensional tensor; so is the
    weight gradient. *)
Theorem batch_style_bias_gradient_is_summed_over_channels :
  exists out ctx rm rv grad_input grad_weight grad_bias,
    NormNVFuserFunction_forward bn2_x (Some bn2_weight) (Some bn2_bias)
      None None true (1 / 2) 1 false [CHANNEL]
    = Ok (out, ctx, rm, rv) /\
    NormNVFuserFunction_backward ctx bn2_grad_output
    = Ok (grad_input, Some grad_weight, Some grad_bias) /\
    shape (data bn2_bias) = [2%nat] /\
    shape (data grad_bias) = [] /\
    at_ (data grad_bias) [] = 101 + 1010 /\
    shape (data grad_weight) = [].
Proof.
  do 7 eexists.
  split; [run_call; reflexivity |]. split; [run_call; reflexivity |].
  run_call. repeat split; lra.
Qed.

(** C3. Backward on the inference path under [[BATCH; CHANNEL]] with
    weight (1, 2), unit output gradient and unit inverse standard
    deviation: the input gradient at sample 0, channel 1 is 1 and at
    sample 1, channel 0 is 2, so the weight is read at the batch
    position. *)
Theorem backward_weight_is_aligned_to_batch_axis :
  exists out ctx rm rv grad_input grad_weight,
    NormNVFuserFunction_forward in_x (Some in_weight) None None None
      false (1 / 2) 1 false [BATCH; CHANNEL]
    = Ok (out, ctx, rm, rv) /\
    NormNVFuserFunction_backward ctx in_grad_output
    = Ok (grad_input, Some grad_weight, None) /\
    at_ (data (saved_invstd ctx)) [0%nat; 1%nat] = 1 /\
    at_ (data (saved_invstd ctx)) [1%nat; 0%nat] = 1 /\
    at_ (data grad_input) [0%nat; 1%nat; 0%nat] = 1 /\
    at_ (data grad_input) [1%nat; 0%nat; 0%nat] = 2.
Proof.
  do 6 eexists.
  split; [run_call; reflexivity |]. split; [run_call; reflexivity |].
  run_call. cbn [INR].
  assert (Hone : forall a, a = 1 -> / sqrt a = 1)
    by (intros a ->; rewrite sqrt_1; lra).
  repeat split; rewrite !Hone by lra; lra.
Qed.

(** C4. A training-mode call under [[BATCH; CHANNEL]] with a bias and a
    half-precision input: forward succeeds, and backward raises
    [IndexError] when it reads the bias gradient from the results,
    because the cast bias gradient was never added as an output.  With a
    single-precision input the bias gradient is returned. *)
Theorem half_precision_backward_drops_bias_gradient :
  (exists out ctx rm rv,
     NormNVFuserFunction_forward in_x_half None (Some in_bias_half) None None
       true (1 / 2) 1 false [BATCH; CHANNEL]
     = Ok (out, ctx, rm, rv) /\
     NormNVFuserFunction_backward ctx in_grad_output_half = Raise IndexError) /\
  (exists out ctx rm rv grad_input grad_bias,
     NormNVFuserFunction_forward in_x None (Some in_bias) None None
       true (1 / 2) 1 false [BATCH; CHANNEL]
     = Ok (out, ctx, rm, rv) /\
     NormNVFuserFunction_backward ctx in_grad_output
     = Ok (grad_input, None, Some grad_bias) /\
     at_ (data grad_bias) [0%nat] = 2 /\
     at_ (data grad_bias) [1%nat] = 2).
Proof.
  split.
  - do 4 eexists.
    split; [run_call; reflexivity |]. run_call. reflexivity.
  - do 6 eexists.
    split; [run_call; reflexivity |]. split; [run_call; reflexivity |].
    run_call. split; lra.
Qed.


(** ** Degenerate statistics *)

(** C10. In a forward call that computes fresh statistics, on an input
    that is constant along the reduction axes (equal wherever the
    statistics positions agree), every element of the output is the bias
    read at the channel position when a bias is given and zero otherwise,
    whatever the weight.  Over the reals no condition on [eps] is needed
    for this. *)
Theorem constant_input_normalizes_to_bias
    (inputs : list TVal) (x : Expr) (weight bias : option Expr)
    (running_mean running_var : option Expr) (eps momentum : Expr)
    (use_input_stats channels_last : bool) (x_datatype : option DataType)
    (unbiased : bool) (stat_axes : list NamedAxis) (fd : FusionDefinition) :
  let sh := eval_shape inputs x in
  let cd := (if channels_last then ndim x - 1 else 1)%nat in
  (2 <= ndim x)%nat ->
  length sh = ndim x ->
  xorb (is_none running_var) (is_none running_mean) = false ->
  use_input_stats || is_none running_mean = true ->
  (forall r r',
      in_range sh r -> in_range sh r' ->
      (axis_in BATCH stat_axes = true -> nth 0 r 0%nat = nth 0 r' 0%nat) ->
      (axis_in CHANNEL stat_axes = true -> nth cd r 0%nat = nth cd r' 0%nat) ->
      eval_at inputs x r = eval_at inputs x r') ->
  exists out mean invstd fd',
    norm_fusion_forward x weight bias running_mean running_var eps
      use_input_stats momentum channels_last x_datatype unbiased stat_axes fd
    = Ok (out, mean, invstd, fd') /\
    forall i,
      in_range sh i ->
      eval_at inputs out i =
      match bias with
      | Some b =>
          eval_at inputs b
            (if axis_in CHANNEL stat_axes then [nth cd i 0%nat] else [])
      | None => 0
      end.
Proof.
  intros sh cd Hrank Hlen Hxor Hfresh Hconst.
  destruct (resolve_axes_total x channels_last stat_axes fd Hrank)
    as (ax & Hres & Hspec).
  assert (Hmean : forall i, in_range sh i ->
            eval_at inputs
              (BroadcastInDim (MeanOf x (x_reduction_axes ax)) (dyn_shape ax)
                 (stat_dims ax)) i = eval_at inputs x i).
  { intros i Hi.
    apply (broadcast_mean_of_constant inputs i Hrank Hspec Hlen Hi).
    intros r Hr Hagree. apply Hconst; try assumption.
    - intros Hb. apply Hagree. rewrite (spec_stat_dims Hspec), Hb. now left.
    - intros Hc. apply Hagree. rewrite (spec_stat_dims Hspec), Hc.
      apply in_or_app. right. left. apply (spec_channel_dim Hspec). }
  assert (Hnb : stat_dims_nobatch ax =
                if axis_in CHANNEL stat_axes then [cd] else []).
  { rewrite (spec_stat_dims_nobatch Hspec), (spec_channel_dim Hspec).
    reflexivity. }
  assert (Hbias : forall b i,
            eval_at inputs
              (BroadcastInDim b (dyn_shape ax) (stat_dims_nobatch ax)) i =
            eval_at inputs b
              (if axis_in CHANNEL stat_axes then [nth cd i 0%nat] else [])).
  { intros b i. rewrite eval_Broadcast, Hnb.
    now destruct (axis_in CHANNEL stat_axes). }
  unfold norm_fusion_forward, bind.
  rewrite Hxor. cbn [negb py_assert ret]. rewrite Hres, Hfresh.
  destruct running_mean as [rm |], running_var as [rv |];
    try discriminate Hxor;
    destruct weight as [w |], bias as [b |]; cbn - [eval_at];
    do 4 eexists; (split; [reflexivity |]); intros i Hi;
    pose proof (in_range_length _ _ Hi) as Hleni;
    fold sh in Hlen; rewrite Hlen in Hleni;
    eval_formula; rewrite ?Hbias, (Hmean i Hi); ring.
Qed.

(** ** Preconditions *)

(** C9. Both builders raise the assertion on the running statistics
    exactly when one of the running mean and the running variance is
    given without the other; when both or neither are given, and the
    input has a batch and a channel dimension, both builders return. *)
Theorem running_stats_must_come_together
    (x grad_output mean invstd : Expr)
    (weight bias running_mean running_var : option Expr) (eps momentum : Expr)
    (use_input_stats channels_last : bool) (x_datatype : option DataType)
    (unbiased : bool) (stat_axes : list NamedAxis) (fd : FusionDefinition) :
  let exactly_one := xorb (is_none running_var) (is_none running_mean) in
  let forward :=
    norm_fusion_forward x weight bias running_mean running_var eps
      use_input_stats momentum channels_last x_datatype unbiased stat_axes fd in
  let backward :=
    norm_fusion_backward x grad_output mean invstd weight bias running_mean
      running_var use_input_stats channels_last x_datatype stat_axes fd in
  (forward = Raise (AssertionError running_stats_msg) <-> exactly_one = true) /\
  (backward = Raise (AssertionError running_stats_msg) <-> exactly_one = true) /\
  ((2 <= ndim x)%nat -> exactly_one = false ->
   (exists r fd', forward = Ok (r, fd')) /\ (exists r, backward = Ok (r, fd))).
Proof.
  intros exactly_one forward backward.
  destruct exactly_one eqn:Hx; subst exactly_one.
  - assert (Hf : forward = Raise (AssertionError running_stats_msg))
      by (subst forward; unfold norm_fusion_forward, bind; now rewrite Hx).
    assert (Hb : backward = Raise (AssertionError running_stats_msg))
      by (subst backward; unfold norm_fusion_backward, bind; now rewrite Hx).
    repeat split; auto; discriminate.
  - pose proof (norm_fusion_forward_checked x weight bias running_mean
                  running_var eps use_input_stats momentum channels_last
                  x_datatype unbiased stat_axes fd Hx) as Hf.
    pose proof (norm_fusion_backward_checked x grad_output mean invstd weight
                  bias running_mean running_var use_input_stats channels_last
                  x_datatype stat_axes fd Hx) as Hb.
    fold forward in Hf. fold backward in Hb.
    split; [| split].
    + split; [| discriminate]. intros Hr. exfalso.
      destruct (resolve_axes x channels_last stat_axes fd);
        [destruct Hf as (r & fd' & Hf) |]; congruence.
    + split; [| discriminate]. intros Hr. exfalso.
      destruct (resolve_axes x channels_last stat_axes fd);
        [destruct Hb as (r & Hb) |]; congruence.
    + intros Hrank _.
      destruct (resolve_axes_total x channels_last stat_axes fd Hrank)
        as (ax & Hres & _).
      rewrite Hres in Hf, Hb. auto.
Qed.

(** ** Further properties *)

Lemma returned_outputs_length (fd : FusionDefinition) (env : list TVal) :
  Forall (fun o => snd o = None) (outputs fd) ->
  length (returned_outputs fd env) = length (outputs fd).
Proof.
  unfold returned_outputs. rewrite length_map.
  induction (outputs fd) as [| o l IH]; intros Hall; [reflexivity |].
  inversion Hall as [| ? ? Ho Hl]; subst. cbn. rewrite Ho. cbn.
  f_equal. now apply IH.
Qed.

Lemma rindex_last {A : Type} (l : list A) : rindex l (length l) = Raise IndexError.
Proof.
  unfold rindex.
  now rewrite (proj2 (nth_error_None l (length l)) (le_n _)).
Qed.

(** X1. Whenever the saved input is of a reduced-precision type and a
    bias was given, [backward] returns nothing: it raises. *)
Theorem reduced_precision_backward_with_bias_raises
    (ctx : Ctx) (grad_output : TorchTensor) :
  is_reduced (torch2datatype (dtype (saved_x ctx))) = true ->
  saved_bias ctx <> None ->
  exists e, NormNVFuserFunction_backward ctx grad_output = Raise e.
Proof.
  intros Hred Hbias. unfold NormNVFuserFunction_backward, rbind.
  destruct (if ctx_channels_last ctx then _ else _) as [go |]; [| eauto].
  destruct (backward_definition ctx go empty_fd) as [[inputs fd] |] eqn:Hdef;
    [| eauto].
  apply backward_definition_outputs in Hdef as [Hnone Hlen].
  pose proof (returned_outputs_length fd (map input_value inputs) Hnone) as Hres.
  rewrite Hlen, Hred in Hres.
  destruct (saved_bias ctx) as [b |]; [| congruence].
  set (res := returned_outputs fd (map input_value inputs)) in *.
  cbn [is_none] in Hres.
  destruct (saved_weight ctx) as [w |]; cbn [is_none] in Hres.
  - destruct res as [| g0 [| g1 [| g2 res]]]; try discriminate Hres.
    cbn. eauto.
  - destruct res as [| g0 [| g1 res]]; try discriminate Hres.
    cbn. eauto.
Qed.


(** X3. One training-mode call of [forward] under [[BATCH; CHANNEL]] with
    momentum 1/2 and zero running statistics, on two samples whose
    per-instance means are (1, 2) and (3, 4): the running mean is left at
    (1, 3/2), the momentum times the batch average of the instance
    means. *)
Theorem instance_style_running_mean_is_batch_average :
  exists out ctx running_mean running_var,
    NormNVFuserFunction_forward in_x None None
      (Some in_zero_stat) (Some in_zero_stat) true (1 / 2) 1 false
      [BATCH; CHANNEL]
    = Ok (out, ctx, Some running_mean, Some running_var) /\
    shape (data running_mean) = [2%nat] /\
    at_ (data running_mean) [0%nat] = 1 / 2 * ((1 + 3) / 2) /\
    at_ (data running_mean) [1%nat] = 1 / 2 * ((2 + 4) / 2).
Proof.
  do 4 eexists. split; [run_call; reflexivity |].
  run_call. cbn [INR]. repeat split; lra.
Qed.


(** X5. A forward call that computes fresh statistics returns the mean
    and [rsqrt(var + eps)] over the reduction axes, and its output at
    every index is [(x - mean) * invstd] with the statistics read at the
    statistics positions of the index, times the weight and plus the bias
    read at the channel position when they are given. *)
Theorem fresh_statistics_forward_normalizes_each_slice
    (x : Expr) (weight bias running_mean running_var : option Expr)
    (eps momentum : Expr) (use_input_stats channels_last : bool)
    (x_datatype : option DataType) (unbiased : bool)
    (stat_axes : list NamedAxis) (fd : FusionDefinition) :
  (2 <= ndim x)%nat ->
  xorb (is_none running_var) (is_none running_mean) = false ->
  use_input_stats || is_none running_mean = true ->
  ndim eps = 0%nat ->
  exists ax out fd',
    resolve_axes x channels_last stat_axes fd = Ok (ax, fd) /\
    let mean := MeanOf x (x_reduction_axes ax) in
    let var := VarOf x (x_reduction_axes ax) (Z.b2z unbiased) in
    norm_fusion_forward x weight bias running_mean running_var eps
      use_input_stats momentum channels_last x_datatype unbiased stat_axes fd
    = Ok (out, mean, Rsqrt (Add var eps), fd') /\
    forall (inputs : list TVal) (i : list nat),
      length i = ndim x ->
      let slice := map (fun d => nth d i 0%nat) (stat_dims ax) in
      let channel := map (fun d => nth d i 0%nat) (stat_dims_nobatch ax) in
      let normalized :=
        (eval_at inputs x i - eval_at inputs mean slice) *
        / sqrt (eval_at inputs var slice + eval_at inputs eps []) in
      let scaled :=
        match weight with
        | Some w => normalized * eval_at inputs w channel
        | None => normalized
        end in
      eval_at inputs out i =
        match bias with
        | Some b => scaled + eval_at inputs b channel
        | None => scaled
        end.
Proof.
  intros Hrank Hx Hfresh Heps.
  destruct (resolve_axes_total x channels_last stat_axes fd Hrank)
    as (ax & Hres & Hspec).
  exists ax.
  assert (Hinv : forall inputs i,
             eval_at inputs
               (Rsqrt (Add (VarOf x (x_reduction_axes ax) (Z.b2z unbiased)) eps))
               (map (fun d => nth d i 0%nat) (stat_dims ax)) =
             / sqrt (eval_at inputs
                       (VarOf x (x_reduction_axes ax) (Z.b2z unbiased))
                       (map (fun d => nth d i 0%nat) (stat_dims ax)) +
                     eval_at inputs eps [])).
  { intros inputs i. rewrite eval_Rsqrt, eval_Add_scalar; auto.
    cbn [ndim]. rewrite length_map. now apply ndim_statistics with (cl := channels_last) (sa := stat_axes). }
  unfold norm_fusion_forward, bind. rewrite Hx. cbn [negb py_assert ret].
  rewrite Hres, Hfresh. unfold add_output, ret.
  destruct running_mean as [rm |], running_var as [rv |];
    try discriminate Hx;
    destruct weight as [w |], bias as [b |]; cbn - [eval_at];
    do 2 eexists; (split; [reflexivity |]); (split; [reflexivity |]);
    intros inputs i Hi; cbn zeta; eval_formula;
    rewrite !eval_Broadcast, !Hinv; reflexivity.
Qed.

(** X6. In a training-mode call with running statistics under a role
    set without [BATCH], the value written onto the running mean is the
    momentum merge of the running mean and the batch mean, divided by the
    batch size. *)
Theorem running_mean_update_is_divided_by_batch_size
    (x : Expr) (weight bias : option Expr) (running_mean running_var : Expr)
    (eps momentum : Expr) (channels_last : bool)
    (x_datatype : option DataType) (unbiased : bool)
    (stat_axes : list NamedAxis) (fd : FusionDefinition) :
  (2 <= ndim x)%nat ->
  axis_in BATCH stat_axes = false ->
  ndim momentum = 0%nat ->
  ndim running_mean = (if axis_in CHANNEL stat_axes then 1 else 0)%nat ->
  exists ax result new_mean new_var,
    resolve_axes x channels_last stat_axes fd = Ok (ax, fd) /\
    norm_fusion_forward x weight bias (Some running_mean) (Some running_var)
      eps true momentum channels_last x_datatype unbiased stat_axes fd
    = Ok (result,
          mkFD (num_inputs fd)
            (outputs fd ++
             [(new_mean, Some running_mean); (new_var, Some running_var)])) /\
    forall (inputs : list TVal) (j : list nat),
      length j = ndim running_mean ->
      eval_at inputs new_mean j =
      (eval_at inputs running_mean j * (1 - eval_at inputs momentum []) +
       eval_at inputs (MeanOf x (x_reduction_axes ax)) j *
       eval_at inputs momentum []) *
      / INR (nth 0 (eval_shape inputs x) 0%nat).
Proof.
  intros Hrank Hbatch Hm Hrm.
  destruct (resolve_axes_total x channels_last stat_axes fd Hrank)
    as (ax & Hres & Hspec).
  exists ax.
  assert (Hmean : ndim (MeanOf x (x_reduction_axes ax)) = ndim running_mean).
  { cbn [ndim]. rewrite (ndim_statistics Hrank Hspec).
    rewrite (spec_stat_dims Hspec), Hbatch, Hrm.
    now destruct (axis_in CHANNEL stat_axes). }
  assert (Happ : forall (l : list (Expr * option Expr)) a b,
             (l ++ [a]) ++ [b] = l ++ [a; b])
    by (intros; now rewrite <- app_assoc).
  unfold norm_fusion_forward, bind. cbn [is_none xorb negb py_assert ret].
  rewrite Hres, Hbatch. cbn [orb]. unfold add_output, ret.
  cbn [num_inputs outputs]. rewrite (spec_batch_size Hspec).
  destruct weight, bias; do 3 eexists;
    (split; [reflexivity |]);
    (split; [rewrite Happ; reflexivity |]);
    intros inputs j Hj.
  all: assert (Hcast : forall e,
                 eval_at inputs (cast_if_reduced x_datatype e) j =
                 eval_at inputs e j)
         by (intros e'; destruct x_datatype as [[] |]; reflexivity).
  all: rewrite Hcast.
  all: rewrite eval_Mul_scalar
         by (cbn [ndim] in *; rewrite ?Hmean, ?Hm, ?Nat.max_0_r, ?Nat.max_id;
             auto).
  all: rewrite eval_Add
         by (cbn [ndim] in *; rewrite ?Hmean, ?Hm, ?Nat.max_0_r; auto).
  all: rewrite !eval_Mul_scalar
         by (cbn [ndim] in *; rewrite ?Hmean, ?Hm; auto).
  all: rewrite eval_Sub_scalars by auto.
  all: cbn [eval_at]; reflexivity.
Qed.

(** ** Instances *)

(** The inference-mode theorem at a three-dimensional input under
    [[BATCH; CHANNEL]], without weight or bias. *)
Lemma inference_forward_witness :
  (2 <= ndim g_x)%nat /\
  exists ax out invstd,
    resolve_axes g_x false [BATCH; CHANNEL] empty_fd = Ok (ax, empty_fd) /\
    norm_fusion_forward g_x None None (Some g_running_mean)
      (Some g_running_var) g_eps false g_momentum false (Some Float) false
      [BATCH; CHANNEL] empty_fd
    = Ok (out, g_running_mean, invstd, empty_fd) /\
    ~ In (batch_dim ax) (stat_dims_nobatch ax) /\
    forall (inputs : list TVal) (i : list nat),
      length i = ndim g_x ->
      let nobatch := map (fun d => nth d i 0%nat) (stat_dims_nobatch ax) in
      eval_at inputs out i =
        (eval_at inputs g_x i - eval_at inputs g_running_mean nobatch) *
        / sqrt (eval_at inputs g_running_var nobatch +
                eval_at inputs g_eps []) /\
      eval_at inputs invstd nobatch =
        / sqrt (eval_at inputs g_running_var nobatch +
                eval_at inputs g_eps []).
Proof.
  split; [cbn; lia |].
  apply (inference_forward_uses_running_stats g_x None None g_running_mean
           g_running_var g_eps g_momentum false (Some Float) false
           [BATCH; CHANNEL] empty_fd).
  - cbn; lia.
  - reflexivity.
  - reflexivity.
Defined.

(** The backward theorem on the inference path under [[CHANNEL]], where
    the broadcast positions are not those of the forward bookkeeping. *)
Lemma backward_broadcast_witness :
  (2 <= ndim g_x)%nat /\
  xorb (is_none (@None Expr)) (is_none (@None Expr)) = false /\
  exists ax grad_input grad_weight grad_bias,
    resolve_axes g_x false [CHANNEL] empty_fd = Ok (ax, empty_fd) /\
    norm_fusion_backward g_x g_grad_output g_mean g_invstd None None None None
      false false (Some Float) [CHANNEL] empty_fd
    = Ok (grad_input, grad_weight, grad_bias, empty_fd) /\
    channel_dim ax = 1%nat /\
    grad_input =
      Mul g_grad_output
        (BroadcastInDim g_invstd (dyn_shape ax) [0%nat; channel_dim ax]) /\
    (stat_dims ax = [0%nat; channel_dim ax] <->
     axis_in BATCH [CHANNEL] = true /\ axis_in CHANNEL [CHANNEL] = true).
Proof.
  split; [cbn; lia |]. split; [reflexivity |].
  apply (backward_broadcasts_over_batch_and_channel g_x g_grad_output g_mean
           g_invstd None None None None false false (Some Float) [CHANNEL]
           empty_fd).
  - cbn; lia.
  - reflexivity.
Defined.

(** The running-variance theorem with [unbiased] false under
    [[BATCH; CHANNEL]]. *)
Lemma running_variance_witness :
  (2 <= ndim g_x)%nat /\
  exists ax result new_mean merged,
    resolve_axes g_x false [BATCH; CHANNEL] empty_fd = Ok (ax, empty_fd) /\
    merged =
      Mul (VarOf g_x (x_reduction_axes ax) 0)
        (Div (num_features ax) (Sub (num_features ax) (ConstInt 1))) /\
    norm_fusion_forward g_x None None (Some g_running_mean)
      (Some g_running_var) g_eps true g_momentum false (Some Float) false
      [BATCH; CHANNEL] empty_fd
    = Ok (result,
          mkFD 0
            [(new_mean, Some g_running_mean);
             (Mul
                (Sum
                   (Add (Mul g_running_var (Sub (ConstFloat 1) g_momentum))
                      (Mul merged g_momentum)) [0%nat])
                (Reciprocal (batch_size ax)),
              Some g_running_var)]) /\
    forall (inputs : list TVal) (j : list nat),
      length (eval_shape inputs g_x) = ndim g_x ->
      length j = ndim (VarOf g_x (x_reduction_axes ax) 1) ->
      (2 <= reduced_count (x_reduction_axes ax) 0 (eval_shape inputs g_x))%nat ->
      eval_at inputs merged j =
      eval_at inputs (VarOf g_x (x_reduction_axes ax) 1) j.
Proof.
  split; [cbn; lia |].
  apply (running_variance_merges_unbiased_variance g_x None None
           g_running_mean g_running_var g_eps g_momentum false (Some Float)
           false [BATCH; CHANNEL] empty_fd).
  cbn; lia.
Defined.

(** The check on the running statistics: a call with the running mean
    alone fails in both builders, a call with both returns. *)
Lemma running_stats_check_witness :
  (norm_fusion_forward g_x None None (Some g_running_mean) None g_eps true
     g_momentum false (Some Float) false [BATCH; CHANNEL] empty_fd
   = Raise (AssertionError running_stats_msg) /\
   norm_fusion_backward g_x g_grad_output g_mean g_invstd None None
     (Some g_running_mean) None true false (Some Float) [BATCH; CHANNEL]
     empty_fd
   = Raise (AssertionError running_stats_msg)) /\
  (2 <= ndim g_x)%nat /\
  (exists r fd',
      norm_fusion_forward g_x None None (Some g_running_mean)
        (Some g_running_var) g_eps true g_momentum false (Some Float) false
        [BATCH; CHANNEL] empty_fd = Ok (r, fd')) /\
  (exists r,
      norm_fusion_backward g_x g_grad_output g_mean g_invstd None None
        (Some g_running_mean) (Some g_running_var) true false (Some Float)
        [BATCH; CHANNEL] empty_fd = Ok (r, empty_fd)).
Proof.
  pose proof (running_stats_must_come_together g_x g_grad_output g_mean
                g_invstd None None (Some g_running_mean) None g_eps
                g_momentum true false (Some Float) false [BATCH; CHANNEL]
                empty_fd) as (Hf & Hb & _).
  pose proof (running_stats_must_come_together g_x g_grad_output g_mean
                g_invstd None None (Some g_running_mean)
                (Some g_running_var) g_eps g_momentum true false (Some Float)
                false [BATCH; CHANNEL] empty_fd) as (_ & _ & Hok).
  split; [split; [apply Hf | apply Hb]; reflexivity |].
  split; [cbn; lia |].
  apply Hok; [cbn; lia | reflexivity].
Defined.

(** The frame theorem on concrete calls: a training-mode graph gets its
    two aliasing outputs, a backward graph gets none, an inference-mode
    call of [forward] returns the running statistics it was given, and
    executing the backward definition built from that call writes to no
    input. *)
Lemma running_stats_frame_witness :
  (exists r new_mean new_var,
      norm_fusion_forward g_x None None (Some g_running_mean)
        (Some g_running_var) g_eps true g_momentum false (Some Float) false
        [CHANNEL] empty_fd
      = Ok (r, mkFD 0 [(new_mean, Some g_running_mean);
                       (new_var, Some g_running_var)])) /\
  (exists r fd',
      norm_fusion_backward g_x g_grad_output g_mean g_invstd None None
        (Some g_running_mean) (Some g_running_var) true false (Some Float)
        [CHANNEL] empty_fd = Ok (r, fd') /\
      outputs fd' = []) /\
  (exists out ctx,
      NormNVFuserFunction_forward in_x None None (Some in_running_mean)
        (Some in_running_var) false (1 / 2) 1 false [BATCH; CHANNEL]
      = Ok (out, ctx, Some in_running_mean, Some in_running_var) /\
      exists inputs fd,
        backward_definition ctx in_grad_output empty_fd = Ok (inputs, fd) /\
        written_inputs fd (map input_value inputs) = map input_value inputs).
Proof.
  destruct running_stats_written_only_when_fresh as (Hfwd & Hbwd & Hcall & Hdef).
  split; [| split].
  - assert (H : exists r fd',
               norm_fusion_forward g_x None None (Some g_running_mean)
                 (Some g_running_var) g_eps true g_momentum false (Some Float)
                 false [CHANNEL] empty_fd = Ok (r, fd'))
      by (do 2 eexists; cbv; reflexivity).
    destruct H as (r & fd' & H).
    pose proof (Hfwd _ _ _ _ _ _ _ _ _ _ _ _ _ _ _ H) as Hout.
    cbn in Hout.
    destruct Hout as (new_mean & new_var & rmean & rvar & Hm & Hv & Hout).
    injection Hm as <-. injection Hv as <-.
    exists r, new_mean, new_var. rewrite H. f_equal. f_equal.
    destruct fd' as [n o]. cbn in Hout. subst o. f_equal.
    apply norm_fusion_forward_outputs in H as [Hn _]. exact Hn.
  - assert (H : exists r fd',
               norm_fusion_backward g_x g_grad_output g_mean g_invstd None None
                 (Some g_running_mean) (Some g_running_var) true false
                 (Some Float) [CHANNEL] empty_fd = Ok (r, fd'))
      by (do 2 eexists; cbv; reflexivity).
    destruct H as (r & fd' & H).
    exists r, fd'. split; [exact H |].
    exact (Hbwd _ _ _ _ _ _ _ _ _ _ _ _ _ _ _ H).
  - assert (H : exists out ctx rm rv,
               NormNVFuserFunction_forward in_x None None
                 (Some in_running_mean) (Some in_running_var) false (1 / 2) 1
                 false [BATCH; CHANNEL] = Ok (out, ctx, rm, rv) /\
               exists inputs fd,
                 backward_definition ctx in_grad_output empty_fd
                 = Ok (inputs, fd))
      by (do 4 eexists; split; [run_call; reflexivity |];
          do 2 eexists; run_call; reflexivity).
    destruct H as (out & ctx & rm & rv & H & inputs & fd & Hd).
    destruct (Hcall _ _ _ _ _ _ _ _ _ _ _ _ _ H) as [-> ->].
    exists out, ctx. split; [exact H |].
    exists inputs, fd. split; [exact Hd |].
    exact (Hdef _ _ _ _ Hd).
Defined.

(** The constant-input theorem on four samples of three channels that
    are constant within each channel, with weight and bias, under
    [[CHANNEL]]: every element of the output is the bias of its
    channel. *)
Lemma constant_input_witness :
  (2 <= ndim g_x)%nat /\
  length (eval_shape const_inputs g_x) = ndim g_x /\
  (forall r r',
      in_range (eval_shape const_inputs g_x) r ->
      in_range (eval_shape const_inputs g_x) r' ->
      nth 1 r 0%nat = nth 1 r' 0%nat ->
      eval_at const_inputs g_x r = eval_at const_inputs g_x r') /\
  exists out mean invstd fd',
    norm_fusion_forward g_x (Some g_weight) (Some g_bias) None None g_eps
      true g_momentum false (Some Float) false [CHANNEL] empty_fd
    = Ok (out, mean, invstd, fd') /\
    forall i,
      in_range (eval_shape const_inputs g_x) i ->
      eval_at const_inputs out i =
      eval_at const_inputs g_bias [nth 1 i 0%nat].
Proof.
  assert (Hconst : forall r r',
             in_range (eval_shape const_inputs g_x) r ->
             in_range (eval_shape const_inputs g_x) r' ->
             nth 1 r 0%nat = nth 1 r' 0%nat ->
             eval_at const_inputs g_x r = eval_at const_inputs g_x r').
  { intros [| a [| b [| c [| d r]]]] [| a' [| b' [| c' [| d' r']]]];
      cbn [in_range eval_shape const_inputs g_x nth shape const_x cube];
      try tauto.
    intros (Ha & Hb & Hc & _) (Ha' & Hb' & Hc' & _) Heq.
    cbn in Heq. subst b'.
    assert (c = 0)%nat by lia. assert (c' = 0)%nat by lia. subst c c'.
    destruct a as [| [| [| [| a]]]]; try lia;
      destruct a' as [| [| [| [| a']]]]; try lia;
      destruct b as [| [| [| b]]]; try lia; reflexivity. }
  split; [cbn; lia |]. split; [reflexivity |]. split; [exact Hconst |].
  apply (constant_input_normalizes_to_bias const_inputs g_x (Some g_weight)
           (Some g_bias) None None g_eps g_momentum true false (Some Float)
           false [CHANNEL] empty_fd).
  - cbn; lia.
  - reflexivity.
  - reflexivity.
  - reflexivity.
  - intros r r' Hr Hr' _ Hc. apply Hconst; auto.
Defined.

(** A half-precision context with a bias: [backward] raises. *)
Lemma reduced_precision_backward_witness :
  is_reduced (torch2datatype (dtype (saved_x half_ctx))) = true /\
  saved_bias half_ctx <> None /\
  exists e,
    NormNVFuserFunction_backward half_ctx in_grad_output_half = Raise e.
Proof.
  assert (Hbias : saved_bias half_ctx <> None) by discriminate.
  split; [reflexivity |]. split; [exact Hbias |].
  exact (reduced_precision_backward_with_bias_raises half_ctx
           in_grad_output_half eq_refl Hbias).
Defined.


(** The forward formula of a three-dimensional call under
    [[BATCH; CHANNEL]] with weight and bias and no running statistics. *)
Lemma fresh_statistics_forward_witness :
  (2 <= ndim g_x)%nat /\
  exists ax out fd',
    resolve_axes g_x false [BATCH; CHANNEL] empty_fd = Ok (ax, empty_fd) /\
    norm_fusion_forward g_x (Some g_weight) (Some g_bias) None None g_eps
      true g_momentum false (Some Float) false [BATCH; CHANNEL] empty_fd
    = Ok (out, MeanOf g_x (x_reduction_axes ax),
          Rsqrt (Add (VarOf g_x (x_reduction_axes ax) 0) g_eps), fd') /\
    forall (inputs : list TVal) (i : list nat),
      length i = ndim g_x ->
      let slice := map (fun d => nth d i 0%nat) (stat_dims ax) in
      let channel := map (fun d => nth d i 0%nat) (stat_dims_nobatch ax) in
      eval_at inputs out i =
        (eval_at inputs g_x i -
         eval_at inputs (MeanOf g_x (x_reduction_axes ax)) slice) *
        / sqrt (eval_at inputs (VarOf g_x (x_reduction_axes ax) 0) slice +
                eval_at inputs g_eps []) *
        eval_at inputs g_weight channel +
        eval_at inputs g_bias channel.
Proof.
  split; [cbn; lia |].
  apply (fresh_statistics_forward_normalizes_each_slice g_x (Some g_weight)
           (Some g_bias) None None g_eps g_momentum true false (Some Float)
           false [BATCH; CHANNEL] empty_fd).
  - cbn; lia.
  - reflexivity.
  - reflexivity.
  - reflexivity.
Defined.

(** The running-mean update of a three-dimensional call under
    [[CHANNEL]]. *)
Lemma running_mean_update_witness :
  (2 <= ndim g_x)%nat /\
  exists ax result new_mean new_var,
    resolve_axes g_x false [CHANNEL] empty_fd = Ok (ax, empty_fd) /\
    norm_fusion_forward g_x None None (Some g_running_mean)
      (Some g_running_var) g_eps true g_momentum false (Some Float) false
      [CHANNEL] empty_fd
    = Ok (result,
          mkFD 0 [(new_mean, Some g_running_mean);
                  (new_var, Some g_running_var)]) /\
    forall (inputs : list TVal) (j : list nat),
      length j = ndim g_running_mean ->
      eval_at inputs new_mean j =
      (eval_at inputs g_running_mean j * (1 - eval_at inputs g_momentum []) +
       eval_at inputs (MeanOf g_x (x_reduction_axes ax)) j *
       eval_at inputs g_momentum []) *
      / INR (nth 0 (eval_shape inputs g_x) 0%nat).
Proof.
  split; [cbn; lia |].
  apply (running_mean_update_is_divided_by_batch_size g_x None None
           g_running_mean g_running_var g_eps g_momentum false (Some Float)
           false [CHANNEL] empty_fd).
  - cbn; lia.
  - reflexivity.
  - reflexivity.
  - reflexivity.
Defined.

(** * The sampler and the dataset of the tests *)

Local Close Scope R_scope.
Local Open Scope Z_scope.

(** ** The batching loop *)

Lemma nth_map_seq (f : nat -> Z) (n k : nat) (d : Z) :
  (k < n)%nat -> nth k (map f (seq 0 n)) d = f k.
Proof.
  intros Hk. rewrite (nth_indep _ d (f 0%nat)) by (rewrite length_map, length_seq; exact Hk).
  rewrite map_nth, seq_nth by exact Hk. reflexivity.
Qed.

Lemma seq_shift_map {A : Type} (f : nat -> A) (n : nat) :
  map f (seq 1 n) = map (fun k => f (S k)) (seq 0 n).
Proof. now rewrite <- seq_shift, map_map. Qed.

(** The loop cuts [batch ++ idx_range] into batches of
    [micro_batch_size] elements, drops what is left over, and adds one
    step to the counter per batch. *)
Lemma batch_loop_spec (m : nat) (step : Z) (idx_range : list Z) :
  (0 < m)%nat ->
  forall (batch : list Z) (consumed : Z),
    (length batch < m)%nat ->
    exists tail,
      (batch ++ idx_range)%list =
      (concat (map fst (fst (batch_loop (Z.of_nat m) step idx_range batch
                               consumed))) ++ tail)%list /\
      (length tail < m)%nat /\
      Forall (fun y => length (fst y) = m)
        (fst (batch_loop (Z.of_nat m) step idx_range batch consumed)) /\
      map snd (fst (batch_loop (Z.of_nat m) step idx_range batch consumed)) =
      map (fun k => consumed + Z.of_nat (S k) * step)
        (seq 0 (length (fst (batch_loop (Z.of_nat m) step idx_range batch
                               consumed)))) /\
      snd (batch_loop (Z.of_nat m) step idx_range batch consumed) =
      consumed +
      Z.of_nat (length (fst (batch_loop (Z.of_nat m) step idx_range batch
                               consumed))) * step.
Proof.
  intros Hm.
  induction idx_range as [| idx rest IH]; intros batch consumed Hb.
  - exists batch. cbn. rewrite app_nil_r. repeat split; auto. lia.
  - cbn [batch_loop].
    assert (Hlen : length (batch ++ [idx]) = S (length batch))
      by (rewrite length_app; cbn; lia).
    destruct (Z.eqb_spec (Z.of_nat (length (batch ++ [idx]))) (Z.of_nat m))
      as [Heq | Hne].
    + apply Nat2Z.inj in Heq.
      destruct (IH [] (consumed + step) Hm) as (tail & Hcat & Ht & Hall & Hsnd & Hfin).
      destruct (batch_loop (Z.of_nat m) step rest [] (consumed + step))
        as [ys final] eqn:Hloop.
      cbn [fst snd] in *. exists tail. cbn [map fst concat length].
      repeat split.
      * rewrite <- app_assoc, <- Hcat. cbn. now rewrite <- app_assoc.
      * assumption.
      * constructor; [exact Heq | assumption].
      * cbn [snd seq map]. f_equal; [lia |].
        rewrite seq_shift_map, Hsnd. apply map_ext. intros k. lia.
      * rewrite Hfin. lia.
    + assert (Hlt : (length (batch ++ [idx]) < m)%nat) by lia.
      destruct (IH (batch ++ [idx])%list consumed Hlt)
        as (tail & Hcat & Ht & Hall & Hsnd & Hfin).
      exists tail. repeat split; try assumption.
      rewrite <- Hcat, <- app_assoc. reflexivity.
Qed.

Lemma concat_uniform_length {A : Type} (m : nat) (l : list (list A)) :
  Forall (fun b => length b = m) l ->
  length (concat l) = (length l * m)%nat.
Proof.
  induction 1 as [| b l Hb Hl IH]; [reflexivity |].
  cbn. rewrite length_app, IH, Hb. reflexivity.
Qed.

(** When the indices fill whole batches, nothing is dropped. *)
Lemma batch_loop_exact (m : nat) (step : Z) (idx_range : list Z) (k : nat)
    (consumed : Z) :
  (0 < m)%nat ->
  length idx_range = (k * m)%nat ->
  let r := batch_loop (Z.of_nat m) step idx_range [] consumed in
  concat (map fst (fst r)) = idx_range /\
  length (fst r) = k /\
  Forall (fun y => length (fst y) = m) (fst r) /\
  map snd (fst r) =
    map (fun i => consumed + Z.of_nat (S i) * step) (seq 0 k) /\
  snd r = consumed + Z.of_nat k * step.
Proof.
  intros Hm Hlen r.
  destruct (batch_loop_spec step idx_range Hm [] consumed Hm)
    as (tail & Hcat & Ht & Hall & Hsnd & Hfin).
  fold r in Hcat, Hall, Hsnd, Hfin.
  assert (Hall' : Forall (fun b => length b = m) (map fst (fst r)))
    by (apply Forall_map; exact Hall).
  pose proof (concat_uniform_length Hall') as Hc.
  rewrite length_map in Hc.
  assert (Hl : length idx_range =
               (length (fst r) * m + length tail)%nat).
  { cbn [app] in Hcat. rewrite Hcat at 1. rewrite length_app, Hc. reflexivity. }
  assert (Hk : length (fst r) = k /\ length tail = 0%nat).
  { destruct (Nat.lt_trichotomy (length (fst r)) k) as [Hlt | [Heq | Hgt]].
    - pose proof (Nat.mul_le_mono_r (S (length (fst r))) k m Hlt). lia.
    - subst k. lia.
    - pose proof (Nat.mul_le_mono_r (S k) (length (fst r)) m Hgt). lia. }
  destruct Hk as [Hk Ht0].
  destruct tail; [| discriminate Ht0].
  rewrite app_nil_r in Hcat. cbn [app] in Hcat.
  rewrite Hk in Hsnd, Hfin. auto.
Qed.

(** ** [__init__] *)

Lemma sampler_init_inv (t c m r s : Z) (self : Sampler) :
  sampler_init t c m r s = Return self ->
  self = mkSampler t c m r s (m * s) (t mod (m * s)) None /\
  0 < t /\ 0 < m /\ 0 < s /\ r < s.
Proof.
  unfold sampler_init, pymod, oassert, obind.
  destruct (m * s =? 0); [discriminate |].
  destruct (Z.gtb_spec t 0); [| discriminate].
  destruct (Z.gtb_spec m 0); [| discriminate].
  destruct (Z.gtb_spec s 0); [| discriminate].
  destruct (Z.ltb_spec r s); [| discriminate].
  intros [= <-]. auto.
Qed.

Lemma sampler_init_ok (t c m r s : Z) (self : Sampler) :
  sampler_init t c m r s = Return self -> sampler_ok self.
Proof.
  intros H. apply sampler_init_inv in H as (-> & ? & ? & ? & ?).
  constructor; cbn; auto.
Qed.

(** ** [__iter__] *)

(** The arithmetic of a sampler that can be iterated. *)
Lemma sampler_ready_arith (self : Sampler) :
  sampler_ready self ->
  let G := micro_batch_times_data_parallel_size self in
  let n := batches_per_epoch self in
  let j := batches_done self in
  0 < G /\ 1 <= n /\
  total_samples self - last_batch_size self = n * G /\
  0 <= j < n /\
  consumed_samples self mod (n * G) = j * G.
Proof.
  intros [Hok Htot Hcons] G n j.
  destruct Hok as [Ht Hm Hs Hr HG Hlast].
  fold G in HG, Hlast, Htot, Hcons.
  assert (HGpos : 0 < G) by (rewrite HG; nia).
  assert (Hn : 1 <= n).
  { unfold n, batches_per_epoch. fold G.
    apply Z.div_le_lower_bound; lia. }
  assert (Hact : total_samples self - last_batch_size self = n * G).
  { rewrite Hlast. unfold n, batches_per_epoch. fold G.
    pose proof (Z.div_mod (total_samples self) G). lia. }
  assert (Hcur : (consumed_samples self mod (n * G)) mod G = 0).
  { rewrite Z.mod_mod_divide; [assumption |].
    exists n. reflexivity. }
  assert (Hrange : 0 <= consumed_samples self mod (n * G) < n * G)
    by (apply Z.mod_pos_bound; nia).
  assert (Hj : consumed_samples self mod (n * G) = j * G).
  { unfold j, batches_done. fold G n.
    pose proof (Z.div_mod (consumed_samples self mod (n * G)) G). lia. }
  repeat split; try assumption.
  - unfold j, batches_done. fold G n. apply Z.div_pos; lia.
  - nia.
Qed.

Lemma app_inj_length (A : Type) (a b x y : list A) :
  length a = length b -> (a ++ x = b ++ y)%list -> a = b /\ x = y.
Proof.
  revert b. induction a as [| h a IH]; intros [| h' b] Hlen Heq;
    try discriminate.
  - now split.
  - cbn in Hlen, Heq. injection Hlen as Hlen. injection Heq as -> Heq.
    destruct (IH b Hlen Heq) as [-> ->]. now split.
Qed.

Lemma concat_uniform_inj (m : nat) (l1 l2 : list (list Z)) :
  (0 < m)%nat ->
  Forall (fun b => length b = m) l1 ->
  Forall (fun b => length b = m) l2 ->
  concat l1 = concat l2 -> l1 = l2.
Proof.
  intros Hm H1. revert l2.
  induction H1 as [| a l1 Ha H1 IH]; intros l2 H2 Heq.
  - destruct H2 as [| b l2 Hb H2]; [reflexivity |].
    cbn in Heq. destruct b; [cbn in Hb; lia | discriminate].
  - destruct H2 as [| b l2 Hb H2].
    + cbn in Heq. destruct a; [cbn in Ha; lia | discriminate].
    + cbn in Heq. apply app_inj_length in Heq as [-> Heq]; [| congruence].
      f_equal. now apply IH.
Qed.

Lemma concat_firstn_uniform (m : nat) (l : list (list Z)) (k : nat) :
  Forall (fun b => length b = m) l ->
  concat (firstn k l) = firstn (k * m) (concat l).
Proof.
  intros Hl. revert k.
  induction Hl as [| a l Ha Hl IH]; intros k.
  - now rewrite !firstn_nil.
  - destruct k as [| k]; [reflexivity |].
    cbn [firstn concat Nat.mul]. rewrite IH, <- Ha. now rewrite firstn_app_2.
Qed.

Lemma concat_skipn_uniform (m : nat) (l : list (list Z)) (k : nat) :
  Forall (fun b => length b = m) l ->
  concat (skipn k l) = skipn (k * m) (concat l).
Proof.
  intros Hl. revert k.
  induction Hl as [| a l Ha Hl IH]; intros k.
  - now rewrite !skipn_nil.
  - destruct k as [| k]; [reflexivity |].
    cbn [skipn concat Nat.mul]. rewrite IH, skipn_app.
    rewrite (@skipn_all2 _ (m + k * m)%nat a) by lia.
    replace (m + k * m - length a)%nat with (k * m)%nat by lia.
    reflexivity.
Qed.

Lemma Forall_skipn (A : Type) (P : A -> Prop) (k : nat) (l : list A) :
  Forall P l -> Forall P (skipn k l).
Proof.
  revert l. induction k as [| k IH]; intros l Hl; [exact Hl |].
  destruct Hl; cbn; auto.
Qed.

Lemma In_skipn (A : Type) (k : nat) (l : list A) (x : A) :
  In x (skipn k l) -> In x l.
Proof.
  revert l. induction k as [| k IH]; intros [| a l]; cbn; auto.
Qed.

Lemma NoDup_skipn (A : Type) (k : nat) (l : list A) :
  NoDup l -> NoDup (skipn k l).
Proof.
  revert l. induction k as [| k IH]; intros [| a l] Hl; cbn; auto.
  apply IH. now inversion Hl.
Qed.

Lemma range_length (start stop : Z) :
  length (range start stop) = Z.to_nat (stop - start).
Proof. unfold range. now rewrite length_map, length_seq. Qed.

Lemma range_nth (start stop : Z) (k : nat) :
  (k < Z.to_nat (stop - start))%nat ->
  nth k (range start stop) 0 = start + Z.of_nat k.
Proof. intros Hk. unfold range. now apply nth_map_seq. Qed.

Lemma getitem_range (start stop i : Z) :
  0 <= i < stop - start ->
  getitem (range start stop) i = Return (start + i).
Proof.
  intros Hi. unfold getitem. rewrite range_length.
  destruct (Z.leb_spec 0 i); [| lia].
  destruct (Z.ltb_spec i (Z.of_nat (Z.to_nat (stop - start)))); [| lia].
  cbn [andb]. rewrite range_nth by lia. f_equal. lia.
Qed.

Lemma dataset_init_inv (start stop : Z) (ds : MyIterableDataset) :
  dataset_init start stop = Return ds ->
  start < stop /\ ds = mkDataset start stop (range start stop).
Proof.
  unfold dataset_init, oassert. destruct (Z.gtb_spec stop start); cbn.
  - intros [= <-]. split; [lia | reflexivity].
  - discriminate.
Qed.

Section SamplerProperties.

Variable randperm : Z -> nat -> list Z.

Hypothesis randperm_permutation :
  forall seed n, Permutation (randperm seed n) (map Z.of_nat (seq 0 n)).

Lemma randperm_length (seed : Z) (n : nat) : length (randperm seed n) = n.
Proof.
  rewrite (Permutation_length (randperm_permutation seed n)).
  now rewrite length_map, length_seq.
Qed.

(** What an iteration yields, in closed form. *)
Lemma sampler_iter_ready (self : Sampler) :
  sampler_ready self ->
  let G := micro_batch_times_data_parallel_size self in
  let m := micro_batch_size self in
  let n := batches_per_epoch self in
  let j := batches_done self in
  let e := consumed_samples self / (n * G) in
  exists yields,
    sampler_iter randperm self =
    Return
      (yields,
       mkSampler (total_samples self)
         (consumed_samples self + (n - j) * G) m
         (data_parallel_rank self) (data_parallel_size self) G
         (last_batch_size self) (Some e)) /\
    concat (map fst yields) =
      map (fun x => data_parallel_rank self * (n * m) + x)
        (skipn (Z.to_nat (j * m)) (randperm e (Z.to_nat (n * m)))) /\
    length yields = Z.to_nat (n - j) /\
    Forall (fun y => Z.of_nat (length (fst y)) = m) yields /\
    map snd yields =
      map (fun i => consumed_samples self + Z.of_nat (S i) * G)
        (seq 0 (Z.to_nat (n - j))).
Proof.
  intros Hready G m n j e.
  destruct (sampler_ready_arith Hready) as (HG & Hn & Hact & Hj & Hcur).
  fold G n j in HG, Hn, Hact, Hj, Hcur.
  destruct Hready as [[Ht Hm Hs Hr HGeq Hlast] Htot Hcons].
  fold G m in HGeq, Hm.
  unfold sampler_iter, floordiv, pymod, oassert, obind.
  rewrite Hact.
  destruct (Z.eqb_spec (n * G) 0) as [Hz | _]; [nia |].
  fold G. destruct (Z.eqb_spec G 0) as [Hz | _]; [lia |].
  rewrite Hcur.
  assert (Hmod : (j * G) mod G = 0) by apply Z.mod_mul, Z.neq_sym, Z.lt_neq, HG.
  rewrite Hmod. cbn [Z.eqb].
  destruct (Z.eqb_spec (data_parallel_size self) 0) as [Hz | _]; [lia |].
  change (total_samples self / G) with n. fold m.
  assert (Hoff : j * G / data_parallel_size self = j * m).
  { rewrite HGeq, Z.mul_assoc. apply Z.div_mul. lia. }
  rewrite Hoff.
  destruct (Z.ltb_spec (n * m) 0) as [Hneg | _]; [nia |].
  unfold slice_from.
  destruct (Z.leb_spec 0 (j * m)) as [_ | Hneg]; [| nia].
  change (consumed_samples self / (n * G)) with e.
  set (idx_range :=
         map (fun x => data_parallel_rank self * (n * m) + x)
           (skipn (Z.to_nat (j * m)) (randperm e (Z.to_nat (n * m))))).
  assert (Hlen : length idx_range =
                 (Z.to_nat (n - j) * Z.to_nat m)%nat).
  { unfold idx_range. rewrite length_map, length_skipn, randperm_length.
    nia. }
  assert (Hmnat : (0 < Z.to_nat m)%nat) by lia.
  pose proof (@batch_loop_exact (Z.to_nat m) G idx_range (Z.to_nat (n - j))
                (consumed_samples self) Hmnat Hlen) as Hloop.
  rewrite Z2Nat.id in Hloop by lia.
  cbv zeta in Hloop.
  destruct (batch_loop m G idx_range [] (consumed_samples self))
    as [yields final].
  cbn [fst snd] in Hloop.
  destruct Hloop as (Hcat & Hk & Hall & Hsnd & Hfin).
  exists yields. repeat split; try assumption.
  - rewrite Hfin, Z2Nat.id by lia. reflexivity.
  - eapply Forall_impl; [| exact Hall]. cbn. intros y Hy. lia.
Qed.

Lemma sampler_iter_indices (self : Sampler)
    (r : list (list Z * Z) * Sampler) :
  sampler_ready self ->
  sampler_iter randperm self = Return r ->
  let bucket := batches_per_epoch self * micro_batch_size self in
  let e := consumed_samples self /
           (batches_per_epoch self *
            micro_batch_times_data_parallel_size self) in
  concat (batches_of r) =
  map (fun x => data_parallel_rank self * bucket + x)
    (skipn (Z.to_nat (batches_done self * micro_batch_size self))
       (randperm e (Z.to_nat bucket))) /\
  Forall (fun b => Z.of_nat (length b) = micro_batch_size self)
    (batches_of r) /\
  0 < bucket /\
  forall idx,
    In idx (concat (batches_of r)) ->
    data_parallel_rank self * bucket <= idx
      < (data_parallel_rank self + 1) * bucket.
Proof.
  intros Hready Hiter bucket e.
  destruct (sampler_iter_ready Hready) as (yields & Hiter' & Hcat & _ & Hall & _).
  rewrite Hiter in Hiter'. injection Hiter' as ->.
  unfold batches_of. cbn [fst]. fold bucket e in Hcat.
  destruct (sampler_ready_arith Hready) as (HG & Hn & Hact & Hj & Hcur).
  assert (Hb : 0 < bucket).
  { destruct Hready as [[Ht Hm Hs Hr HGeq Hlast] Htot Hc].
    unfold bucket. nia. }
  split; [exact Hcat |].
  split; [now apply Forall_map |].
  split; [exact Hb |].
  rewrite Hcat.
  intros idx Hin. apply in_map_iff in Hin as (x & <- & Hx).
  apply In_skipn in Hx.
  apply (Permutation_in _ (randperm_permutation e (Z.to_nat bucket))) in Hx.
  apply in_map_iff in Hx as (i & <- & Hi). apply in_seq in Hi. lia.
Qed.


(** X8. Every index an iteration yields lies in the bucket of the
    sampler's rank, no index is yielded twice, and for a non-negative
    rank every index is below [total_samples - last_batch_size]: the
    samples of the incomplete last global batch are never yielded. *)
Theorem sampler_indices_in_bucket_without_repeats (self : Sampler)
    (r : list (list Z * Z) * Sampler) :
  sampler_ready self ->
  sampler_iter randperm self = Return r ->
  let bucket := batches_per_epoch self * micro_batch_size self in
  NoDup (concat (batches_of r)) /\
  forall idx,
    In idx (concat (batches_of r)) ->
    data_parallel_rank self * bucket <= idx
      < (data_parallel_rank self + 1) * bucket /\
    (0 <= data_parallel_rank self ->
     0 <= idx < total_samples self - last_batch_size self).
Proof.
  intros Hready Hiter bucket.
  destruct (sampler_iter_indices Hready Hiter) as (Hcat & _ & Hb & Hin).
  fold bucket in Hcat, Hb, Hin.
  split.
  - rewrite Hcat. apply Finite.Injective_map_NoDup.
    + intros a b. lia.
    + apply NoDup_skipn.
      apply (Permutation_NoDup
               (Permutation_sym (randperm_permutation _ (Z.to_nat bucket)))).
      apply Finite.Injective_map_NoDup; [| apply seq_NoDup].
      intros a b. apply Nat2Z.inj.
  - intros idx Hidx. specialize (Hin idx Hidx).
    split; [exact Hin |].
    intros Hr0.
    destruct (sampler_ready_arith Hready) as (HG & Hn & Hact & Hj & Hcur).
    rewrite Hact.
    destruct Hready as [[Ht Hm Hs Hr HGeq Hlast] Htot Hc].
    assert (Hle : (data_parallel_rank self + 1) * bucket <=
                  batches_per_epoch self *
                  micro_batch_times_data_parallel_size self).
    { rewrite HGeq. unfold bucket. nia. }
    nia.
Qed.

(** X9. Iterating from the start of an epoch yields every index of the
    rank's bucket exactly once: the indices of all batches together are
    a permutation of [range(rank * bucket_size, (rank + 1) * bucket_size)]. *)
Theorem fresh_epoch_covers_the_bucket (self : Sampler)
    (r : list (list Z * Z) * Sampler) :
  sampler_ready self ->
  batches_done self = 0 ->
  sampler_iter randperm self = Return r ->
  let bucket := batches_per_epoch self * micro_batch_size self in
  Permutation (concat (batches_of r))
    (range (data_parallel_rank self * bucket)
       ((data_parallel_rank self + 1) * bucket)).
Proof.
  intros Hready Hdone Hiter bucket.
  destruct (sampler_iter_indices Hready Hiter) as (Hcat & _ & Hb & _).
  fold bucket in Hcat, Hb.
  rewrite Hcat, Hdone. cbn [Z.mul Z.to_nat skipn].
  unfold range.
  replace ((data_parallel_rank self + 1) * bucket -
           data_parallel_rank self * bucket) with bucket by lia.
  rewrite <- (map_map Z.of_nat (fun x => data_parallel_rank self * bucket + x)).
  apply Permutation_map, randperm_permutation.
Qed.

(** X10. Two ranks of the same data-parallel group never yield the same
    index, whatever each of them has consumed. *)
Theorem ranks_yield_disjoint_indices (a b : Sampler)
    (ra rb : list (list Z * Z) * Sampler) :
  sampler_ready a ->
  sampler_ready b ->
  total_samples a = total_samples b ->
  micro_batch_size a = micro_batch_size b ->
  data_parallel_size a = data_parallel_size b ->
  data_parallel_rank a <> data_parallel_rank b ->
  sampler_iter randperm a = Return ra ->
  sampler_iter randperm b = Return rb ->
  forall idx,
    In idx (concat (batches_of ra)) -> ~ In idx (concat (batches_of rb)).
Proof.
  intros Ha Hb Ht Hm Hs Hr Hia Hib idx Hina Hinb.
  destruct (sampler_iter_indices Ha Hia) as (_ & _ & Hpos & Hrange_a).
  destruct (sampler_iter_indices Hb Hib) as (_ & _ & _ & Hrange_b).
  specialize (Hrange_a idx Hina). specialize (Hrange_b idx Hinb).
  assert (HG : micro_batch_times_data_parallel_size a =
               micro_batch_times_data_parallel_size b).
  { rewrite (ok_global (ready_ok Ha)), (ok_global (ready_ok Hb)). congruence. }
  unfold batches_per_epoch in *. rewrite <- Ht, <- Hm, <- HG in Hrange_b.
  nia.
Qed.

(** X11. Resuming: a sampler created with [k] more global batches
    consumed (within the same epoch) yields the batches of the original
    sampler without the first [k]. *)
Theorem resumed_sampler_skips_consumed_batches (a b : Sampler) (k : Z)
    (ra rb : list (list Z * Z) * Sampler) :
  sampler_ready a ->
  sampler_ok b ->
  total_samples b = total_samples a ->
  micro_batch_size b = micro_batch_size a ->
  data_parallel_size b = data_parallel_size a ->
  data_parallel_rank b = data_parallel_rank a ->
  0 <= k ->
  batches_done a + k < batches_per_epoch a ->
  consumed_samples b =
    consumed_samples a + k * micro_batch_times_data_parallel_size a ->
  sampler_iter randperm a = Return ra ->
  sampler_iter randperm b = Return rb ->
  batches_of rb = skipn (Z.to_nat k) (batches_of ra).
Proof.
  intros Ha Hokb Ht Hm Hs Hr Hk Hlt Hc Hia Hib.
  assert (HG : micro_batch_times_data_parallel_size b =
               micro_batch_times_data_parallel_size a).
  { rewrite (ok_global (ready_ok Ha)), (ok_global Hokb). congruence. }
  destruct (sampler_ready_arith Ha) as (HGpos & Hn & Hact & Hj & Hcur).
  assert (Hb : sampler_ready b).
  { constructor; [exact Hokb | |].
    - rewrite HG, Ht. apply (ready_total Ha).
    - rewrite HG, Hc, Z.mod_add by lia. apply (ready_consumed Ha). }
  destruct (sampler_iter_indices Ha Hia) as (Hcat_a & Hall_a & Hpos & _).
  destruct (sampler_iter_indices Hb Hib) as (Hcat_b & Hall_b & _ & _).
  assert (Hnb : batches_per_epoch b = batches_per_epoch a).
  { unfold batches_per_epoch. now rewrite HG, Ht. }
  set (n := batches_per_epoch a) in *.
  set (G := micro_batch_times_data_parallel_size a) in *.
  set (m := micro_batch_size a) in *.
  assert (Hdm : consumed_samples b =
                (consumed_samples a / (n * G)) * (n * G) +
                (batches_done a + k) * G).
  { rewrite Hc. pose proof (Z.div_mod (consumed_samples a) (n * G)) as Hd.
    rewrite Hcur in Hd. nia. }
  assert (Hrange : 0 <= (batches_done a + k) * G < n * G) by nia.
  assert (He : consumed_samples b / (n * G) = consumed_samples a / (n * G)).
  { rewrite Hdm, Z.div_add_l by nia.
    rewrite (Z.div_small ((batches_done a + k) * G)) by exact Hrange. lia. }
  assert (Hjb : batches_done b = batches_done a + k).
  { unfold batches_done at 1. rewrite Hnb, HG. fold n G.
    rewrite Hdm, Z.add_comm, Z.mod_add by nia.
    rewrite Z.mod_small by exact Hrange. apply Z.div_mul. lia. }
  rewrite Hnb, HG, Hm, Hr, He, Hjb in Hcat_b. fold n G m in Hcat_b.
  assert (Hmpos : 0 < m) by apply (ok_micro (ready_ok Ha)).
  apply (@concat_uniform_inj (Z.to_nat m)); [lia | | |].
  - eapply Forall_impl; [| exact Hall_b]. cbn. intros x Hx. rewrite Hm in Hx. lia.
  - apply Forall_skipn. eapply Forall_impl; [| exact Hall_a]. cbn. intros x Hx.
    fold m in Hx. lia.
  - rewrite (@concat_skipn_uniform (Z.to_nat m)).
    2:{ eapply Forall_impl; [| exact Hall_a]. cbn. intros x Hx. fold m in Hx. lia. }
    rewrite Hcat_b, Hcat_a, skipn_map, skipn_skipn.
    do 2 f_equal. nia.
Qed.

(** X12. The stream of indices does not depend on the micro batch size:
    two fresh samplers over the same buckets yield the same indices in
    the same order, so any [k * mb] batches of the first hold the
    indices of the first [k * ma] batches of the second, as the
    behaviour test asserts for 2 batches of 4 and 4 batches of 2. *)
Theorem index_stream_independent_of_micro_batch_size (a b : Sampler)
    (k : nat) (ra rb : list (list Z * Z) * Sampler) :
  sampler_ready a ->
  sampler_ready b ->
  data_parallel_rank a = data_parallel_rank b ->
  consumed_samples a = 0 ->
  consumed_samples b = 0 ->
  batches_per_epoch a * micro_batch_size a =
    batches_per_epoch b * micro_batch_size b ->
  sampler_iter randperm a = Return ra ->
  sampler_iter randperm b = Return rb ->
  concat (batches_of ra) = concat (batches_of rb) /\
  concat (firstn (k * Z.to_nat (micro_batch_size b)) (batches_of ra)) =
  concat (firstn (k * Z.to_nat (micro_batch_size a)) (batches_of rb)).
Proof.
  intros Ha Hb Hr Hca Hcb Hbucket Hia Hib.
  destruct (sampler_iter_indices Ha Hia) as (Hcat_a & Hall_a & _ & _).
  destruct (sampler_iter_indices Hb Hib) as (Hcat_b & Hall_b & _ & _).
  assert (Heq : concat (batches_of ra) = concat (batches_of rb)).
  { rewrite Hcat_a, Hcat_b. unfold batches_done.
    rewrite Hca, Hcb, Hbucket, Hr, !Zmod_0_l, !Zdiv_0_l.
    reflexivity. }
  split; [exact Heq |].
  rewrite (@concat_firstn_uniform (Z.to_nat (micro_batch_size a))).
  2:{ eapply Forall_impl; [| exact Hall_a]. cbn. intros x Hx. lia. }
  rewrite (@concat_firstn_uniform (Z.to_nat (micro_batch_size b))).
  2:{ eapply Forall_impl; [| exact Hall_b]. cbn. intros x Hx. lia. }
  rewrite Heq. f_equal. lia.
Qed.

(** X13. The sampler and the dataset fit together: for a rank that is
    not negative, every index yielded for [total_samples] samples is a
    valid index of [MyIterableDataset(0, total_samples)], and the
    dataset returns the index itself. *)
Theorem sampled_indices_index_the_dataset (self : Sampler)
    (ds : MyIterableDataset) (r : list (list Z * Z) * Sampler) :
  sampler_ready self ->
  0 <= data_parallel_rank self ->
  dataset_init 0 (sampler_len self) = Return ds ->
  sampler_iter randperm self = Return r ->
  forall idx,
    In idx (concat (batches_of r)) -> dataset_getitem ds idx = Return idx.
Proof.
  intros Hready Hr0 Hds Hiter idx Hin.
  apply dataset_init_inv in Hds as [_ ->].
  destruct (sampler_iter_indices Hready Hiter) as (_ & _ & Hb & Hrange).
  specialize (Hrange idx Hin).
  destruct (sampler_ready_arith Hready) as (HG & Hn & Hact & Hj & Hcur).
  destruct Hready as [[Ht Hm Hs Hr HGeq Hlast] Htot Hc].
  pose proof (Z.mod_pos_bound (total_samples self)
                (micro_batch_times_data_parallel_size self) HG) as Hlb.
  unfold dataset_getitem, sampler_len. cbn [ds_samples].
  rewrite getitem_range; [f_equal; lia |].
  assert (Hle : (data_parallel_rank self + 1) *
                (batches_per_epoch self * micro_batch_size self) <=
                batches_per_epoch self *
                micro_batch_times_data_parallel_size self).
  { rewrite HGeq. nia. }
  nia.
Qed.


End SamplerProperties.

(** X15. [__init__] returns exactly when the four sanity checks hold,
    and then with the derived attributes consistent; [consumed_samples]
    is not checked, and a negative rank is accepted.  The remainder is
    taken before the checks: a zero micro batch size or data parallel
    size is reported as [ZeroDivisionError], never by the assertions
    that test them. *)
Theorem sampler_init_returns_iff_checks_hold (t c m r s : Z) :
  ((exists self,
       sampler_init t c m r s = Return self /\
       sampler_ok self /\
       sampler_len self = t /\
       consumed_samples self = c /\
       0 <= last_batch_size self < m * s)
   <-> 0 < t /\ 0 < m /\ 0 < s /\ r < s) /\
  (m * s = 0 -> sampler_init t c m r s = Throw Exc.ZeroDivisionError).
Proof.
  split; [split |].
  - intros (self & Hinit & _). apply sampler_init_inv in Hinit. tauto.
  - intros (Ht & Hm & Hs & Hr).
    assert (HG : 0 < m * s) by nia.
    exists (mkSampler t c m r s (m * s) (t mod (m * s)) None).
    split.
    + unfold sampler_init, pymod, oassert.
      destruct (Z.eqb_spec (m * s) 0); [lia |]. cbn [obind].
      destruct (Z.gtb_spec t 0); [| lia]. cbn [obind].
      destruct (Z.gtb_spec m 0); [| lia]. cbn [obind].
      destruct (Z.gtb_spec s 0); [| lia]. cbn [obind].
      destruct (Z.ltb_spec r s); [| lia]. reflexivity.
    + split; [constructor; cbn; auto |].
      split; [reflexivity |]. split; [reflexivity |].
      cbn. apply Z.mod_pos_bound. exact HG.
  - intros Hz. unfold sampler_init, pymod. rewrite Hz. reflexivity.
Qed.

(** X16. A dataset built by [MyIterableDataset(start, end)] has
    [start < end] and holds [end - start] samples; index [i] and the
    negative index [i - (end - start)] return [start + i], and every
    index outside [-(end - start) .. end - start - 1] raises
    [IndexError]. *)
Theorem dataset_getitem_returns_offset_sample (start stop : Z)
    (ds : MyIterableDataset) :
  dataset_init start stop = Return ds ->
  start < stop /\
  Z.of_nat (length (dataset_iter ds)) = stop - start /\
  (forall i,
      0 <= i < stop - start ->
      dataset_getitem ds i = Return (start + i) /\
      dataset_getitem ds (i - (stop - start)) = Return (start + i) /\
      nth (Z.to_nat i) (dataset_iter ds) 0 = start + i) /\
  (forall i,
      i < - (stop - start) \/ stop - start <= i ->
      dataset_getitem ds i = Throw Exc.IndexError).
Proof.
  intros Hds. apply dataset_init_inv in Hds as [Hlt ->].
  unfold dataset_iter, dataset_getitem. cbn [ds_start ds_end ds_samples].
  split; [exact Hlt |].
  split; [rewrite range_length; lia |].
  split.
  - intros i Hi.
    split; [now apply getitem_range |].
    split.
    + unfold getitem. rewrite range_length.
      destruct (Z.leb_spec 0 (i - (stop - start))); [lia |]. cbn [andb].
      destruct (Z.leb_spec (- Z.of_nat (Z.to_nat (stop - start)))
                  (i - (stop - start))); [| lia].
      destruct (Z.ltb_spec (i - (stop - start)) 0); [| lia]. cbn [andb].
      rewrite range_nth by lia. f_equal. lia.
    + rewrite range_nth by lia. lia.
  - intros i Hi. unfold getitem. rewrite range_length.
    destruct (Z.leb_spec 0 i);
      destruct (Z.ltb_spec i (Z.of_nat (Z.to_nat (stop - start))));
      cbn [andb]; try lia;
      destruct (Z.leb_spec (- Z.of_nat (Z.to_nat (stop - start))) i);
      destruct (Z.ltb_spec i 0); cbn [andb]; try lia; reflexivity.
Qed.

(** ** Instances for the sampler and the dataset *)

Lemma flip_perm_permutation (seed : Z) (n : nat) :
  Permutation (flip_perm seed n) (map Z.of_nat (seq 0 n)).
Proof.
  unfold flip_perm. destruct (Z.even seed); [| apply Permutation_refl].
  apply Permutation_map, Permutation_sym, Permutation_rev.
Qed.

Ltac sampler_checks :=
  repeat match goal with
         | |- sampler_ready _ => constructor
         | |- sampler_ok _ => constructor
         end; cbn; first [reflexivity | lia].


Lemma sampler_indices_witness :
  sampler_ready sampler_rank1 /\
  sampler_iter flip_perm sampler_rank1 = Return run_rank1 /\
  NoDup [7; 6; 5; 4] /\
  forall idx,
    In idx [7; 6; 5; 4] ->
    1 * 4 <= idx < (1 + 1) * 4 /\ (0 <= 1 -> 0 <= idx < 10 - 2).
Proof.
  split; [sampler_checks |]. split; [reflexivity |].
  apply (@sampler_indices_in_bucket_without_repeats flip_perm
           flip_perm_permutation sampler_rank1 run_rank1).
  - sampler_checks.
  - reflexivity.
Defined.

Lemma fresh_epoch_witness :
  sampler_ready sampler_rank1 /\
  batches_done sampler_rank1 = 0 /\
  sampler_iter flip_perm sampler_rank1 = Return run_rank1 /\
  Permutation [7; 6; 5; 4] (range 4 8).
Proof.
  split; [sampler_checks |]. split; [reflexivity |]. split; [reflexivity |].
  apply (@fresh_epoch_covers_the_bucket flip_perm flip_perm_permutation
           sampler_rank1 run_rank1).
  - sampler_checks.
  - reflexivity.
  - reflexivity.
Defined.

Lemma disjoint_ranks_witness :
  sampler_ready sampler_rank0 /\
  sampler_ready sampler_rank1 /\
  data_parallel_rank sampler_rank0 <> data_parallel_rank sampler_rank1 /\
  sampler_iter flip_perm sampler_rank0 = Return run_rank0 /\
  sampler_iter flip_perm sampler_rank1 = Return run_rank1 /\
  forall idx, In idx [3; 2; 1; 0] -> ~ In idx [7; 6; 5; 4].
Proof.
  split; [sampler_checks |]. split; [sampler_checks |].
  split; [discriminate |]. split; [reflexivity |]. split; [reflexivity |].
  apply (@ranks_yield_disjoint_indices flip_perm flip_perm_permutation
           sampler_rank0 sampler_rank1 run_rank0 run_rank1).
  - sampler_checks.
  - sampler_checks.
  - reflexivity.
  - reflexivity.
  - reflexivity.
  - discriminate.
  - reflexivity.
  - reflexivity.
Defined.

Lemma resumed_sampler_witness :
  sampler_ready sampler_rank1 /\
  sampler_ok sampler_rank1_resumed /\
  batches_done sampler_rank1 + 1 < batches_per_epoch sampler_rank1 /\
  consumed_samples sampler_rank1_resumed =
    consumed_samples sampler_rank1 + 1 * 4 /\
  sampler_iter flip_perm sampler_rank1 = Return run_rank1 /\
  sampler_iter flip_perm sampler_rank1_resumed = Return run_rank1_resumed /\
  batches_of run_rank1_resumed = skipn 1 (batches_of run_rank1).
Proof.
  split; [sampler_checks |]. split; [sampler_checks |].
  split; [reflexivity |]. split; [reflexivity |].
  split; [reflexivity |]. split; [reflexivity |].
  apply (@resumed_sampler_skips_consumed_batches flip_perm
           flip_perm_permutation sampler_rank1 sampler_rank1_resumed 1
           run_rank1 run_rank1_resumed).
  - sampler_checks.
  - sampler_checks.
  - reflexivity.
  - reflexivity.
  - reflexivity.
  - reflexivity.
  - lia.
  - reflexivity.
  - reflexivity.
  - reflexivity.
  - reflexivity.
Defined.

Lemma micro_batch_size_witness :
  sampler_ready sampler_by_four /\
  sampler_ready sampler_by_two /\
  batches_per_epoch sampler_by_four * micro_batch_size sampler_by_four =
    batches_per_epoch sampler_by_two * micro_batch_size sampler_by_two /\
  sampler_iter flip_perm sampler_by_four = Return run_by_four /\
  sampler_iter flip_perm sampler_by_two = Return run_by_two /\
  concat (batches_of run_by_four) = concat (batches_of run_by_two) /\
  concat (firstn 2 (batches_of run_by_four)) =
  concat (firstn 4 (batches_of run_by_two)).
Proof.
  split; [sampler_checks |]. split; [sampler_checks |].
  split; [reflexivity |]. split; [reflexivity |]. split; [reflexivity |].
  apply (@index_stream_independent_of_micro_batch_size flip_perm
           flip_perm_permutation sampler_by_four sampler_by_two 1
           run_by_four run_by_two).
  - sampler_checks.
  - sampler_checks.
  - reflexivity.
  - reflexivity.
  - reflexivity.
  - reflexivity.
  - reflexivity.
  - reflexivity.
Defined.

Lemma sampler_dataset_witness :
  sampler_ready sampler_rank1 /\
  0 <= data_parallel_rank sampler_rank1 /\
  dataset_init 0 (sampler_len sampler_rank1) = Return dataset_ten /\
  sampler_iter flip_perm sampler_rank1 = Return run_rank1 /\
  forall idx,
    In idx [7; 6; 5; 4] -> dataset_getitem dataset_ten idx = Return idx.
Proof.
  split; [sampler_checks |]. split; [cbn; lia |].
  split; [reflexivity |]. split; [reflexivity |].
  apply (@sampled_indices_index_the_dataset flip_perm flip_perm_permutation
           sampler_rank1 dataset_ten run_rank1).
  - sampler_checks.
  - cbn; lia.
  - reflexivity.
  - reflexivity.
Defined.


Lemma dataset_getitem_witness :
  dataset_init 0 10 = Return dataset_ten /\
  0 < 10 /\
  Z.of_nat (length (dataset_iter dataset_ten)) = 10 - 0 /\
  (forall i,
      0 <= i < 10 - 0 ->
      dataset_getitem dataset_ten i = Return (0 + i) /\
      dataset_getitem dataset_ten (i - (10 - 0)) = Return (0 + i) /\
      nth (Z.to_nat i) (dataset_iter dataset_ten) 0 = 0 + i) /\
  (forall i,
      i < - (10 - 0) \/ 10 - 0 <= i ->
      dataset_getitem dataset_ten i = Throw Exc.IndexError).
Proof.
  split; [reflexivity |].
  apply (@dataset_getitem_returns_offset_sample 0 10 dataset_ten).
  reflexivity.
Defined.

(** ** The module classes *)

Local Close Scope Z_scope.

Lemma module_forward_inv (self : NormModule) (input : DeviceTensor)
    (out : TorchTensor) (self' : NormModule) :
  module_forward self input = Return (out, self') ->
  is_cuda input = true /\
  check_input_dim (klass self) input = Return tt /\
  exists stat_axes ctx running_mean running_var,
    class_stat_axes (klass self) = Some stat_axes /\
    NormNVFuserFunction_forward input (mod_weight self) (mod_bias self)
      (mod_running_mean self) (mod_running_var self)
      (training self || negb (track_running_stats self))
      (mod_momentum self) (mod_eps self) false stat_axes
    = Ok (out, ctx, running_mean, running_var) /\
    self' =
    mkModule (klass self) (mod_weight self) (mod_bias self) running_mean
      running_var (training self) (track_running_stats self)
      (mod_momentum self) (mod_eps self).
Proof.
  unfold module_forward, oassert, obind.
  destruct (is_cuda input); [| discriminate].
  destruct (check_input_dim (klass self) input) as [[] |]; [| discriminate].
  destruct (class_stat_axes (klass self)) as [stat_axes |]; [| discriminate].
  destruct (NormNVFuserFunction_forward _ _ _ _ _ _ _ _ _ _)
    as [[[[o ctx] rm] rv] |] eqn:Hfwd; [| discriminate].
  intros [= <- <-]. split; [reflexivity |]. split; [reflexivity |].
  exists stat_axes, ctx, rm, rv. auto.
Qed.

(** Without a running mean the fusion definition of [forward] holds no
    aliasing output either. *)
Lemma forward_definition_untracked
    (x : TorchTensor) (weight bias rv : option TorchTensor)
    (use_input_stats : bool) (momentum eps : R) (unbiased : bool)
    (stat_axes : list NamedAxis) (channels_last : bool)
    (x_datatype : option DataType)
    (inputs : list PyInput) (tv_rm tv_rv : option Expr)
    (fd : FusionDefinition) :
  forward_definition x weight bias None rv use_input_stats momentum eps
    unbiased stat_axes channels_last x_datatype empty_fd
  = Ok (inputs, tv_rm, tv_rv, fd) ->
  tv_rm = None /\ tv_rv = None.
Proof.
  unfold forward_definition, define_optional, partially_contig_tensor.
  repeat
    (cbn - [norm_fusion_forward];
     match goal with
     | |- context [match rank ?t with _ => _ end] => destruct (rank t)
     | |- context [match ?o with Some _ => _ | None => _ end] =>
         is_var o; destruct o
     end; try discriminate).
  all: cbn - [norm_fusion_forward].
  all: intros H; apply bind_inv in H as ([[o mn] istd] & [k1 o1] & Hnf & H).
  all: cbn in H; injection H as <- <- <- <-.
  all: split; reflexivity.
Qed.

(** X17. The guards of [forward]: an input that is not on CUDA fails
    the assertion; on a CUDA input the classes that do not override
    [_check_input_dim] (the base class and the instance, batch and layer
    norm classes above the leaves) raise [NotImplementedError], so they
    cannot be run at all; and a leaf class rejects an input whose rank
    is not the one it is named for, with the [ValueError] that reports
    the rank found. *)
Theorem module_forward_guards (self : NormModule) (input : DeviceTensor) :
  (is_cuda input = false ->
   module_forward self input = Throw (Exc.AssertionError cuda_msg)) /\
  (is_cuda input = true ->
   In (klass self)
     [NormNVFuserBase; InstanceNormNVFuser; BatchNormNVFuser;
      LayerNormNVFuser] ->
   module_forward self input = Throw Exc.NotImplementedError) /\
  (forall n template,
      is_cuda input = true ->
      In (klass self, n, template)
        [(InstanceNorm1dNVFuser, 3, expected_3d);
         (InstanceNorm2dNVFuser, 4, expected_4d);
         (InstanceNorm3dNVFuser, 5, expected_5d)] ->
      rank input <> n ->
      module_forward self input =
      Throw (Exc.ValueError (format_dim template (rank input)))).
Proof.
  unfold module_forward, oassert, obind. repeat split.
  - intros ->. reflexivity.
  - intros -> Hk.
    destruct Hk as [<- | [<- | [<- | [<- | []]]]]; reflexivity.
  - intros n template -> Hk Hrank.
    destruct Hk as [Hk | [Hk | [Hk | []]]]; injection Hk as <- <- <-;
      cbn [check_input_dim];
      apply Nat.eqb_neq in Hrank; rewrite Hrank; reflexivity.
Qed.


(** X19. [forward] leaves the module as it was unless it computes fresh
    statistics and the module has a running mean: in evaluation mode
    with tracked statistics, and whenever the module has no running
    mean, the module afterwards is the module before. *)
Theorem module_forward_keeps_running_stats_in_eval (self : NormModule)
    (input : DeviceTensor) (out : TorchTensor) (self' : NormModule) :
  module_forward self input = Return (out, self') ->
  training self || negb (track_running_stats self) = false \/
  mod_running_mean self = None ->
  self' = self.
Proof.
  intros H Hmode.
  apply module_forward_inv in H
    as (_ & _ & sa & ctx & rm & rv & _ & Hfwd & ->).
  enough (rm = mod_running_mean self /\ rv = mod_running_var self)
    as [-> ->] by now destruct self.
  revert Hfwd. unfold NormNVFuserFunction_forward, rbind.
  destruct (if is_channels_last input then _ else _) as [x' |];
    [| discriminate].
  destruct (forward_definition _ _ _ _ _ _ _ _ _ _ _ _ _)
    as [[[[inputs tv_rm] tv_rv] fd] |] eqn:Hdef; [| discriminate].
  destruct (mod_running_mean self) as [rm0 |] eqn:Hrm.
  - destruct Hmode as [Hmode | Hnone]; [| discriminate].
    rewrite Hmode in Hdef.
    destruct (mod_running_var self) as [rv0 |] eqn:Hrv.
    + apply forward_definition_inference in Hdef as (Hw & Hm & Hv).
      rewrite Hw, Hm, Hv.
      destruct (returned_outputs _ _) as [| o1 [| o2 [| o3 [| o4 l]]]];
        try discriminate.
      destruct (if is_channels_last input then _ else _); [| discriminate].
      intros [= _ _ <- <-]. auto.
    + exfalso. revert Hdef.
      unfold forward_definition, define_optional, partially_contig_tensor.
      repeat
        (cbn - [norm_fusion_forward];
         match goal with
         | |- context [match rank ?t with _ => _ end] => destruct (rank t)
         | |- context [match ?o with Some _ => _ | None => _ end] =>
             is_var o; destruct o
         | |- context [match ?o with Some _ => _ | None => _ end] =>
             destruct o
         end; try discriminate).
  - apply forward_definition_untracked in Hdef as [-> ->].
    cbn [after_execute].
    destruct (returned_outputs _ _) as [| o1 [| o2 [| o3 [| o4 l]]]];
      try discriminate.
    destruct (if is_channels_last input then _ else _); [| discriminate].
    intros [= _ _ <- <-]. destruct (mod_running_var self); auto.
Qed.

(** ** The modules end to end *)

Local Open Scope R_scope.

Lemma materialize_cast_if_reduced (env : list TVal) (d : option DataType)
    (e : Expr) :
  materialize env (cast_if_reduced d e) = materialize env e.
Proof. destruct d as [[] |]; reflexivity. Qed.

Tactic Notation "run_graph" :=
  cbv - [Rplus Rminus Rmult Rdiv Rinv Ropp sqrt IZR INR Nat.mul Rsum_to
         materialize cast_if_reduced torch2datatype].
Tactic Notation "run_graph" "in" hyp(H) :=
  cbv - [Rplus Rminus Rmult Rdiv Rinv Ropp sqrt IZR INR Nat.mul Rsum_to
         materialize cast_if_reduced torch2datatype] in H.

Tactic Notation "run_values" :=
  cbv - [Rplus Rminus Rmult Rdiv Rinv Ropp sqrt IZR INR Nat.mul Rsum_to
         torch2datatype].
Tactic Notation "run_values" "in" hyp(H) :=
  cbv - [Rplus Rminus Rmult Rdiv Rinv Ropp sqrt IZR INR Nat.mul Rsum_to
         torch2datatype] in H.

Ltac open_module self input :=
  let dt := fresh "dt" in
  let sh := fresh "sh" in
  let x := fresh "x" in
  destruct self as [k w b rm rv tr tk mo ep];
  destruct input as [[dt [sh x] cl] cuda];
  cbn [klass mod_weight mod_bias mod_running_mean mod_running_var training
       track_running_stats mod_momentum mod_eps tensor is_cuda dtype data
       is_channels_last shape at_] in *.

Ltac open_parameter t H :=
  let dt := fresh "dt" in
  let sh := fresh "sh" in
  let f := fresh "f" in
  let cl := fresh "cl" in
  destruct t as [[dt [sh f] cl] |];
  cbn [per_channel data shape] in H; [subst sh |].

Ltac open_tensor t H :=
  let dt := fresh "dt" in
  let sh := fresh "sh" in
  let f := fresh "f" in
  let cl := fresh "cl" in
  destruct t as [dt [sh f] cl];
  cbn [data shape] in H; subst sh.

(** Unfold a call of [forward] as far as the tests on the element types,
    decide each of them, and run the fusion definition. *)
Ltac run_forward :=
  unfold module_forward, NormNVFuserFunction_forward;
  cbn [klass mod_weight mod_bias mod_running_mean mod_running_var training
       track_running_stats mod_momentum mod_eps tensor is_cuda dtype data
       is_channels_last shape at_ rbind];
  try match goal with
      | |- context [(?a || negb ?b)%bool] =>
          is_var a; generalize (a || negb b)%bool; intros [|]
      end;
  repeat match goal with
         | |- context [permute ?v ?o] =>
             let r := eval cbv in (permute v o) in
             change (permute v o) with r
         end;
  cbn [dtype data is_channels_last shape at_ rbind];
  unfold forward_definition, define_optional, upcast_optional;
  cbn [dtype];
  repeat match goal with
         | |- context [is_torch_reduced ?d] =>
             is_var d; destruct (is_torch_reduced d)
         | |- context [is_reduced (torch2datatype ?d)] =>
             is_var d; destruct (is_reduced (torch2datatype d))
         end;
  run_graph; rewrite ?materialize_cast_if_reduced.

Ltac tidy_counts :=
  rewrite ?Nat.mul_1_r, ?Rminus_0_r, ?Rmult_1_l.


(** X21. In evaluation mode with tracked statistics
    [InstanceNorm1dNVFuser] normalizes with the running statistics of
    the channel, [(x - running_mean[c]) / sqrt(running_var[c] + eps)],
    followed by the affine step, and leaves the module as it was. *)
Theorem instance_norm_1d_eval_uses_running_stats
    (self : NormModule) (input : DeviceTensor) (N C L : nat)
    (running_mean running_var : TorchTensor) :
  klass self = InstanceNorm1dNVFuser ->
  is_cuda input = true ->
  is_channels_last input = false ->
  shape (data input) = [N; C; L] ->
  training self = false ->
  track_running_stats self = true ->
  mod_running_mean self = Some running_mean ->
  mod_running_var self = Some running_var ->
  shape (data running_mean) = [C] ->
  shape (data running_var) = [C] ->
  per_channel C (mod_weight self) ->
  per_channel C (mod_bias self) ->
  exists out,
    module_forward self input = Return (out, self) /\
    shape (data out) = [N; C; L] /\
    forall n c l,
      at_ (data out) [n; c; l] =
      scale_and_shift (mod_weight self) (mod_bias self) c
        ((at_ (data input) [n; c; l] - at_ (data running_mean) [c]) *
         / sqrt (at_ (data running_var) [c] + mod_eps self)).
Proof.
  intros Hk Hcuda Hcl Hsh Htr Htk Hrm Hrv Hsm Hsv Hw Hb.
  open_module self input. subst.
  open_tensor running_mean Hsm. open_tensor running_var Hsv.
  open_parameter w Hw; open_parameter b Hb.
  all: run_forward.
  all: eexists; (split; [run_values; reflexivity |]);
    (split; [run_values; reflexivity |]).
  all: intros n c l; run_values; tidy_counts; reflexivity.
Qed.



(** X23. [InstanceNorm2dNVFuser] without running statistics normalizes
    every instance over its [H * W] positions, and the values do not
    depend on the memory format: a channels-last input gives the same
    value at every [n; c; h; w] as a contiguous one, and the result
    carries the memory-format flag of the input. *)
Theorem instance_norm_2d_normalizes_each_instance
    (self : NormModule) (input : DeviceTensor) (N C H W : nat) :
  klass self = InstanceNorm2dNVFuser ->
  is_cuda input = true ->
  shape (data input) = [N; C; H; W] ->
  mod_running_mean self = None ->
  mod_running_var self = None ->
  per_channel C (mod_weight self) ->
  per_channel C (mod_bias self) ->
  exists out,
    module_forward self input = Return (out, self) /\
    shape (data out) = [N; C; H; W] /\
    is_channels_last out = is_channels_last input /\
    forall n c h w,
      let x := at_ (data input) in
      let over (f : nat -> nat -> R) :=
        Rsum_to H (fun i => Rsum_to W (fun j => f i j)) / INR (H * W) in
      let mean := over (fun i j => x [n; c; i; j]) in
      let var :=
        over (fun i j => (x [n; c; i; j] - mean) * (x [n; c; i; j] - mean)) in
      at_ (data out) [n; c; h; w] =
      scale_and_shift (mod_weight self) (mod_bias self) c
        ((x [n; c; h; w] - mean) * / sqrt (var + mod_eps self)).
Proof.
  intros Hk Hcuda Hsh Hrm Hrv Hw Hb.
  open_module self input. subst.
  open_parameter w Hw; open_parameter b Hb.
  all: destruct cl.
  all: run_forward.
  all: eexists; (split; [run_values; reflexivity |]);
    (split; [run_values; reflexivity |]); (split; [reflexivity |]).
  all: intros n c h w'; run_values; tidy_counts; reflexivity.
Qed.

(** X24. [InstanceNorm3dNVFuser] without running statistics normalizes
    every instance over its [D * H * W] positions, for a contiguous
    input as for a channels-last one. *)
Theorem instance_norm_3d_normalizes_each_instance
    (self : NormModule) (input : DeviceTensor) (N C D H W : nat) :
  klass self = InstanceNorm3dNVFuser ->
  is_cuda input = true ->
  shape (data input) = [N; C; D; H; W] ->
  mod_running_mean self = None ->
  mod_running_var self = None ->
  per_channel C (mod_weight self) ->
  per_channel C (mod_bias self) ->
  exists out,
    module_forward self input = Return (out, self) /\
    shape (data out) = [N; C; D; H; W] /\
    is_channels_last out = is_channels_last input /\
    forall n c d h w,
      let x := at_ (data input) in
      let over (f : nat -> nat -> nat -> R) :=
        Rsum_to D
          (fun i => Rsum_to H (fun j => Rsum_to W (fun k => f i j k)))
        / INR (D * (H * W)) in
      let mean := over (fun i j k => x [n; c; i; j; k]) in
      let var :=
        over (fun i j k =>
                (x [n; c; i; j; k] - mean) * (x [n; c; i; j; k] - mean)) in
      at_ (data out) [n; c; d; h; w] =
      scale_and_shift (mod_weight self) (mod_bias self) c
        ((x [n; c; d; h; w] - mean) * / sqrt (var + mod_eps self)).
Proof.
  intros Hk Hcuda Hsh Hrm Hrv Hw Hb.
  open_module self input. subst.
  open_parameter w Hw; open_parameter b Hb.
  all: destruct cl.
  all: run_forward.
  all: eexists; (split; [run_values; reflexivity |]);
    (split; [run_values; reflexivity |]); (split; [reflexivity |]).
  all: intros n c d h w'; run_values; tidy_counts; reflexivity.
Qed.




Local Close Scope R_scope.

(** ** Contiguity flags, state loading and the launcher *)

Local Open Scope Z_scope.

Lemma getitem_minus_one (a : Z) (l : list Z) :
  getitem (a :: l) (-1) = Return (last (a :: l) 0).
Proof.
  assert (Hnth : nth (length l) (a :: l) 0 = last (a :: l) 0).
  { revert a. induction l as [| b l IH]; intros a; [reflexivity |].
    change (nth (length l) (b :: l) 0 = last (b :: l) 0). apply IH. }
  unfold getitem.
  destruct (Z.leb_spec 0 (-1)); [lia |]. cbn [andb].
  destruct (Z.leb_spec (- Z.of_nat (length (a :: l))) (-1));
    [| cbn [length] in *; lia].
  cbn [andb Z.ltb Z.compare].
  replace (Z.to_nat (Z.of_nat (length (a :: l)) + -1)) with (length l)
    by (cbn [length]; lia).
  now rewrite Hnth.
Qed.

Lemma contig_cons (s0 : Z) (stride : list Z) (n0 : Z) (shape : list Z) :
  contig (s0 :: stride) (n0 :: shape) =
  Return
    (zip_with3 (fun sp s n => sp =? s * n) (s0 :: stride) stride shape ++
     [last (s0 :: stride) 0 =? 1]).
Proof. unfold contig. rewrite getitem_minus_one. reflexivity. Qed.

Lemma zip_with3_shifted_length (f : Z -> Z -> Z -> bool) (s0 : Z)
    (stride shape : list Z) :
  length shape = length stride ->
  length (zip_with3 f (s0 :: stride) stride shape) = length stride.
Proof.
  revert s0 shape. induction stride as [| s1 stride IH]; intros s0 shape Hlen.
  - reflexivity.
  - destruct shape as [| n1 shape]; [discriminate |].
    injection Hlen as Hlen. cbn [zip_with3 length]. f_equal.
    now apply IH.
Qed.

Lemma packed_flags (s0 : Z) (stride : list Z) (shape : list Z) :
  length shape = length stride ->
  forallb (fun b => b)
    (zip_with3 (fun sp s n => sp =? s * n) (s0 :: stride) stride shape ++
     [last (s0 :: stride) 0 =? 1]) = true <->
  forall k, (k < S (length stride))%nat ->
            nth k (s0 :: stride) 0 = fold_right Z.mul 1 (skipn k shape).
Proof.
  revert s0 shape. induction stride as [| s1 stride IH]; intros s0 shape Hlen.
  - destruct shape; [| discriminate]. cbn. rewrite andb_true_r, Z.eqb_eq.
    split.
    + intros -> [| k] Hk; [reflexivity | lia].
    + intros H. apply (H 0%nat). lia.
  - destruct shape as [| n1 shape]; [discriminate |].
    injection Hlen as Hlen.
    change (zip_with3 _ (s0 :: s1 :: stride) (s1 :: stride) (n1 :: shape))
      with ((s0 =? s1 * n1) ::
            zip_with3 (fun sp s n => sp =? s * n) (s1 :: stride) stride shape).
    change (last (s0 :: s1 :: stride) 0) with (last (s1 :: stride) 0).
    cbn [app forallb]. rewrite andb_true_iff, Z.eqb_eq, (IH s1 shape Hlen).
    split.
    + intros [H0 H] [| k] Hk.
      * pose proof (H 0%nat ltac:(cbn; lia)) as H1.
        cbn [nth skipn fold_right] in *. rewrite H0, H1. lia.
      * cbn [nth skipn]. apply H. cbn [length] in Hk. lia.
    + intros H. split.
      * pose proof (H 0%nat ltac:(cbn; lia)) as H0.
        pose proof (H 1%nat ltac:(cbn; lia)) as H1.
        cbn [nth skipn fold_right] in H0, H1. rewrite H0, H1. lia.
      * intros k Hk. apply (H (S k)). cbn [length] in *. lia.
Qed.

(** X27. The contiguity flags [partially_contig_tensor] computes from a
    stride tuple and a shape of the same length: the empty stride tuple
    of a zero-dimensional tensor raises [IndexError]; otherwise there is
    one flag per dimension, and all flags are set exactly when every
    stride is the product of the sizes of the dimensions after it, the
    strides of a packed row-major tensor.  The size of the first
    dimension plays no part. *)
Theorem contig_flags_mark_packed_strides (stride shape : list Z) :
  length shape = length stride ->
  (stride = [] -> contig stride shape = Throw Exc.IndexError) /\
  (stride <> [] ->
   exists flags,
     contig stride shape = Return flags /\
     length flags = length stride /\
     (forallb (fun b => b) flags = true <->
      forall k, (k < length stride)%nat ->
                nth k stride 0 = fold_right Z.mul 1 (skipn (S k) shape))).
Proof.
  intros Hlen. split; [intros ->; reflexivity |]. intros Hne.
  destruct stride as [| s0 stride]; [contradiction |].
  destruct shape as [| n0 shape]; [discriminate |].
  injection Hlen as Hlen.
  eexists. split; [apply contig_cons |]. split.
  - rewrite length_app, zip_with3_shifted_length by exact Hlen.
    cbn [length]. lia.
  - apply packed_flags. exact Hlen.
Qed.

Local Close Scope Z_scope.

Section StateDict.

Context {V W : Type}.

Lemma dict_has_pop (key key' : String.string) (d : StateDict V) :
  dict_has key (dict_pop key' d) =
  negb (String.eqb key' key) && dict_has key d.
Proof.
  unfold dict_has, dict_pop.
  induction d as [| [k v] d IH]; cbn [filter existsb fst].
  - now rewrite andb_false_r.
  - destruct (String.eqb_spec key' k) as [-> | Hk]; cbn [negb existsb fst].
    + rewrite IH. destruct (String.eqb_spec k key) as [-> | Hne].
      * reflexivity.
      * cbn [negb andb]. apply String.eqb_neq in Hne.
        rewrite String.eqb_sym, Hne. reflexivity.
    + rewrite IH. destruct (String.eqb_spec key k) as [-> | Hne].
      * apply String.eqb_neq in Hk. rewrite Hk. reflexivity.
      * cbn [orb]. reflexivity.
Qed.

Lemma dict_get_pop (key key' : String.string) (d : StateDict V) :
  key <> key' -> dict_get key (dict_pop key' d) = dict_get key d.
Proof.
  intros Hne. unfold dict_get, dict_pop.
  induction d as [| [k v] d IH]; cbn [filter find fst]; [reflexivity |].
  destruct (String.eqb_spec key' k) as [-> | Hk]; cbn [negb find fst].
  - apply String.eqb_neq in Hne. now rewrite Hne.
  - destruct (String.eqb key k); [reflexivity | exact IH].
Qed.

(** X28. [_load_from_state_dict] on a module that does not track
    running statistics, for a state without a version: the state handed
    on holds neither running-statistics key of the prefix, every other
    key is found as before, and exactly one message is appended to
    [error_msgs] when one of the two keys was present; when none was,
    the state and the messages are handed on as they are. *)
Theorem load_from_state_dict_drops_running_stats (self : NormModule)
    (state_dict : StateDict V) (prefix : String.string)
    (error_msgs : list String.string) :
  track_running_stats self = false ->
  let mean_key := String.append prefix running_mean_name in
  let var_key := String.append prefix running_var_name in
  let result :=
    load_from_state_dict self state_dict prefix (@None W) error_msgs in
  dict_has mean_key (fst result) = false /\
  dict_has var_key (fst result) = false /\
  (forall key,
      key <> mean_key -> key <> var_key ->
      dict_get key (fst result) = dict_get key state_dict) /\
  (if dict_has mean_key state_dict || dict_has var_key state_dict
   then exists msg, snd result = error_msgs ++ [msg]
   else result = (state_dict, error_msgs)).
Proof.
  intros Htrack mean_key var_key result. subst result.
  unfold load_from_state_dict. rewrite Htrack.
  cbn [is_none negb andb running_stats_names map filter].
  fold mean_key var_key.
  destruct (dict_has mean_key state_dict) eqn:Hm,
           (dict_has var_key state_dict) eqn:Hv;
    cbn [filter length Nat.ltb Nat.leb fold_left orb fst snd].
  - rewrite !dict_has_pop, !String.eqb_refl. cbn [negb andb].
    rewrite andb_false_r.
    split; [reflexivity |]. split; [reflexivity |].
    split; [| eexists; reflexivity].
    intros key H1 H2. now rewrite !dict_get_pop.
  - rewrite !dict_has_pop, !String.eqb_refl, Hv. cbn [negb andb].
    rewrite andb_false_r.
    split; [reflexivity |]. split; [reflexivity |].
    split; [| eexists; reflexivity].
    intros key H1 H2. now rewrite dict_get_pop.
  - rewrite !dict_has_pop, !String.eqb_refl, Hm. cbn [negb andb].
    rewrite andb_false_r.
    split; [reflexivity |]. split; [reflexivity |].
    split; [| eexists; reflexivity].
    intros key H1 H2. now rewrite dict_get_pop.
  - auto.
Qed.

End StateDict.

Lemma get_launch_option_spec (n : Z) (test_filename : String.string) :
  get_launch_option n test_filename =
  if existsb (fun t => contains t test_filename) MULTIGPU_TEST
  then ((n <? 2)%Z, String.append distributed_launch (str (Z.min n 2)))
  else (false, String.EmptyString).
Proof.
  unfold get_launch_option, MULTIGPU_TEST. cbn [launch_option_loop existsb].
  destruct (contains _ test_filename); [reflexivity |].
  destruct (contains _ test_filename); reflexivity.
Qed.

Lemma existsb_false_forall (f : String.string -> bool) (l : list String.string) :
  existsb f l = false -> forall t, In t l -> f t = false.
Proof.
  intros H t Ht. destruct (f t) eqn:Hf; [| reflexivity].
  rewrite <- H. symmetry. apply existsb_exists. eauto.
Qed.

Lemma run_files_spec (host : Host) (files : list String.string) :
  forall commands errors,
  exists cmds errs,
    run_files host files commands errors =
    (commands ++ cmds, errors ++ errs) /\
    (forall cmd, In cmd cmds ->
        exists test_file launch_option,
          In test_file files /\
          cmd = test_run_cmd host launch_option test_file /\
          allowed_run host test_file launch_option) /\
    (errs = [] <-> forall cmd, In cmd cmds -> passes host cmd) /\
    (length errs <= length cmds <= length files)%nat.
Proof.
  induction files as [| test_file files IH]; intros commands errors.
  - exists [], []. cbn. rewrite !app_nil_r.
    repeat split; auto; try lia; try (intros cmd []).
  - cbn [run_files].
    destruct (existsb _ DENY_TEST) eqn:Hdeny.
    { destruct (IH commands errors) as (cmds & errs & Hrun & Hcmd & Herr & Hlen).
      exists cmds, errs. split; [exact Hrun |]. split; [| split; [exact Herr |]].
      - intros cmd Hin. destruct (Hcmd cmd Hin) as (f & o & Hf & Hrest).
        exists f, o. split; [now right | exact Hrest].
      - cbn [length]. lia. }
    rewrite get_launch_option_spec.
    destruct (existsb _ MULTIGPU_TEST) eqn:Hmulti.
    + destruct (Z.ltb_spec (device_count host) 2) as [Hlt | Hge].
      { destruct (IH commands errors) as (cmds & errs & Hrun & Hcmd & Herr & Hlen).
        exists cmds, errs. split; [exact Hrun |]. split; [| split; [exact Herr |]].
        - intros cmd Hin. destruct (Hcmd cmd Hin) as (f & o & Hf & Hrest).
          exists f, o. split; [now right | exact Hrest].
        - cbn [length]. lia. }
      rewrite Z.min_r by lia.
      set (option := String.append distributed_launch (str 2)).
      set (cmd0 := test_run_cmd host option test_file).
      assert (Hallowed : allowed_run host test_file option).
      { split; [now apply existsb_false_forall |].
        split; [auto |].
        intros Hnone. apply existsb_exists in Hmulti as (t & Ht & Hc).
        rewrite (Hnone t Ht) in Hc. discriminate. }
      destruct (check_output host cmd0) as [e | output] eqn:Hout;
        [| destruct (contains passed_marker output) eqn:Hpass; cbn [negb]].
      * destruct (IH (commands ++ [cmd0]) (errors ++ [(test_file, e)]))
          as (cmds & errs & Hrun & Hcmd & Herr & Hlen).
        exists (cmd0 :: cmds), ((test_file, e) :: errs).
        rewrite Hrun, <- !app_assoc. split; [reflexivity |].
        split; [| split].
        -- intros cmd [<- | Hin].
           ++ exists test_file, option. split; [now left | auto].
           ++ destruct (Hcmd cmd Hin) as (f & o & Hf & Hrest).
              exists f, o. split; [now right | exact Hrest].
        -- split; [discriminate |]. intros Hall.
           destruct (Hall cmd0 (or_introl eq_refl)) as (output & Ho & _).
           congruence.
        -- cbn [length]. lia.
      * destruct (IH (commands ++ [cmd0]) errors)
          as (cmds & errs & Hrun & Hcmd & Herr & Hlen).
        exists (cmd0 :: cmds), errs.
        rewrite Hrun, <- !app_assoc. split; [reflexivity |].
        split; [| split].
        -- intros cmd [<- | Hin].
           ++ exists test_file, option. split; [now left | auto].
           ++ destruct (Hcmd cmd Hin) as (f & o & Hf & Hrest).
              exists f, o. split; [now right | exact Hrest].
        -- rewrite Herr. split.
           ++ intros Hall cmd [<- | Hin]; [exists output; auto | auto].
           ++ intros Hall cmd Hin. apply Hall. now right.
        -- cbn [length]. lia.
      * destruct (IH (commands ++ [cmd0]) (errors ++ [(test_file, output)]))
          as (cmds & errs & Hrun & Hcmd & Herr & Hlen).
        exists (cmd0 :: cmds), ((test_file, output) :: errs).
        rewrite Hrun, <- !app_assoc. split; [reflexivity |].
        split; [| split].
        -- intros cmd [<- | Hin].
           ++ exists test_file, option. split; [now left | auto].
           ++ destruct (Hcmd cmd Hin) as (f & o & Hf & Hrest).
              exists f, o. split; [now right | exact Hrest].
        -- split; [discriminate |]. intros Hall.
           destruct (Hall cmd0 (or_introl eq_refl)) as (output' & Ho & Hp).
           congruence.
        -- cbn [length]. lia.
    + set (option := String.EmptyString).
      set (cmd0 := test_run_cmd host option test_file).
      assert (Hallowed : allowed_run host test_file option).
      { split; [now apply existsb_false_forall |].
        split; [| auto].
        intros (t & Ht & Hc).
        rewrite (existsb_false_forall _ _ Hmulti t Ht) in Hc. discriminate. }
      destruct (check_output host cmd0) as [e | output] eqn:Hout;
        [| destruct (contains passed_marker output) eqn:Hpass; cbn [negb]].
      * destruct (IH (commands ++ [cmd0]) (errors ++ [(test_file, e)]))
          as (cmds & errs & Hrun & Hcmd & Herr & Hlen).
        exists (cmd0 :: cmds), ((test_file, e) :: errs).
        rewrite Hrun, <- !app_assoc. split; [reflexivity |].
        split; [| split].
        -- intros cmd [<- | Hin].
           ++ exists test_file, option. split; [now left | auto].
           ++ destruct (Hcmd cmd Hin) as (f & o & Hf & Hrest).
              exists f, o. split; [now right | exact Hrest].
        -- split; [discriminate |]. intros Hall.
           destruct (Hall cmd0 (or_introl eq_refl)) as (output & Ho & _).
           congruence.
        -- cbn [length]. lia.
      * destruct (IH (commands ++ [cmd0]) errors)
          as (cmds & errs & Hrun & Hcmd & Herr & Hlen).
        exists (cmd0 :: cmds), errs.
        rewrite Hrun, <- !app_assoc. split; [reflexivity |].
        split; [| split].
        -- intros cmd [<- | Hin].
           ++ exists test_file, option. split; [now left | auto].
           ++ destruct (Hcmd cmd Hin) as (f & o & Hf & Hrest).
              exists f, o. split; [now right | exact Hrest].
        -- rewrite Herr. split.
           ++ intros Hall cmd [<- | Hin]; [exists output; auto | auto].
           ++ intros Hall cmd Hin. apply Hall. now right.
        -- cbn [length]. lia.
      * destruct (IH (commands ++ [cmd0]) (errors ++ [(test_file, output)]))
          as (cmds & errs & Hrun & Hcmd & Herr & Hlen).
        exists (cmd0 :: cmds), ((test_file, output) :: errs).
        rewrite Hrun, <- !app_assoc. split; [reflexivity |].
        split; [| split].
        -- intros cmd [<- | Hin].
           ++ exists test_file, option. split; [now left | auto].
           ++ destruct (Hcmd cmd Hin) as (f & o & Hf & Hrest).
              exists f, o. split; [now right | exact Hrest].
        -- split; [discriminate |]. intros Hall.
           destruct (Hall cmd0 (or_introl eq_refl)) as (output' & Ho & Hp).
           congruence.
        -- cbn [length]. lia.
Qed.

(** X29. [run_transformer_tests] runs only the test files it may run,
    each with the launch option [get_launch_option] gives: a file whose
    path holds a denied name is never run, a multi-GPU test is run only
    on at least two devices and then on exactly two processes, and any
    other test is run without launch option.  It returns exactly when
    every command it ran printed the marker; otherwise it raises
    [RuntimeError] with the number of failed runs out of the number of
    all test files found, skipped ones included. *)
Theorem launcher_runs_only_allowed_tests (host : Host) :
  let files :=
    map (path_join host)
      (filter
         (fun f => String.prefix run_prefix f && isfile host (path_join host f))
         (listdir host)) in
  let commands := fst (run_transformer_tests host) in
  let outcome := snd (run_transformer_tests host) in
  (forall cmd,
      In cmd commands ->
      exists test_file launch_option,
        In test_file files /\
        cmd = test_run_cmd host launch_option test_file /\
        allowed_run host test_file launch_option) /\
  (outcome = Return tt <-> forall cmd, In cmd commands -> passes host cmd) /\
  (outcome = Return tt \/
   exists failed,
     (0 < failed <= length commands)%nat /\
     outcome =
     Throw
       (Exc.RuntimeError
          (String.append (str (Z.of_nat failed))
             (String.append out_of
                (String.append (str (Z.of_nat (length files)))
                   tests_failed))))).
Proof.
  intros files commands outcome. subst commands outcome.
  unfold run_transformer_tests. fold files.
  destruct (run_files_spec host files [] [])
    as (cmds & errs & Hrun & Hcmd & Herr & Hlen).
  rewrite Hrun. cbn [app].
  destruct errs as [| err errs]; cbn [fst snd].
  - split; [exact Hcmd |]. split; [| now left].
    split; [intros _; now apply Herr | reflexivity].
  - split; [exact Hcmd |]. split.
    + split; [discriminate |]. intros Hall. apply Herr in Hall. discriminate.
    + right. exists (length (err :: errs)). split; [cbn [length] in *; lia |].
      reflexivity.
Qed.

(** ** Instances for the modules and the helpers *)

Local Open Scope R_scope.

Lemma module_guards_witness :
  module_forward bn_module (cuda in_x) = Throw Exc.NotImplementedError /\
  module_forward in2d_plain (cuda in_x) =
  Throw (Exc.ValueError (format_dim expected_4d 3)) /\
  module_forward in1d_plain (mkDeviceTensor in_x false) =
  Throw (Exc.AssertionError cuda_msg).
Proof.
  split; [| split].
  - apply (@module_forward_guards bn_module (cuda in_x)).
    + reflexivity.
    + cbn. auto.
  - apply (proj2 (proj2 (@module_forward_guards in2d_plain (cuda in_x)))
             4%nat expected_4d).
    + reflexivity.
    + cbn. auto.
    + cbn. discriminate.
  - apply (@module_forward_guards in1d_plain (mkDeviceTensor in_x false)).
    reflexivity.
Defined.


Lemma module_forward_eval_witness :
  exists out self',
    module_forward in1d_eval (cuda in_x) = Return (out, self') /\
    (training in1d_eval || negb (track_running_stats in1d_eval) = false \/
     mod_running_mean in1d_eval = None) /\
    self' = in1d_eval.
Proof.
  eassert (H : module_forward in1d_eval (cuda in_x) = Return (_, _))
    by (run_values; reflexivity).
  do 2 eexists. split; [exact H |].
  split; [left; reflexivity |].
  apply (@module_forward_keeps_running_stats_in_eval _ _ _ _ H).
  left. reflexivity.
Defined.


Lemma instance_norm_1d_eval_witness :
  training in1d_eval = false /\
  track_running_stats in1d_eval = true /\
  shape (data in_running_mean) = [2%nat] /\
  shape (data in_running_var) = [2%nat] /\
  exists out,
    module_forward in1d_eval (cuda in_x) = Return (out, in1d_eval) /\
    shape (data out) = [2; 2; 1]%nat /\
    forall n c l,
      at_ (data out) [n; c; l] =
      scale_and_shift (mod_weight in1d_eval) (mod_bias in1d_eval) c
        ((at_ (data (cuda in_x)) [n; c; l] - at_ (data in_running_mean) [c]) *
         / sqrt (at_ (data in_running_var) [c] + mod_eps in1d_eval)).
Proof.
  split; [reflexivity |]. split; [reflexivity |].
  split; [reflexivity |]. split; [reflexivity |].
  apply (@instance_norm_1d_eval_uses_running_stats in1d_eval (cuda in_x)
           2%nat 2%nat 1%nat in_running_mean in_running_var); reflexivity.
Defined.


Lemma instance_norm_2d_witness :
  klass in2d_plain = InstanceNorm2dNVFuser /\
  shape (data (cuda (nchw_x true))) = [1; 2; 1; 2]%nat /\
  exists out,
    module_forward in2d_plain (cuda (nchw_x true)) =
    Return (out, in2d_plain) /\
    shape (data out) = [1; 2; 1; 2]%nat /\
    is_channels_last out = is_channels_last (cuda (nchw_x true)) /\
    forall n c h w,
      let x := at_ (data (cuda (nchw_x true))) in
      let over (f : nat -> nat -> R) :=
        Rsum_to 1 (fun i => Rsum_to 2 (fun j => f i j)) / INR (1 * 2) in
      let mean := over (fun i j => x [n; c; i; j]) in
      let var :=
        over (fun i j => (x [n; c; i; j] - mean) * (x [n; c; i; j] - mean)) in
      at_ (data out) [n; c; h; w] =
      scale_and_shift (mod_weight in2d_plain) (mod_bias in2d_plain) c
        ((x [n; c; h; w] - mean) * / sqrt (var + mod_eps in2d_plain)).
Proof.
  split; [reflexivity |]. split; [reflexivity |].
  apply (@instance_norm_2d_normalizes_each_instance in2d_plain
           (cuda (nchw_x true)) 1%nat 2%nat 1%nat 2%nat); reflexivity.
Defined.

Lemma instance_norm_3d_witness :
  klass in3d_plain = InstanceNorm3dNVFuser /\
  shape (data (cuda ncdhw_x)) = [1; 2; 1; 1; 2]%nat /\
  exists out,
    module_forward in3d_plain (cuda ncdhw_x) = Return (out, in3d_plain) /\
    shape (data out) = [1; 2; 1; 1; 2]%nat /\
    is_channels_last out = is_channels_last (cuda ncdhw_x) /\
    forall n c d h w,
      let x := at_ (data (cuda ncdhw_x)) in
      let over (f : nat -> nat -> nat -> R) :=
        Rsum_to 1
          (fun i => Rsum_to 1 (fun j => Rsum_to 2 (fun k => f i j k)))
        / INR (1 * (1 * 2)) in
      let mean := over (fun i j k => x [n; c; i; j; k]) in
      let var :=
        over (fun i j k =>
                (x [n; c; i; j; k] - mean) * (x [n; c; i; j; k] - mean)) in
      at_ (data out) [n; c; d; h; w] =
      scale_and_shift (mod_weight in3d_plain) (mod_bias in3d_plain) c
        ((x [n; c; d; h; w] - mean) * / sqrt (var + mod_eps in3d_plain)).
Proof.
  split; [reflexivity |]. split; [reflexivity |].
  apply (@instance_norm_3d_normalizes_each_instance in3d_plain
           (cuda ncdhw_x) 1%nat 2%nat 1%nat 1%nat 2%nat); reflexivity.
Defined.



Local Close Scope R_scope.

Local Open Scope Z_scope.

Lemma contig_flags_witness :
  length [4; 3; 2] = length [6; 2; 1] /\
  [6; 2; 1] <> [] /\
  exists flags,
    contig [6; 2; 1] [4; 3; 2] = Return flags /\
    length flags = length [6; 2; 1] /\
    (forallb (fun b => b) flags = true <->
     forall k, (k < length [6; 2; 1])%nat ->
               nth k [6; 2; 1] 0 = fold_right Z.mul 1 (skipn (S k) [4; 3; 2])).
Proof.
  split; [reflexivity |]. split; [discriminate |].
  apply (@contig_flags_mark_packed_strides [6; 2; 1] [4; 3; 2]).
  - reflexivity.
  - discriminate.
Defined.

Local Close Scope Z_scope.

Lemma load_from_state_dict_witness :
  track_running_stats in1d_plain = false /\
  let mean_key := String.append norm_prefix running_mean_name in
  let var_key := String.append norm_prefix running_var_name in
  let result :=
    load_from_state_dict in1d_plain old_checkpoint norm_prefix (@None nat) [] in
  dict_has mean_key (fst result) = false /\
  dict_has var_key (fst result) = false /\
  (forall key,
      key <> mean_key -> key <> var_key ->
      dict_get key (fst result) = dict_get key old_checkpoint) /\
  (if dict_has mean_key old_checkpoint || dict_has var_key old_checkpoint
   then exists msg, snd result = [] ++ [msg]
   else result = (old_checkpoint, [])).
Proof.
  split; [reflexivity |].
  apply (@load_from_state_dict_drops_running_stats Z nat in1d_plain
           old_checkpoint norm_prefix []).
  reflexivity.
Defined.
